(** * Class-funds ledger: a shallow embedding of the funds ledger and of the
    roster import of the classroom application.

    Sources embedded here:
    - [src/unnamed/part_003]            the record types ([Student], [Transaction], ...);
    - [src/services/db.ts]              the store over [localStorage] ([MockDatabase]);
    - [src/components/ClassFunds.tsx]   the funds component (module [ClassFunds]);
    - [src/unnamed/part_002]            the later revision of the same component,
                                        with local-time dates (module [ClassFundsLocal]).

    Conventions of the model.
    - Amounts are JavaScript numbers in the source; they are taken here as
      integers ([Z]), i.e. whole currency units. The statements about totals
      say which terms a total adds, what a term added last does to it, and how
      totals compare.
    - A JavaScript object used as a dictionary (payments, custom quotas,
      collection days) is a [gmap string _]; the one object whose key order is
      observed and whose keys are free text (the category totals) is modelled
      with its property order and with what it inherits from
      [Object.prototype].
    - Strings are Rocq strings. White space and case mapping are modelled on
      ASCII text, where a character, a code unit and a byte are the same
      thing; the statements that depend on them are made for ASCII text
      ([Js.isAscii]).
    - Everything the environment decides (the clock, [Math.random], whether
      [localStorage.setItem] throws) is an explicit input. *)

From Stdlib Require Import ZArith Ascii String Sorting.Sorted Sorting.Permutation.
From stdpp Require Import base tactics option list gmap fin_maps fin_sets strings pretty.

Local Open Scope Z_scope.

(** ** JavaScript strings *)

Module Js.

Definition LF : ascii := ascii_of_nat 10.
Definition CR : ascii := ascii_of_nat 13.

(** ASCII text: every character code is below 128. *)
Definition isAsciiChar (c : ascii) : bool := (nat_of_ascii c <? 128)%nat.

Fixpoint isAscii (s : string) : bool :=
  match s with
  | String c s' => isAsciiChar c && isAscii s'
  | EmptyString => true
  end.

(** The white space and the line terminators of ASCII, which are what
    [String.prototype.trim] strips from ASCII text and what [\s] matches
    there: TAB, LF, VT, FF, CR and the space. *)
Definition isWhiteSpace (c : ascii) : bool :=
  let n := nat_of_ascii c in
  ((9 <=? n)%nat && (n <=? 13)%nat) || (n =? 32)%nat.

Fixpoint trimStart (s : string) : string :=
  match s with
  | String c s' => if isWhiteSpace c then trimStart s' else s
  | EmptyString => EmptyString
  end.

(** Drops the trailing white space: a white-space character is kept only
    when something is left after it. *)
Fixpoint trimEnd (s : string) : string :=
  match s with
  | String c s' =>
      match trimEnd s' with
      | EmptyString => if isWhiteSpace c then EmptyString else String c EmptyString
      | t => String c t
      end
  | EmptyString => EmptyString
  end.

Definition trim (s : string) : string := trimEnd (trimStart s).

(** [s.split(/\r?\n/)]: the separator is a line feed, together with the
    carriage return right before it when there is one. [cur] is the piece
    being read. *)
Fixpoint splitLinesFrom (cur : string) (s : string) : list string :=
  match s with
  | EmptyString => [cur]
  | String c s' =>
      if Ascii.eqb c LF then cur :: splitLinesFrom EmptyString s'
      else if Ascii.eqb c CR then
        match s' with
        | String c' s'' =>
            if Ascii.eqb c' LF then cur :: splitLinesFrom EmptyString s''
            else splitLinesFrom (cur +:+ String c EmptyString) s'
        | EmptyString => [cur +:+ String c EmptyString]
        end
      else splitLinesFrom (cur +:+ String c EmptyString) s'
  end.

Definition splitLines (s : string) : list string := splitLinesFrom EmptyString s.

(** [toUpperCase] of ASCII text: the letters a-z are mapped, the other
    characters are left as they are. *)
Definition upperChar (c : ascii) : ascii :=
  let n := nat_of_ascii c in
  if ((97 <=? n)%nat && (n <=? 122)%nat) then ascii_of_nat (n - 32) else c.

Fixpoint toUpperCase (s : string) : string :=
  match s with
  | String c s' => String (upperChar c) (toUpperCase s')
  | EmptyString => EmptyString
  end.

Fixpoint startsWith (s p : string) : bool :=
  match p, s with
  | EmptyString, _ => true
  | String a p', String b s' => Ascii.eqb a b && startsWith s' p'
  | String _ _, EmptyString => false
  end.

(** [s.substring(n)] *)
Fixpoint substring (n : nat) (s : string) : string :=
  match n, s with
  | O, _ => s
  | S n', String _ s' => substring n' s'
  | S _, EmptyString => EmptyString
  end.

(** [s.replace(/[,]/g, '')] *)
Fixpoint removeCommas (s : string) : string :=
  match s with
  | String c s' => if Ascii.eqb c "," then removeCommas s' else String c (removeCommas s')
  | EmptyString => EmptyString
  end.

(** [s.split('T')[0]]: the text before the first [T]. *)
Fixpoint beforeT (s : string) : string :=
  match s with
  | String c s' => if Ascii.eqb c "T" then EmptyString else String c (beforeT s')
  | EmptyString => EmptyString
  end.

(** [String(n).padStart(2, '0')] for a non-negative integer. *)
Definition pad2 (n : Z) : string :=
  let s := pretty n in
  if (String.length s <? 2)%nat then "0" +:+ s else s.

(** [a <= b] on strings: lexicographic on the character codes. *)
Definition leb (a b : string) : bool := String.leb a b.

End Js.

(** ** The clock

    A [Date] object is known to the code through a few observations only:
    [Date.now()] / [getTime()], [toISOString()] (always UTC) and the local
    calendar fields. The two calendars differ whenever the local time zone is
    not UTC and the instant falls between the two midnights. *)

Record Date := {
  getTime : Z;
  toISOString : string;
  getFullYear : Z;
  getMonth : Z;          (* 0-based, as in JavaScript *)
  getDate : Z
}.

(** ** Data model ([src/unnamed/part_003]) *)

Inductive Gender := M | F.

Record Student := {
  id : string;
  name : string;
  gender : Gender;
  payments : gmap string Z       (* Date (YYYY-MM-DD) -> Amount Paid *)
}.

Inductive TransactionType := EXPENSE | INCOME.
Inductive TransactionStatus := PAID | PENDING.

Record Transaction := {
  tx_id : string;
  amount : Z;
  tx_date : string;
  description : string;
  tx_type : TransactionType;
  category : option string;
  status : option TransactionStatus
}.

Inductive Priority := High | Medium | Low.

Record PlannedExpense := {
  pe_id : string;
  item : string;
  estimatedCost : Z;
  priority : Priority;
  notes : option string
}.

Record AppSettings := {
  dailyQuota : Z;
  customQuotas : gmap string Z;          (* Date -> Quota Amount *)
  collectionDays : gmap string bool;     (* Date -> Is Collection Active? *)
  currencySymbol : string
}.

Global Instance Gender_eq_dec : EqDecision Gender.
Proof. solve_decision. Defined.
Global Instance Student_eq_dec : EqDecision Student.
Proof. solve_decision. Defined.
Global Instance TransactionType_eq_dec : EqDecision TransactionType.
Proof. solve_decision. Defined.
Global Instance TransactionStatus_eq_dec : EqDecision TransactionStatus.
Proof. solve_decision. Defined.
Global Instance Transaction_eq_dec : EqDecision Transaction.
Proof. solve_decision. Defined.
Global Instance Priority_eq_dec : EqDecision Priority.
Proof. solve_decision. Defined.
Global Instance PlannedExpense_eq_dec : EqDecision PlannedExpense.
Proof. solve_decision. Defined.


(** ** Arrays and objects of the JavaScript runtime *)

Module JsArray.

(** [Array.prototype.sort(cmp)]. The language requires the sort to be stable;
    with a consistent comparator its result is the one stable sorted
    arrangement, computed here by insertion. [x] comes from the left of
    [l], so it stays in front of the elements it does not exceed. *)
Fixpoint insert {A} (cmp : A → A → Z) (x : A) (l : list A) : list A :=
  match l with
  | [] => [x]
  | y :: l' => if cmp x y <=? 0 then x :: y :: l' else y :: insert cmp x l'
  end.

Definition sort {A} (cmp : A → A → Z) (l : list A) : list A :=
  foldr (insert cmp) [] l.

(** The comparator of [sort()] without an argument, on strings. *)
Definition defaultCompare (a b : string) : Z :=
  match String.compare a b with
  | Lt => -1
  | Eq => 0
  | Gt => 1
  end.

End JsArray.

Module JsObject.

(** [Object.keys] and [Object.values] of an object used as a dictionary. *)
Definition keys {V} (o : gmap string V) : list string := (map_to_list o).*1.
Definition values {V} (o : gmap string V) : list V := (map_to_list o).*2.

(** An object whose property order is observed: the own properties in the
    order of their creation. *)
Definition ordered (V : Type) := list (string * V).

Fixpoint get {V} (o : ordered V) (k : string) : option V :=
  match o with
  | [] => None
  | (k', v) :: o' => if decide (k' = k) then Some v else get o' k
  end.

(** [o[k] = v]: an existing property keeps its place, a new one is created
    last. *)
Fixpoint set {V} (o : ordered V) (k : string) (v : V) : ordered V :=
  match o with
  | [] => [(k, v)]
  | (k', v') :: o' => if decide (k' = k) then (k', v) :: o' else (k', v') :: set o' k v
  end.

Definition digit (c : ascii) : option N :=
  let n := N_of_ascii c in
  if ((48 <=? n) && (n <=? 57))%N then Some (n - 48)%N else None.

Fixpoint digits (acc : N) (s : string) : option N :=
  match s with
  | EmptyString => Some acc
  | String c s' =>
      match digit c with
      | Some d => digits (10 * acc + d)%N s'
      | None => None
      end
  end.

(** An array index is the canonical decimal text of an integer below
    [2^32 - 1]. *)
Definition arrayIndex (k : string) : option N :=
  match k with
  | EmptyString => None
  | _ =>
      match digits 0%N k with
      | Some n => if decide (pretty n = k ∧ (n < 4294967295)%N) then Some n else None
      | None => None
      end
  end.

Definition isArrayIndex (k : string) : bool := bool_decide (is_Some (arrayIndex k)).

Definition compareIndex (a b : string) : Z :=
  Z.of_N (default 0%N (arrayIndex a)) - Z.of_N (default 0%N (arrayIndex b)).

(** The order of the own property keys: the array indices in ascending
    numeric order, then the other names in the order of their creation. *)
Definition orderKeys (created : list string) : list string :=
  JsArray.sort compareIndex (filter (λ k, isArrayIndex k = true) created)
  ++ filter (λ k, isArrayIndex k = false) created.

Definition orderedKeys {V} (o : ordered V) : list string := orderKeys (o.*1).

(** What a property read [o[k]] of a plain object [{}] can give in this
    program: [undefined], a number, a string, or a function or object of
    [Object.prototype]. The strings that arise are the text of such a builtin
    followed by amounts; their characters are not modelled, they are never
    empty. *)
Inductive Value := Undefined | Number (n : Z) | Text | Builtin.

(** The names under which a plain object inherits a function from
    [Object.prototype]; under [__proto__] it inherits an accessor, whose
    getter gives [Object.prototype] itself. *)
Definition inheritedFunctions : list string :=
  ["constructor"; "hasOwnProperty"; "isPrototypeOf"; "propertyIsEnumerable";
   "toLocaleString"; "toString"; "valueOf"; "__defineGetter__"; "__defineSetter__";
   "__lookupGetter__"; "__lookupSetter__"].

Definition proto : string := "__proto__".

(** [o[k]]: the own property, else what the prototype gives. *)
Definition read (o : ordered Value) (k : string) : Value :=
  match get o k with
  | Some v => v
  | None => if decide (k ∈ inheritedFunctions ∨ k = proto) then Builtin else Undefined
  end.

(** [(x || 0) + amount]: [undefined] and the number 0 are falsy and count
    as 0; a builtin or a string is truthy, and [+] then makes a string. *)
Definition orZeroPlus (x : Value) (amount : Z) : Value :=
  match x with
  | Undefined => Number (0 + amount)
  | Number n => Number (n + amount)
  | Text | Builtin => Text
  end.

(** [o[k] = v] for a number or a string [v]: the setter behind [__proto__]
    ignores such a value and no property is created; under any other name
    the own property is set, or created last. *)
Definition assign (o : ordered Value) (k : string) (v : Value) : ordered Value :=
  if decide (k = proto) then o else set o k v.

End JsObject.

(** ** The store ([src/services/db.ts]) *)

(** [localStorage] holds one JSON text per table; a table never written is
    absent. [setItem_outcomes] lists what the coming calls of [setItem] do:
    [true] stores, [false] throws (a full quota); once the list is used up
    the calls store. *)
Record LocalStorage := {
  tbl_students : option (list Student);
  tbl_transactions : option (list Transaction);
  tbl_planned_expenses : option (list PlannedExpense);
  tbl_settings : option AppSettings;
  setItem_outcomes : list bool
}.

Module Db.

Definition DEFAULT_SETTINGS : AppSettings :=
  {| dailyQuota := 5; currencySymbol := "₱"; customQuotas := ∅; collectionDays := ∅ |}.

Definition mkStudent (i n : string) (g : Gender) : Student :=
  {| id := i; name := n; gender := g; payments := ∅ |}.

(** [constants.ts] (appended to the component's file in the sources). *)
Definition INITIAL_STUDENTS : list Student :=
  [ mkStudent "m1" "Agarao, Franco Angelo" M;
    mkStudent "m2" "Bobares, John Marel" M;
    mkStudent "m3" "Borrico, Ralph Syrill" M;
    mkStudent "m4" "Espago, Mart Sandy" M;
    mkStudent "m5" "Garopel, Symon Patrick" M;
    mkStudent "m6" "Handog, Shane Kian" M;
    mkStudent "m7" "Hingada, Chris Michael" M;
    mkStudent "m8" "Ignacio, Nash Paul" M;
    mkStudent "m9" "Libot, Jake" M;
    mkStudent "m10" "Luna, John Paul" M;
    mkStudent "m11" "Monterey, Mhiko" M;
    mkStudent "m12" "Namuco, John Peter" M;
    mkStudent "m13" "Reyes, Jose Antonio Lorenzo" M;
    mkStudent "m14" "Sadian, John Zen" M;
    mkStudent "m15" "Talon, Denzel" M;
    mkStudent "f1" "Baldespinosa, Joanah Mae" F;
    mkStudent "f2" "Cacayuran, Zaicy" F;
    mkStudent "f3" "Dalay, Shairah Mae" F;
    mkStudent "f4" "Dela Cruz, Janil Jhane" F;
    mkStudent "f5" "Espenocilla, Sally" F;
    mkStudent "f6" "Flores, Frances Miche Janne" F;
    mkStudent "f7" "Gayatgay, Richell" F;
    mkStudent "f8" "Handog, Princess Jenn" F;
    mkStudent "f9" "Herrera, Kim Caullie" F;
    mkStudent "f10" "Napalan, Reynalin Rose" F;
    mkStudent "f11" "Panganod, Kylle Erica" F;
    mkStudent "f12" "Sabater, Nian Joyce" F;
    mkStudent "f13" "Salcedo, Rosemarie" F;
    mkStudent "f14" "Sastrillo, Eunice Christen" F;
    mkStudent "f15" "Set, January Ross" F;
    mkStudent "f16" "Taduran, Cedi" F;
    mkStudent "f17" "Uylengco, Fatima" F;
    mkStudent "f18" "Wee Sit, Jazzryl Faith" F ].

(** [private set]: the write is tried; when [setItem] throws, the error is
    logged and the table keeps its old text. Returns whether this call
    stores, and the outcomes left for the later calls. *)
Definition nextSetItem (ls : LocalStorage) : bool * list bool :=
  match setItem_outcomes ls with
  | [] => (true, [])
  | ok :: rest => (ok, rest)
  end.

(** [private get]: the stored value, or the default when the table is absent. *)
Definition get {T} (table : option T) (defaultValue : T) : T :=
  default defaultValue table.

(** [{ ...DEFAULT_SETTINGS, ...settings }]: a stored record has every field,
    so the spread keeps it as it is. *)
Definition getSettings (ls : LocalStorage) : AppSettings :=
  get (tbl_settings ls) DEFAULT_SETTINGS.

Definition saveSettings (data : AppSettings) (ls : LocalStorage) : LocalStorage :=
  let '(ok, rest) := nextSetItem ls in
  {| tbl_students := tbl_students ls;
     tbl_transactions := tbl_transactions ls;
     tbl_planned_expenses := tbl_planned_expenses ls;
     tbl_settings := if ok then Some data else tbl_settings ls;
     setItem_outcomes := rest |}.

Definition getStudents (ls : LocalStorage) : list Student :=
  get (tbl_students ls) INITIAL_STUDENTS.

Definition saveStudents (data : list Student) (ls : LocalStorage) : LocalStorage :=
  let '(ok, rest) := nextSetItem ls in
  {| tbl_students := if ok then Some data else tbl_students ls;
     tbl_transactions := tbl_transactions ls;
     tbl_planned_expenses := tbl_planned_expenses ls;
     tbl_settings := tbl_settings ls;
     setItem_outcomes := rest |}.

(** [Date.now().toString() + Math.random().toString(36).substr(2, 5)]:
    [random] is the text the second half yields. *)
Definition newStudentId (now : Date) (random : string) : string :=
  pretty (getTime now) +:+ random.

Definition addStudent (now : Date) (random : string) (n : string) (g : Gender)
    (ls : LocalStorage) : Student * LocalStorage :=
  let students := getStudents ls in
  let newStudent := {| id := newStudentId now random; name := n; gender := g; payments := ∅ |} in
  (newStudent, saveStudents (students ++ [newStudent]) ls).

Definition deleteStudent (i : string) (ls : LocalStorage) : LocalStorage :=
  let students := filter (λ s, id s ≠ i) (getStudents ls) in
  saveStudents students ls.

(** The lines of the text: split, trimmed, the empty ones dropped. *)
Definition importLines (text : string) : list string :=
  filter (λ n, (0 < String.length n)%nat) (Js.trim <$> Js.splitLines text).

(** The gender and the name read from one line. *)
Definition parseLine (line : string) : Gender * string :=
  if Js.startsWith (Js.toUpperCase line) "F " || Js.startsWith (Js.toUpperCase line) "F,"
  then (F, Js.trim (Js.removeCommas (Js.substring 2 line)))
  else if Js.startsWith (Js.toUpperCase line) "M " || Js.startsWith (Js.toUpperCase line) "M,"
  then (M, Js.trim (Js.removeCommas (Js.substring 2 line)))
  else (M, line).

(** [now k] and [random k] are the clock and the random text read while the
    [k]-th line is mapped. *)
Definition newStudentsOf (now : nat → Date) (random : nat → string)
    (lines : list string) : list Student :=
  imap (λ k line,
          {| id := newStudentId (now k) (random k);
             name := (parseLine line).2;
             gender := (parseLine line).1;
             payments := ∅ |}) lines.

Definition importStudentsFromText (now : nat → Date) (random : nat → string)
    (text : string) (ls : LocalStorage) : nat * LocalStorage :=
  let lines := importLines text in
  let currentStudents := getStudents ls in
  let newStudents := newStudentsOf now random lines in
  (length newStudents, saveStudents (currentStudents ++ newStudents) ls).

Definition getTransactions (ls : LocalStorage) : list Transaction :=
  get (tbl_transactions ls) [].

Definition saveTransactions (data : list Transaction) (ls : LocalStorage) : LocalStorage :=
  let '(ok, rest) := nextSetItem ls in
  {| tbl_students := tbl_students ls;
     tbl_transactions := if ok then Some data else tbl_transactions ls;
     tbl_planned_expenses := tbl_planned_expenses ls;
     tbl_settings := tbl_settings ls;
     setItem_outcomes := rest |}.

(** [now] stands for both clock reads of the call ([Date.now()] for the id,
    [new Date()] for the date). *)
Definition addExpense (now : Date) (amt : Z) (desc : string) (cat : string)
    (ls : LocalStorage) : LocalStorage :=
  let txs := getTransactions ls in
  let newTx := {| tx_id := pretty (getTime now);
                  amount := amt;
                  description := desc;
                  tx_date := toISOString now;
                  tx_type := EXPENSE;
                  category := Some cat;
                  status := Some PAID |} in
  saveTransactions (txs ++ [newTx]) ls.

Definition deleteTransaction (i : string) (ls : LocalStorage) : LocalStorage :=
  let txs := filter (λ t, tx_id t ≠ i) (getTransactions ls) in
  saveTransactions txs ls.

Definition getPlannedExpenses (ls : LocalStorage) : list PlannedExpense :=
  get (tbl_planned_expenses ls) [].

Definition savePlannedExpenses (data : list PlannedExpense) (ls : LocalStorage) : LocalStorage :=
  let '(ok, rest) := nextSetItem ls in
  {| tbl_students := tbl_students ls;
     tbl_transactions := tbl_transactions ls;
     tbl_planned_expenses := if ok then Some data else tbl_planned_expenses ls;
     tbl_settings := tbl_settings ls;
     setItem_outcomes := rest |}.

Definition addPlannedExpense (now : Date) (it : string) (cost : Z) (prio : Priority)
    (ls : LocalStorage) : LocalStorage :=
  let plans := getPlannedExpenses ls in
  let newPlan := {| pe_id := pretty (getTime now);
                    item := it;
                    estimatedCost := cost;
                    priority := prio;
                    notes := None |} in
  savePlannedExpenses (plans ++ [newPlan]) ls.

Definition deletePlannedExpense (i : string) (ls : LocalStorage) : LocalStorage :=
  let plans := filter (λ p, pe_id p ≠ i) (getPlannedExpenses ls) in
  savePlannedExpenses plans ls.

End Db.

(** ** The funds component ([src/components/ClassFunds.tsx]) *)

Record Modals := {
  m_settings : bool;
  m_expense : bool;
  m_wishlist : bool;
  m_payment : bool;
  m_import : bool;
  m_confirm : bool;
  m_quotaEdit : bool
}.

(** The [action] closures handed to the confirmation dialog, each with the
    values of the render it closes over (the title and the message of the
    dialog are display text and are left out). *)
Inductive ConfirmAction :=
  | MarkAllAction (paid : bool) (selectedDate : string) (settings : AppSettings)
      (students : list Student) (modals : Modals)
  | ConvertWishAction (wish : PlannedExpense) (modals : Modals)
  | DeleteExpenseAction (i : string) (modals : Modals).

(** The state of the component ([useState]) and the store behind it. *)
Record State := {
  students : list Student;
  expenses : list Transaction;
  plannedExpenses : list PlannedExpense;
  settings : AppSettings;
  loading : bool;
  selectedDate : string;
  modals : Modals;
  confirmAction : option ConfirmAction;
  storage : LocalStorage
}.

Record Debtor := {
  student : Student;
  debt : Z
}.

Record Financials := {
  totalIncome : Z;
  totalExpenses : Z;
  currentBalance : Z;
  debtors : list Debtor;
  totalDebt : Z;
  totalWishlist : Z;
  pieData : list (string * JsObject.Value)
}.

Definition setConfirm (b : bool) (m : Modals) : Modals :=
  {| m_settings := m_settings m; m_expense := m_expense m; m_wishlist := m_wishlist m;
     m_payment := m_payment m; m_import := m_import m; m_confirm := b;
     m_quotaEdit := m_quotaEdit m |}.

Definition setStudents (v : list Student) (st : State) : State :=
  {| students := v; expenses := expenses st; plannedExpenses := plannedExpenses st;
     settings := settings st; loading := loading st; selectedDate := selectedDate st;
     modals := modals st; confirmAction := confirmAction st; storage := storage st |}.

Definition setSettings (v : AppSettings) (st : State) : State :=
  {| students := students st; expenses := expenses st; plannedExpenses := plannedExpenses st;
     settings := v; loading := loading st; selectedDate := selectedDate st;
     modals := modals st; confirmAction := confirmAction st; storage := storage st |}.

Definition setSelectedDate (v : string) (st : State) : State :=
  {| students := students st; expenses := expenses st; plannedExpenses := plannedExpenses st;
     settings := settings st; loading := loading st; selectedDate := v;
     modals := modals st; confirmAction := confirmAction st; storage := storage st |}.

Definition setModals (v : Modals) (st : State) : State :=
  {| students := students st; expenses := expenses st; plannedExpenses := plannedExpenses st;
     settings := settings st; loading := loading st; selectedDate := selectedDate st;
     modals := v; confirmAction := confirmAction st; storage := storage st |}.

Definition setConfirmAction (v : option ConfirmAction) (st : State) : State :=
  {| students := students st; expenses := expenses st; plannedExpenses := plannedExpenses st;
     settings := settings st; loading := loading st; selectedDate := selectedDate st;
     modals := modals st; confirmAction := v; storage := storage st |}.

(** A call of the store: the store is a module-level object, so the call
    acts on [storage]. *)
Definition withStorage (f : LocalStorage → LocalStorage) (st : State) : State :=
  {| students := students st; expenses := expenses st; plannedExpenses := plannedExpenses st;
     settings := settings st; loading := loading st; selectedDate := selectedDate st;
     modals := modals st; confirmAction := confirmAction st; storage := f (storage st) |}.

Module ClassFunds.

Definition refreshData (st : State) : State :=
  {| students := Db.getStudents (storage st);
     expenses := Db.getTransactions (storage st);
     plannedExpenses := Db.getPlannedExpenses (storage st);
     settings := Db.getSettings (storage st);
     loading := false;
     selectedDate := selectedDate st;
     modals := modals st;
     confirmAction := confirmAction st;
     storage := storage st |}.

(** *** Logic helpers *)

Definition isCollectionActive (s : AppSettings) (date : string) : bool :=
  bool_decide (collectionDays s !! date = Some true).

Definition getQuotaForDate (s : AppSettings) (date : string) : Z :=
  if isCollectionActive s date then default (dailyQuota s) (customQuotas s !! date) else 0.

(** [new Date().toISOString().split('T')[0]]: the UTC calendar date. *)
Definition isoDay (now : Date) : string := Js.beforeT (toISOString now).

(** The memo [activeCollectionDates]. The filter's callback makes a clock
    read of its own at every key: [now d] is the read made while [d] is
    tested. *)
Definition activeCollectionDates (now : string → Date) (s : AppSettings) : list string :=
  JsArray.sort JsArray.defaultCompare
    (filter (λ d, collectionDays s !! d = Some true ∧ Js.leb d (isoDay (now d)) = true)
            (JsObject.keys (collectionDays s))).

(** The debt of one student over the dates [activeDates]. *)
Definition debtOf (s : AppSettings) (activeDates : list string) (st : Student) : Z :=
  let '(paid, owe) :=
    foldl (λ '(paid, owe) date,
             let q := default (dailyQuota s) (customQuotas s !! date) in
             let p := default 0 (payments st !! date) in
             (paid + p, owe + q))
          (0, 0) activeDates in
  Z.max 0 (owe - paid).

(** [e.category || 'Other'] *)
Definition categoryOrOther (e : Transaction) : string :=
  match category e with
  | Some c => if decide (c = EmptyString) then "Other" else c
  | None => "Other"
  end.

(** The callback of [expenses.forEach]:
    [cats[e.category || 'Other'] = (cats[e.category || 'Other'] || 0) + e.amount]. *)
Definition catsStep (o : JsObject.ordered JsObject.Value) (e : Transaction)
    : JsObject.ordered JsObject.Value :=
  JsObject.assign o (categoryOrOther e)
    (JsObject.orZeroPlus (JsObject.read o (categoryOrOther e)) (amount e)).

(** The object [cats], a plain [{}] at first, once [expenses.forEach] has
    run. *)
Definition cats (exps : list Transaction) : JsObject.ordered JsObject.Value :=
  foldl catsStep [] exps.

(** [Object.keys(cats).map(name => ({ name, value: cats[name] }))] *)
Definition pieDataOf (exps : list Transaction) : list (string * JsObject.Value) :=
  (λ n, (n, JsObject.read (cats exps) n)) <$> JsObject.orderedKeys (cats exps).

(** The part of the memo [financials] that the two revisions share: it is
    given the dates over which debt is counted. *)
Definition financialsOver (activeDates : list string) (studs : list Student)
    (exps : list Transaction) (plans : list PlannedExpense) (s : AppSettings) : Financials :=
  let totalIncome :=
    foldl (λ acc st, foldl (λ acc amt, acc + amt) acc (JsObject.values (payments st))) 0 studs in
  let totalExpenses := foldl (λ sum tx, sum + amount tx) 0 exps in
  let currentBalance := totalIncome - totalExpenses in
  let debtors :=
    JsArray.sort (λ a b, debt b - debt a)
      (filter (λ d, 0 < debt d)
         ((λ st, {| student := st; debt := debtOf s activeDates st |}) <$> studs)) in
  let totalDebt := foldl (λ sum d, sum + debt d) 0 debtors in
  let totalWishlist := foldl (λ sum p, sum + estimatedCost p) 0 plans in
  {| totalIncome := totalIncome; totalExpenses := totalExpenses;
     currentBalance := currentBalance; debtors := debtors; totalDebt := totalDebt;
     totalWishlist := totalWishlist; pieData := pieDataOf exps |}.

(** The memo [financials] of this revision: debt runs over the memo
    [activeCollectionDates]. *)
Definition financials (now : string → Date) (studs : list Student)
    (exps : list Transaction) (plans : list PlannedExpense) (s : AppSettings) : Financials :=
  financialsOver (activeCollectionDates now s) studs exps plans s.

(** *** Actions *)

Definition toggleCollectionDay (st : State) : State :=
  let isActive := isCollectionActive (settings st) (selectedDate st) in
  let newSettings :=
    {| dailyQuota := dailyQuota (settings st);
       customQuotas := customQuotas (settings st);
       collectionDays := <[selectedDate st := negb isActive]> (collectionDays (settings st));
       currencySymbol := currencySymbol (settings st) |} in
  withStorage (Db.saveSettings newSettings) (setSettings newSettings st).

Definition updateStudentPayment (i : string) (amt : Z) (st : State) : State :=
  let updated :=
    (λ s, if decide (id s ≠ i) then s
          else {| id := id s; name := name s; gender := gender s;
                  payments := <[selectedDate st := amt]> (payments s) |}) <$> students st in
  withStorage (Db.saveStudents updated) (setStudents updated st).

Definition togglePayment (studentId : string) (st : State) : State :=
  if negb (isCollectionActive (settings st) (selectedDate st)) then st
  else
    match List.find (λ s, bool_decide (id s = studentId)) (students st) with
    | None => st
    | Some s =>
        let quota := getQuotaForDate (settings st) (selectedDate st) in
        let current := default 0 (payments s !! selectedDate st) in
        let newAmt := if quota <=? current then 0 else quota in
        updateStudentPayment studentId newAmt st
    end.

Definition markAll (paid : bool) (st : State) : State :=
  if negb (isCollectionActive (settings st) (selectedDate st)) then st
  else
    setModals (setConfirm true (modals st))
      (setConfirmAction
         (Some (MarkAllAction paid (selectedDate st) (settings st) (students st) (modals st)))
         st).

Definition convertWishToExpense (wish : PlannedExpense) (st : State) : State :=
  setModals (setConfirm true (modals st))
    (setConfirmAction (Some (ConvertWishAction wish (modals st))) st).

Definition deleteExpense (i : string) (st : State) : State :=
  setModals (setConfirm true (modals st))
    (setConfirmAction (Some (DeleteExpenseAction i (modals st))) st).

(** Running a closure: the body of each [action]. [now] is the clock read
    by the store when it stamps a new expense. *)
Definition runAction (now : Date) (a : ConfirmAction) (st : State) : State :=
  match a with
  | MarkAllAction paid date s studs m =>
      let quota := getQuotaForDate s date in
      let updated :=
        (λ st', {| id := id st'; name := name st'; gender := gender st';
                   payments := <[date := if paid then quota else 0]> (payments st') |}) <$> studs in
      setModals (setConfirm false m)
        (withStorage (Db.saveStudents updated) (setStudents updated st))
  | ConvertWishAction wish m =>
      setModals (setConfirm false m)
        (refreshData
           (withStorage (Db.deletePlannedExpense (pe_id wish))
              (withStorage (Db.addExpense now (estimatedCost wish) (item wish) "Materials") st)))
  | DeleteExpenseAction i m =>
      setModals (setConfirm false m)
        (refreshData (withStorage (Db.deleteTransaction i) st))
  end.

(** The dialog's Confirm button: it is rendered only while [modals.confirm]
    holds, and runs [confirmAction?.action || (() => {})]. *)
Definition onConfirm (now : Date) (st : State) : State :=
  if m_confirm (modals st) then
    match confirmAction st with
    | Some a => runAction now a st
    | None => st
    end
  else st.

(** The dialog's Cancel button. *)
Definition onCancel (st : State) : State :=
  if m_confirm (modals st) then setModals (setConfirm false (modals st)) st else st.

(** The ledger operations as an officer carries them out: the button, then
    the confirmation when the dialog has opened. *)
Definition bulkMark (now : Date) (paid : bool) (st : State) : State :=
  onConfirm now (markAll paid st).

Definition convertToExpense (now : Date) (wish : PlannedExpense) (st : State) : State :=
  onConfirm now (convertWishToExpense wish st).

End ClassFunds.

(** ** The later revision of the component ([src/unnamed/part_002]) *)

Module ClassFundsLocal.

(** Date helpers (local time). *)
Definition toLocalISO (date : Date) : string :=
  let y := getFullYear date in
  let m := Js.pad2 (getMonth date + 1) in
  let d := Js.pad2 (getDate date) in
  pretty y +:+ "-" +:+ m +:+ "-" +:+ d.

(** The dates over which debt is counted: only past/today active days,
    with one clock read for the whole evaluation. *)
Definition activeDates (today : string) (s : AppSettings) : list string :=
  filter (λ d, collectionDays s !! d = Some true ∧ Js.leb d today = true)
         (JsObject.keys (collectionDays s)).

Definition financials (now : Date) (studs : list Student)
    (exps : list Transaction) (plans : list PlannedExpense) (s : AppSettings) : Financials :=
  let today := toLocalISO now in
  ClassFunds.financialsOver (activeDates today s) studs exps plans s.

(** [setStudents(prev => ...)]: handlers run one at a time, so [prev] is the
    current list. *)
Definition updateStudentPayment (i : string) (amt : Z) (date : string) (st : State) : State :=
  let updated :=
    (λ s, if decide (id s ≠ i) then s
          else {| id := id s; name := name s; gender := gender s;
                  payments := <[date := amt]> (payments s) |}) <$> students st in
  setStudents updated (withStorage (Db.saveStudents updated) st).

Definition togglePayment (studentId : string) (st : State) : State :=
  if negb (ClassFunds.isCollectionActive (settings st) (selectedDate st)) then st
  else
    match List.find (λ s, bool_decide (id s = studentId)) (students st) with
    | None => st
    | Some s =>
        let quota := ClassFunds.getQuotaForDate (settings st) (selectedDate st) in
        let current := default 0 (payments s !! selectedDate st) in
        let newAmt := if quota <=? current then 0 else quota in
        updateStudentPayment studentId newAmt (selectedDate st) st
    end.

End ClassFundsLocal.

(** ** Vocabulary of the specification *)

(** The sum of [f] over a list of dates, and over a finite set of dates. *)
Definition sumList (f : string → Z) (l : list string) : Z :=
  foldr (λ d acc, f d + acc) 0 l.

Definition sumOver (X : gset string) (f : string → Z) : Z :=
  sumList f (elements X).

(** The active-date set: the keys of [collectionDays] flagged [true] that are
    not after [today]. *)
Definition activeDateSet (today : string) (s : AppSettings) : gset string :=
  filter (λ d, collectionDays s !! d = Some true ∧ Js.leb d today = true)
         (dom (collectionDays s)).

(** The student an id stands for: the first of the roster that carries it. *)
Definition findStudent (studentId : string) (st : State) : option Student :=
  List.find (λ s, bool_decide (id s = studentId)) (students st).

(** The memo [financials] evaluated in a state, for each revision. *)
Definition financialsOf (now : string → Date) (st : State) : Financials :=
  ClassFunds.financials now (students st) (expenses st) (plannedExpenses st) (settings st).

Definition financialsLocalOf (now : Date) (st : State) : Financials :=
  ClassFundsLocal.financials now (students st) (expenses st) (plannedExpenses st) (settings st).

(** The debt of a student as the specification words it, over the
    active-date set for [today]: [max(0, owed - paid)]. *)
Definition owedOn (today : string) (s : AppSettings) : Z :=
  sumOver (activeDateSet today s) (ClassFunds.getQuotaForDate s).

Definition paidOn (today : string) (s : AppSettings) (st : Student) : Z :=
  sumOver (activeDateSet today s) (λ d, default 0 (payments st !! d)).

Definition debtOn (today : string) (s : AppSettings) (st : Student) : Z :=
  Z.max 0 (owedOn today s - paidOn today s st).

(** Every payment entry of every student, over every date key of the
    student's payment map. *)
Definition allPayments (studs : list Student) : Z :=
  foldr (λ st acc, sumOver (dom (payments st)) (λ d, default 0 (payments st !! d)) + acc) 0 studs.

(** What a debtor listing [ds] is for a roster [studs] and a debt [f]: each
    entry carries the debt of its student; the students listed are those of
    positive debt; the entries are in descending order of debt; and the
    students of any one debt appear in their roster order. *)
Definition DebtorListing (f : Student → Z) (studs : list Student) (ds : list Debtor) : Prop :=
  Forall (λ d, debt d = f (student d)) ds
  ∧ (student <$> ds) ≡ₚ filter (λ st, 0 < f st) studs
  ∧ StronglySorted (λ a b, debt b ≤ debt a) ds
  ∧ ∀ v, student <$> filter (λ d, debt d = v) ds = filter (λ st, f st = v ∧ 0 < f st) studs.

(** The characters of a string. *)
Fixpoint chars (s : string) : list ascii :=
  match s with
  | String c s' => c :: chars s'
  | EmptyString => []
  end.

(** The gender marker at the head of a line as the code takes it, in either
    letter case: F or M followed by a space or a comma. *)
Definition markerOf (line : string) : option Gender :=
  match line with
  | String a (String b _) =>
      if bool_decide (b = " "%char ∨ b = ","%char) then
        if bool_decide (a = "F"%char ∨ a = "f"%char) then Some F
        else if bool_decide (a = "M"%char ∨ a = "m"%char) then Some M
        else None
      else None
  | _ => None
  end.

(** The gender marker as the specification lists it: one of the four
    prefixes, in upper case. *)
Definition listedMarkerOf (line : string) : option Gender :=
  if Js.startsWith line "F " || Js.startsWith line "F," then Some F
  else if Js.startsWith line "M " || Js.startsWith line "M," then Some M
  else None.

(** Each name once, at the place of its first occurrence. *)
Fixpoint firstOccurrences (l : list string) : list string :=
  match l with
  | [] => []
  | x :: l' => x :: filter (λ y, y ≠ x) (firstOccurrences l')
  end.

(** The names of the groups of the breakdown, in the order of their first
    occurrence: the categories of the transactions, [__proto__] left out. *)
Definition groupNames (exps : list Transaction) : list string :=
  firstOccurrences
    (filter (λ k, k ≠ JsObject.proto) (ClassFunds.categoryOrOther <$> exps)).

(** The amounts of the transactions of one category, added to 0 one after
    the other in the order of the transactions. *)
Definition categoryTotal (k : string) (exps : list Transaction) : Z :=
  foldl (λ acc e, acc + amount e) 0 (filter (λ e, ClassFunds.categoryOrOther e = k) exps).

(** The value of the group [k]: the total of the category, unless the name
    is one of the functions a plain object inherits, in which case it is a
    string. *)
Definition sliceOf (k : string) (exps : list Transaction) : JsObject.Value :=
  if decide (k ∈ JsObject.inheritedFunctions) then JsObject.Text
  else JsObject.Number (categoryTotal k exps).

(** The next [n] writes to the store succeed. *)
Definition storesNext (n : nat) (ls : LocalStorage) : bool :=
  forallb (λ b, b) (take n (setItem_outcomes ls)).

(** ** Concrete data used in the examples *)

Module Sample.

Definition day : string := "2024-01-08".

(** 00:30 of 8 January 2024 in a zone eight hours ahead of UTC. *)
Definition night : Date :=
  {| getTime := 1704645000000; toISOString := "2024-01-07T16:30:00.000Z";
     getFullYear := 2024; getMonth := 0; getDate := 8 |}.

(** Noon of the same local day. *)
Definition noon : Date :=
  {| getTime := 1704686400000; toISOString := "2024-01-08T04:00:00.000Z";
     getFullYear := 2024; getMonth := 0; getDate := 8 |}.

Definition closed : Modals :=
  {| m_settings := false; m_expense := false; m_wishlist := false; m_payment := false;
     m_import := false; m_confirm := false; m_quotaEdit := false |}.

Definition settingsOn : AppSettings :=
  {| dailyQuota := 5; currencySymbol := "₱"; customQuotas := ∅;
     collectionDays := {[ day := true ]} |}.

Definition emptyStorage (outcomes : list bool) : LocalStorage :=
  {| tbl_students := None; tbl_transactions := None; tbl_planned_expenses := None;
     tbl_settings := None; setItem_outcomes := outcomes |}.

Definition A : Student := Db.mkStudent "a" "A" M.
Definition B : Student :=
  {| id := "b"; name := "B"; gender := F; payments := {[ day := 2 ]} |}.

Definition stateOf (studs : list Student) (s : AppSettings) : State :=
  {| students := studs; expenses := []; plannedExpenses := []; settings := s;
     loading := false; selectedDate := day; modals := closed; confirmAction := None;
     storage := emptyStorage [] |}.

Definition wish : PlannedExpense :=
  {| pe_id := "1704600000000"; item := "Markers"; estimatedCost := 20; priority := Medium;
     notes := None |}.

(** A state whose store holds one planned expense; [outcomes] tells what the
    coming writes do. *)
Definition stateWithWish (outcomes : list bool) : State :=
  {| students := []; expenses := []; plannedExpenses := [wish]; settings := settingsOn;
     loading := false; selectedDate := day; modals := closed; confirmAction := None;
     storage := {| tbl_students := Some []; tbl_transactions := Some [];
                   tbl_planned_expenses := Some [wish]; tbl_settings := Some settingsOn;
                   setItem_outcomes := outcomes |} |}.

Definition expense (cat : option string) (amt : Z) : Transaction :=
  {| tx_id := "1"; amount := amt; tx_date := "2024-01-08T04:00:00.000Z"; description := EmptyString;
     tx_type := EXPENSE; category := cat; status := Some PAID |}.

Definition lines (l : list string) : string :=
  foldr (λ x acc, x +:+ String Js.LF acc) EmptyString l.

End Sample.

(** ** More of the component: the daily view, the quota edit, the roster
    buttons ([src/components/ClassFunds.tsx], [src/unnamed/part_002]) *)

Definition setQuotaEdit (b : bool) (m : Modals) : Modals :=
  {| m_settings := m_settings m; m_expense := m_expense m; m_wishlist := m_wishlist m;
     m_payment := m_payment m; m_import := m_import m; m_confirm := m_confirm m;
     m_quotaEdit := b |}.

Definition setPayment (b : bool) (m : Modals) : Modals :=
  {| m_settings := m_settings m; m_expense := m_expense m; m_wishlist := m_wishlist m;
     m_payment := b; m_import := m_import m; m_confirm := m_confirm m;
     m_quotaEdit := m_quotaEdit m |}.

Definition setExpense (b : bool) (m : Modals) : Modals :=
  {| m_settings := m_settings m; m_expense := b; m_wishlist := m_wishlist m;
     m_payment := m_payment m; m_import := m_import m; m_confirm := m_confirm m;
     m_quotaEdit := m_quotaEdit m |}.

Definition setWishlist (b : bool) (m : Modals) : Modals :=
  {| m_settings := m_settings m; m_expense := m_expense m; m_wishlist := b;
     m_payment := m_payment m; m_import := m_import m; m_confirm := m_confirm m;
     m_quotaEdit := m_quotaEdit m |}.

(** The fields of the two forms of the budget tab ([tempExpense],
    [tempWish]), as typed. *)
Record ExpenseForm := {
  desc : string;
  cat : string;
  amountText : string;
  isCustomCat : bool;
  customCat : string
}.

Record WishForm := {
  w_item : string;
  costText : string;
  prio : Priority
}.

Module DailyView.

(** The figure "Collected" of the selected day:
    [students.reduce((acc, s) => acc + (s.payments[selectedDate] || 0), 0)]. *)
Definition collected (st : State) : Z :=
  foldl (λ acc s, acc + default 0 (payments s !! selectedDate st)) 0 (students st).

(** The flag behind the PAID / UNPAID button of a row: [paid >= quota] in
    the later revision, [paid >= quota && quota > 0] in the earlier one. *)
Definition isPaid (st : State) (s : Student) : bool :=
  let paid := default 0 (payments s !! selectedDate st) in
  let quota := ClassFunds.getQuotaForDate (settings st) (selectedDate st) in
  quota <=? paid.

Definition isPaidEarlier (st : State) (s : Student) : bool :=
  let paid := default 0 (payments s !! selectedDate st) in
  let quota := ClassFunds.getQuotaForDate (settings st) (selectedDate st) in
  (quota <=? paid) && (0 <? quota).

(** [saveDailyQuota]: [amount] is [parseFloat(tempQuota)], [None] standing
    for [NaN]. *)
Definition saveDailyQuota (amount : option Z) (st : State) : State :=
  match amount with
  | None => st
  | Some a =>
      let newSettings :=
        {| dailyQuota := dailyQuota (settings st);
           customQuotas := <[selectedDate st := a]> (customQuotas (settings st));
           collectionDays := collectionDays (settings st);
           currencySymbol := currencySymbol (settings st) |} in
      setModals (setQuotaEdit false (modals st))
        (withStorage (Db.saveSettings newSettings) (setSettings newSettings st))
  end.

(** The Save button of the payment dialog (later revision):
    [updateStudentPayment(tempPayment.id, parseFloat(tempPayment.amount), selectedDate)],
    then the dialog is closed. [amount] is the number parsed: the handler is
    modelled for a field that holds a number (a field left empty parses to
    [NaN], which the source passes on unchecked and which is no amount of
    this model). *)
Definition savePayment (studentId : string) (amount : Z) (st : State) : State :=
  let st' := ClassFundsLocal.updateStudentPayment studentId amount (selectedDate st) st in
  setModals (setPayment false (modals st)) st'.

(** [saveExpense]: [parsed] is [parseFloat(tempExpense.amount)]. *)
Definition saveExpense (now : Date) (parsed : Z) (form : ExpenseForm) (st : State) : State :=
  if decide (amountText form = EmptyString ∨ desc form = EmptyString) then st
  else
    let category := if isCustomCat form then customCat form else cat form in
    setModals (setExpense false (modals st))
      (ClassFunds.refreshData
         (withStorage
            (Db.addExpense now parsed (desc form)
               (if decide (category = EmptyString) then "General" else category))
            st)).

(** [saveWish]: [parsed] is [parseFloat(tempWish.cost)]. *)
Definition saveWish (now : Date) (parsed : Z) (form : WishForm) (st : State) : State :=
  if decide (w_item form = EmptyString ∨ costText form = EmptyString) then st
  else
    setModals (setWishlist false (modals st))
      (ClassFunds.refreshData
         (withStorage (Db.addPlannedExpense now (w_item form) parsed (prio form)) st)).

(** [confirmed] is what [confirm('Remove student?')] returned. *)
Definition removeStudent (confirmed : bool) (i : string) (st : State) : State :=
  if confirmed then ClassFunds.refreshData (withStorage (Db.deleteStudent i) st) else st.

Definition removePlanned (i : string) (st : State) : State :=
  ClassFunds.refreshData (withStorage (Db.deletePlannedExpense i) st).

End DailyView.

(** ** The cell of the week ledger ([LedgerCell], [src/unnamed/part_002]) *)

Module LedgerCell.

Record Props := {
  value : Z;
  quota : Z;
  isActive : bool;
  isOfficer : bool;
  quickPayMode : bool
}.

(** What the cell renders. *)
Inductive Rendering := Dash | QuickPay | ReadOnly | Input.

Definition render (p : Props) : Rendering :=
  if negb (isActive p) then Dash
  else if isOfficer p && quickPayMode p then QuickPay
  else if negb (isOfficer p) then ReadOnly
  else Input.

(** A click on the cell: in quick-pay mode it calls
    [onChange(value >= quota ? 0 : quota)]; the other renderings have no
    click handler. The result is the argument of [onChange], if it is called. *)
Definition click (p : Props) : option Z :=
  match render p with
  | QuickPay => Some (if quota p <=? value p then 0 else quota p)
  | _ => None
  end.

(** [commit], run when the input loses the focus: [parsed] is
    [parseFloat(localValue)], [None] standing for [NaN]. *)
Definition commit (p : Props) (parsed : option Z) : option Z :=
  match render p with
  | Input =>
      let final := default 0 parsed in
      if decide (final ≠ value p) then Some final else None
  | _ => None
  end.

(** The cell of student [s] for [dateStr] in a state, and its [onChange]. *)
Definition propsOf (role_isOfficer quick : bool) (st : State) (s : Student)
    (dateStr : string) : Props :=
  {| value := default 0 (payments s !! dateStr);
     quota := ClassFunds.getQuotaForDate (settings st) dateStr;
     isActive := ClassFunds.isCollectionActive (settings st) dateStr;
     isOfficer := role_isOfficer;
     quickPayMode := quick |}.

Definition onChange (s : Student) (dateStr : string) (val : option Z) (st : State) : State :=
  match val with
  | Some v => ClassFundsLocal.updateStudentPayment (id s) v dateStr st
  | None => st
  end.

End LedgerCell.

(** ** Logging in ([login], [src/services/db.ts]) *)

Inductive Role := OFFICER | STUDENT.

Record User := {
  u_id : string;
  username : string;
  role : Role;
  avatar : option string
}.

Module Session.

(** [toLowerCase] of ASCII text: the letters A-Z are mapped, the other
    characters are left as they are. *)
Definition lowerChar (c : ascii) : ascii :=
  let n := nat_of_ascii c in
  if ((65 <=? n)%nat && (n <=? 90)%nat) then ascii_of_nat (n + 32) else c.

Fixpoint toLowerCase (s : string) : string :=
  match s with
  | String c s' => String (lowerChar c) (toLowerCase s')
  | EmptyString => EmptyString
  end.

(** [s.includes(p)] *)
Fixpoint includes (s p : string) : bool :=
  Js.startsWith s p ||
  match s with
  | String _ s' => includes s' p
  | EmptyString => false
  end.

(** [s.replace(/\s/g, '_')], on ASCII text *)
Fixpoint replaceSpaces (s : string) : string :=
  match s with
  | String c s' => String (if Js.isWhiteSpace c then "_"%char else c) (replaceSpaces s')
  | EmptyString => EmptyString
  end.

(** The user [login] builds and stores as the session (after its delay). *)
Definition login (name : string) : User :=
  {| u_id := replaceSpaces (toLowerCase name);
     username := name;
     role := if includes (toLowerCase name) "officer"
                || bool_decide (toLowerCase name = "admin")
             then OFFICER else STUDENT;
     avatar := Some ("https://ui-avatars.com/api/?name=" +:+ name
                     +:+ "&background=4F46E5&color=fff") |}.

End Session.

(** ** Announcements and agenda ([src/App.tsx]) *)

Record Announcement := {
  a_id : string;
  title : string;
  content : string;
  a_date : string;
  author : string;
  tags : option (list string);
  isImportant : bool
}.

Inductive AgendaType := HOMEWORK | EXAM | EVENT.

Record AgendaItem := {
  g_id : string;
  g_title : string;
  g_date : string;
  time : string;
  g_type : AgendaType
}.

Module App.

(** [user?.role === Role.OFFICER ? 'Officer' : user?.username || 'Student'] *)
Definition authorOf (user : option User) : string :=
  match user with
  | Some u =>
      match role u with
      | OFFICER => "Officer"
      | STUDENT => if decide (username u = EmptyString) then "Student" else username u
      end
  | None => "Student"
  end.

(** [newAnnouncement] carries the title, the content, the flag and the tags
    of the form. *)
Definition handleAddAnnouncement (now : Date) (user : option User)
    (newAnnouncement : Announcement) (announcements : list Announcement) : list Announcement :=
  let item :=
    {| a_id := pretty (getTime now);
       title := title newAnnouncement;
       content := content newAnnouncement;
       a_date := toISOString now;
       author := authorOf user;
       tags := tags newAnnouncement;
       isImportant := isImportant newAnnouncement |} in
  item :: announcements.

Definition handleDeleteAnnouncement (i : string) (announcements : list Announcement)
    : list Announcement :=
  filter (λ a, a_id a ≠ i) announcements.

Definition handleAddAgenda (now : Date) (newItem : AgendaItem) (agenda : list AgendaItem)
    : list AgendaItem :=
  agenda ++ [ {| g_id := pretty (getTime now); g_title := g_title newItem;
                 g_date := g_date newItem; time := time newItem; g_type := g_type newItem |} ].

Definition handleDeleteAgenda (i : string) (agenda : list AgendaItem) : list AgendaItem :=
  filter (λ a, g_id a ≠ i) agenda.

End App.

(** ** More vocabulary *)

(** The state shows what the store holds. *)
Definition inSync (st : State) : Prop :=
  students st = Db.getStudents (storage st)
  ∧ expenses st = Db.getTransactions (storage st)
  ∧ plannedExpenses st = Db.getPlannedExpenses (storage st)
  ∧ settings st = Db.getSettings (storage st).

Definition sumAmounts (exps : list Transaction) : Z :=
  foldr (λ e acc, amount e + acc) 0 exps.

Definition sumCosts (plans : list PlannedExpense) : Z :=
  foldr (λ p acc, estimatedCost p + acc) 0 plans.

(** The payments of one student, all dates together. *)
Definition paymentsOf (s : Student) : Z :=
  sumOver (dom (payments s)) (λ d, default 0 (payments s !! d)).

(** What identifies the students of a roster, in order. *)
Definition identities (studs : list Student) : list (string * string * Gender) :=
  (λ s, (id s, name s, gender s)) <$> studs.

(** * Properties *)

(** ** Toggling and bulk marking *)

Section Ledger.
Import ClassFunds.

Lemma isCollectionActive_true s d :
  isCollectionActive s d = true ↔ collectionDays s !! d = Some true.
Proof. unfold isCollectionActive. apply bool_decide_eq_true. Qed.

Lemma isCollectionActive_false s d :
  isCollectionActive s d = false ↔ collectionDays s !! d ≠ Some true.
Proof. unfold isCollectionActive. apply bool_decide_eq_false. Qed.

(** Both revisions of [togglePayment] compute the same state. *)
Lemma togglePayment_local_eq studentId st :
  ClassFundsLocal.togglePayment studentId st = togglePayment studentId st.
Proof. reflexivity. Qed.

(** C4. For a date that is not flagged active (absent or [false]) the
    effective quota is 0, and neither [togglePayment] nor [markAll] (with or
    without the confirmation step) changes anything of the state: no payment
    record is created, in the component or in the store. *)
Theorem inactive_date_is_noop (now : Date) (studentId : string) (paid : bool) (st : State) :
  collectionDays (settings st) !! selectedDate st ≠ Some true →
  getQuotaForDate (settings st) (selectedDate st) = 0
  ∧ togglePayment studentId st = st
  ∧ ClassFundsLocal.togglePayment studentId st = st
  ∧ markAll paid st = st
  ∧ (m_confirm (modals st) = false → bulkMark now paid st = st).
Proof.
  intros Hin. apply isCollectionActive_false in Hin.
  unfold getQuotaForDate, bulkMark, markAll, ClassFundsLocal.togglePayment, togglePayment.
  rewrite Hin. cbn [negb].
  repeat split; try reflexivity.
  intros Hc. unfold onConfirm. now rewrite Hc.
Qed.

Lemma inactive_date_is_noop_witness :
  let st := Sample.stateOf [Sample.A; Sample.B] Db.DEFAULT_SETTINGS in
  getQuotaForDate (settings st) (selectedDate st) = 0
  ∧ togglePayment "b" st = st
  ∧ ClassFundsLocal.togglePayment "b" st = st
  ∧ markAll true st = st
  ∧ (m_confirm (modals st) = false → bulkMark Sample.noon true st = st).
Proof.
  intros st. apply (inactive_date_is_noop Sample.noon "b" true st).
  vm_compute. discriminate.
Defined.

(** The roster after [markAll]'s action has run. *)
Lemma bulkMark_active now paid st :
  isCollectionActive (settings st) (selectedDate st) = true →
  students (bulkMark now paid st)
  = (λ s, {| id := id s; name := name s; gender := gender s;
             payments := <[selectedDate st :=
                             if paid then getQuotaForDate (settings st) (selectedDate st) else 0]>
                           (payments s) |}) <$> students st
  ∧ settings (bulkMark now paid st) = settings st
  ∧ selectedDate (bulkMark now paid st) = selectedDate st
  ∧ m_confirm (modals (bulkMark now paid st)) = false.
Proof.
  intros Hact. unfold bulkMark, markAll. rewrite Hact. cbn. auto.
Qed.

(** C7. On an active date, [bulkMark(d, true)] followed by
    [bulkMark(d, false)] leaves every student of the roster with
    [payments[d]] recorded as exactly 0, whatever was recorded before (an
    amount or no entry at all); the roster itself is the same students. *)
Theorem bulkMark_paid_then_reset (now now' : Date) (st : State) :
  collectionDays (settings st) !! selectedDate st = Some true →
  let st' := bulkMark now' false (bulkMark now true st) in
  Forall (λ s, payments s !! selectedDate st = Some 0) (students st')
  ∧ (id <$> students st') = (id <$> students st)
  ∧ selectedDate st' = selectedDate st.
Proof.
  intros Hact st'. apply isCollectionActive_true in Hact.
  destruct (bulkMark_active now true st Hact) as (Hs1 & Hset1 & Hd1 & _).
  assert (Hact1 : isCollectionActive (settings (bulkMark now true st))
                    (selectedDate (bulkMark now true st)) = true)
    by (rewrite Hset1, Hd1; exact Hact).
  destruct (bulkMark_active now' false _ Hact1) as (Hs2 & _ & Hd2 & _).
  subst st'. rewrite Hs2, Hd2, Hd1, Hs1. split; [|split; [|reflexivity]].
  - apply Forall_fmap, Forall_fmap, Forall_true. intros s. cbn.
    apply lookup_insert_eq.
  - rewrite <- !list_fmap_compose. apply list_fmap_ext. intros ? s _. reflexivity.
Qed.

Lemma bulkMark_paid_then_reset_witness :
  let st := Sample.stateOf [Sample.A; Sample.B] Sample.settingsOn in
  let st' := bulkMark Sample.noon false (bulkMark Sample.noon true st) in
  Forall (λ s, payments s !! selectedDate st = Some 0) (students st')
  ∧ (id <$> students st') = (id <$> students st)
  ∧ selectedDate st' = selectedDate st.
Proof.
  intros st. apply (bulkMark_paid_then_reset Sample.noon Sample.noon st).
  vm_compute. reflexivity.
Defined.

End Ledger.

(** ** Toggling a payment twice *)

Section Toggle.
Import ClassFunds.

Lemma find_by_id_fmap (upd : Student → Student) (i : string) (l : list Student) :
  (∀ s, id (upd s) = id s) →
  List.find (λ s, bool_decide (id s = i)) (upd <$> l)
  = upd <$> List.find (λ s, bool_decide (id s = i)) l.
Proof.
  intros Hid. induction l as [|s l IH]; [reflexivity|].
  cbn. rewrite Hid. destruct (bool_decide (id s = i)); [reflexivity|exact IH].
Qed.

Lemma find_by_id_Some (i : string) (l : list Student) (s : Student) :
  List.find (λ s, bool_decide (id s = i)) l = Some s → id s = i.
Proof.
  intros H. apply List.find_some in H as [_ H]. now apply bool_decide_eq_true in H.
Qed.

(** One toggle on an active date: the student found by the id gets the
    quota when the recorded amount is below it, and 0 otherwise; the
    settings and the selected date stay. *)
Lemma togglePayment_active studentId st s :
  isCollectionActive (settings st) (selectedDate st) = true →
  findStudent studentId st = Some s →
  let q := getQuotaForDate (settings st) (selectedDate st) in
  let c := default 0 (payments s !! selectedDate st) in
  ∃ s', findStudent studentId (togglePayment studentId st) = Some s'
        ∧ payments s' !! selectedDate st = Some (if q <=? c then 0 else q)
        ∧ settings (togglePayment studentId st) = settings st
        ∧ selectedDate (togglePayment studentId st) = selectedDate st.
Proof.
  intros Hact Hfind q c. unfold findStudent in *.
  unfold togglePayment. rewrite Hact, Hfind. cbn [negb].
  unfold updateStudentPayment. cbn.
  rewrite find_by_id_fmap by (intros x; destruct (decide (id x ≠ studentId)); reflexivity).
  rewrite Hfind. cbn.
  pose proof (find_by_id_Some _ _ _ Hfind) as Hid.
  destruct (decide (id s ≠ studentId)) as [Hne|_]; [contradiction|].
  eexists. split; [reflexivity|]. cbn. rewrite lookup_insert_eq. auto.
Qed.

(** C3 (amended). On an active date, two calls of [togglePayment] for a
    student of the roster leave [payments[d]] recorded as: the quota when the
    amount recorded at first was at least a positive quota, and 0 otherwise.
    So the amount comes back to what it was exactly when it was 0 (or
    missing, which reads as 0) or equal to a positive quota; a partial amount
    strictly between 0 and the quota ends as 0. *)
Theorem togglePayment_twice (studentId : string) (st : State) (s : Student) :
  collectionDays (settings st) !! selectedDate st = Some true →
  findStudent studentId st = Some s →
  let d := selectedDate st in
  let q := getQuotaForDate (settings st) d in
  let c := default 0 (payments s !! d) in
  let r := if q <=? c then (if 0 <? q then q else 0) else 0 in
  ∃ s2, findStudent studentId (togglePayment studentId (togglePayment studentId st)) = Some s2
        ∧ payments s2 !! d = Some r
        ∧ (r = c ↔ c = 0 ∨ (c = q ∧ 0 < q))
        ∧ (0 < c < q → r = 0).
Proof.
  intros Hact Hfind d q c r. apply isCollectionActive_true in Hact.
  destruct (togglePayment_active studentId st s Hact Hfind) as (s1 & Hf1 & Hp1 & Hset1 & Hd1).
  assert (Hact1 : isCollectionActive (settings (togglePayment studentId st))
                    (selectedDate (togglePayment studentId st)) = true)
    by (rewrite Hset1, Hd1; exact Hact).
  destruct (togglePayment_active studentId _ s1 Hact1 Hf1) as (s2 & Hf2 & Hp2 & _ & _).
  rewrite Hset1, Hd1, Hp1 in Hp2. change (default 0 (Some ?x)) with x in Hp2.
  exists s2. split; [exact Hf2|]. fold d q c in Hp2 |- *.
  assert (Hr : (if q <=? (if q <=? c then 0 else q) then 0 else q) = r).
  { subst r. destruct (Z.leb_spec q c), (Z.ltb_spec 0 q);
      repeat match goal with |- context [?a <=? ?b] => destruct (Z.leb_spec a b) end; lia. }
  rewrite Hr in Hp2. split; [exact Hp2|].
  subst r. destruct (Z.leb_spec q c), (Z.ltb_spec 0 q); lia.
Qed.

Lemma togglePayment_twice_witness :
  let st := Sample.stateOf [Sample.A; Sample.B] Sample.settingsOn in
  ∃ s2, findStudent "b" (togglePayment "b" (togglePayment "b" st)) = Some s2
        ∧ payments s2 !! Sample.day = Some 0
        ∧ (0 = 2 ↔ 2 = 0 ∨ (2 = 5 ∧ 0 < 5))
        ∧ (0 < 2 < 5 → 0 = 0).
Proof.
  intros st.
  apply (togglePayment_twice "b" st Sample.B); reflexivity.
Defined.

(** C3 as stated fails: with a quota of 5 and 2 recorded, two toggles leave 0
    recorded, not 2. *)
Lemma togglePayment_twice_partial_lost :
  let st := Sample.stateOf [Sample.A; Sample.B] Sample.settingsOn in
  isCollectionActive (settings st) Sample.day = true
  ∧ getQuotaForDate (settings st) Sample.day = 5
  ∧ (s ← findStudent "b" st; payments s !! Sample.day) = Some 2
  ∧ (s ← findStudent "b" (togglePayment "b" (togglePayment "b" st));
     payments s !! Sample.day) = Some 0.
Proof. vm_compute. repeat split. Qed.

End Toggle.

(** ** Sorting *)

Section Sort.
Context {A : Type} (cmp : A → A → Z) (R : A → A → Prop).
Hypothesis cmp_R : ∀ x y, cmp x y ≤ 0 ↔ R x y.
Hypothesis R_total : ∀ x y, R x y ∨ R y x.
Hypothesis R_trans : ∀ x y z, R x y → R y z → R x z.

Lemma insert_Permutation x l : JsArray.insert cmp x l ≡ₚ x :: l.
Proof.
  induction l as [|y l IH]; cbn; [reflexivity|].
  destruct (cmp x y <=? 0); [reflexivity|].
  rewrite IH. apply perm_swap.
Qed.

Lemma sort_Permutation l : JsArray.sort cmp l ≡ₚ l.
Proof.
  induction l as [|x l IH]; cbn; [reflexivity|].
  fold (JsArray.sort cmp l). rewrite insert_Permutation. now rewrite IH.
Qed.

Lemma insert_StronglySorted x l :
  StronglySorted R l → StronglySorted R (JsArray.insert cmp x l).
Proof using cmp_R R_total R_trans.
  induction l as [|y l IH]; intros Hs; cbn.
  - repeat constructor.
  - apply StronglySorted_inv in Hs as [Hl Hy].
    destruct (Z.leb_spec (cmp x y) 0) as [Hle|Hgt].
    + apply cmp_R in Hle. constructor; [constructor; assumption|].
      constructor; [exact Hle|]. eapply Forall_impl; [exact Hy|].
      intros z Hz. eapply R_trans; eassumption.
    + constructor; [auto|]. rewrite insert_Permutation. constructor; [|exact Hy].
      destruct (R_total x y) as [Hxy|Hyx]; [|exact Hyx].
      apply cmp_R in Hxy. lia.
Qed.

Lemma sort_StronglySorted l : StronglySorted R (JsArray.sort cmp l).
Proof using cmp_R R_total R_trans.
  induction l as [|x l IH]; cbn; [constructor|]. now apply insert_StronglySorted.
Qed.

(** Stability: the elements of a class whose members the comparator does
    not put apart keep their order. *)
Lemma insert_filter (P : A → Prop) `{!∀ x, Decision (P x)} x l :
  (∀ a b, P a → P b → cmp a b ≤ 0) →
  filter P (JsArray.insert cmp x l) = filter P (x :: l).
Proof.
  intros HP. induction l as [|y l IH]; cbn; [reflexivity|].
  destruct (Z.leb_spec (cmp x y) 0) as [Hle|Hgt]; [reflexivity|].
  rewrite (filter_cons _ y), IH, !filter_cons.
  destruct (decide (P x)) as [Px|], (decide (P y)) as [Py|]; try reflexivity.
  specialize (HP x y Px Py). lia.
Qed.

Lemma sort_filter (P : A → Prop) `{!∀ x, Decision (P x)} l :
  (∀ a b, P a → P b → cmp a b ≤ 0) →
  filter P (JsArray.sort cmp l) = filter P l.
Proof.
  intros HP. induction l as [|x l IH]; cbn; [reflexivity|].
  fold (JsArray.sort cmp l). rewrite insert_filter by exact HP.
  rewrite !filter_cons, IH. reflexivity.
Qed.

End Sort.

(** ** The debtor listing *)

Section Debtors.
Import ClassFunds.

Lemma filter_fmap_debt (s : AppSettings) (dates : list string)
    (P : Debtor → Prop) (P' : Student → Prop)
    `{!∀ d, Decision (P d)} `{!∀ st, Decision (P' st)} (studs : list Student) :
  (∀ st, P {| student := st; debt := debtOf s dates st |} ↔ P' st) →
  student <$> filter P ((λ st, {| student := st; debt := debtOf s dates st |}) <$> studs)
  = filter P' studs.
Proof.
  intros HP. induction studs as [|st studs IH]; [reflexivity|].
  rewrite fmap_cons, !filter_cons.
  destruct (decide (P _)) as [Hp|Hp], (decide (P' st)) as [Hp'|Hp'];
    cbn; rewrite ?IH; try reflexivity; apply HP in Hp || apply HP in Hp'; contradiction.
Qed.

Lemma debtors_listing (dates : list string) studs exps plans s :
  DebtorListing (debtOf s dates) studs (debtors (financialsOver dates studs exps plans s)).
Proof.
  unfold financialsOver. cbn [debtors].
  set (mk := λ st, {| student := st; debt := debtOf s dates st |}).
  set (cmp := λ a b : Debtor, debt b - debt a).
  assert (Hperm := sort_Permutation cmp (filter (λ d, 0 < debt d) (mk <$> studs))).
  subst mk. repeat split.
  - rewrite Hperm. apply Forall_forall. intros d Hd.
    apply list_elem_of_filter in Hd as [_ Hd]. apply list_elem_of_fmap in Hd as (st & -> & _).
    reflexivity.
  - rewrite Hperm. erewrite filter_fmap_debt; [reflexivity|]. intros st. reflexivity.
  - apply (sort_StronglySorted cmp (λ a b, debt b ≤ debt a)).
    + intros x y. unfold cmp. lia.
    + intros x y. lia.
    + intros x y z. lia.
  - intros v. rewrite sort_filter by (unfold cmp; intros a b Ha Hb; lia).
    rewrite list_filter_filter.
    apply filter_fmap_debt. intros st. reflexivity.
Qed.

(** C5. In both revisions the debtor listing holds exactly the students whose
    computed debt is strictly positive, in descending order of debt, and the
    students of equal debt keep their roster order (the sort is stable). *)
Theorem debtors_positive_sorted_stable (now : string → Date) (now' : Date)
    (studs : list Student) (exps : list Transaction) (plans : list PlannedExpense)
    (s : AppSettings) :
  DebtorListing (debtOf s (activeCollectionDates now s)) studs
    (debtors (ClassFunds.financials now studs exps plans s))
  ∧ DebtorListing (debtOf s (ClassFundsLocal.activeDates (ClassFundsLocal.toLocalISO now') s)) studs
      (debtors (ClassFundsLocal.financials now' studs exps plans s)).
Proof. split; apply debtors_listing. Qed.

End Debtors.

(** ** Debt and income *)

Section Sums.
Import ClassFunds.

Lemma sumList_Permutation (f : string → Z) (l k : list string) :
  l ≡ₚ k → sumList f l = sumList f k.
Proof.
  unfold sumList. induction 1 as [|x l k _ IH|x y l|l k m _ IH1 _ IH2]; cbn; lia.
Qed.

Lemma sumList_ext (f g : string → Z) (l : list string) :
  Forall (λ d, f d = g d) l → sumList f l = sumList g l.
Proof.
  unfold sumList. induction 1 as [|d l Hd _ IH]; cbn; [reflexivity|]. now rewrite Hd, IH.
Qed.

Lemma foldl_paid_owe (p q : string → Z) (l : list string) (a b : Z) :
  foldl (λ '(paid, owe) date, (paid + p date, owe + q date)) (a, b) l
  = (a + sumList p l, b + sumList q l).
Proof.
  unfold sumList. revert a b. induction l as [|d l IH]; intros a b; cbn.
  - f_equal; lia.
  - rewrite IH. f_equal; lia.
Qed.

Lemma debtOf_sums (s : AppSettings) (dates : list string) (st : Student) :
  debtOf s dates st
  = Z.max 0 (sumList (λ d, default (dailyQuota s) (customQuotas s !! d)) dates
             - sumList (λ d, default 0 (payments st !! d)) dates).
Proof.
  unfold debtOf.
  rewrite (foldl_paid_owe (λ d, default 0 (payments st !! d))
             (λ d, default (dailyQuota s) (customQuotas s !! d))).
  reflexivity.
Qed.

Lemma activeDates_elements (today : string) (s : AppSettings) :
  ClassFundsLocal.activeDates today s ≡ₚ elements (activeDateSet today s).
Proof.
  apply NoDup_Permutation.
  - apply NoDup_filter, NoDup_fst_map_to_list.
  - apply NoDup_elements.
  - intros d. unfold ClassFundsLocal.activeDates, activeDateSet, JsObject.keys.
    rewrite list_elem_of_filter, elem_of_elements, elem_of_filter, elem_of_dom.
    split; intros [HP Hd]; (split; [exact HP|]).
    + destruct HP as [Ht _]. rewrite Ht. eauto.
    + destruct Hd as [b Hb]. apply list_elem_of_fmap. exists (d, b).
      split; [reflexivity|]. now apply elem_of_map_to_list.
Qed.

Lemma quota_on_active (today : string) (s : AppSettings) :
  Forall (λ d, default (dailyQuota s) (customQuotas s !! d) = getQuotaForDate s d)
         (elements (activeDateSet today s)).
Proof.
  apply Forall_forall. intros d Hd.
  apply elem_of_elements, elem_of_filter in Hd as [[Ht _] _].
  unfold getQuotaForDate. now rewrite (proj2 (isCollectionActive_true s d) Ht).
Qed.

(** In the revision with local-time dates, the debt computed for every
    student is [max(0, owed - paid)], both sums running over the active-date
    set for the local calendar date read once for the evaluation; it is never
    negative, and the listing carries this debt for each of its entries. *)
Theorem local_debt_is_shortfall (now : Date) (studs : list Student)
    (exps : list Transaction) (plans : list PlannedExpense) (s : AppSettings) :
  let today := ClassFundsLocal.toLocalISO now in
  (∀ st, debtOf s (ClassFundsLocal.activeDates today s) st = debtOn today s st
         ∧ 0 ≤ debtOn today s st)
  ∧ Forall (λ d, debt d = debtOn today s (student d))
           (debtors (ClassFundsLocal.financials now studs exps plans s)).
Proof.
  intros today.
  assert (Hdebt : ∀ st, debtOf s (ClassFundsLocal.activeDates today s) st = debtOn today s st).
  { intros st. rewrite debtOf_sums. unfold debtOn, owedOn, paidOn, sumOver.
    rewrite !(sumList_Permutation _ _ _ (activeDates_elements today s)).
    now rewrite (sumList_ext _ _ _ (quota_on_active today s)). }
  split.
  - intros st. split; [apply Hdebt|]. unfold debtOn. lia.
  - destruct (debtors_listing (ClassFundsLocal.activeDates today s) studs exps plans s)
      as (Hall & _).
    eapply Forall_impl; [exact Hall|]. intros d Hd. cbn in Hd. now rewrite Hd, Hdebt.
Qed.

(** The component of [src/components/ClassFunds.tsx] computes the same
    shortfall, but over the active-date set for the UTC day of the clock
    (here with one and the same reading at every key). *)
Lemma utc_debt_is_shortfall (now : Date) (s : AppSettings) (st : Student) :
  debtOf s (activeCollectionDates (λ _, now) s) st = debtOn (isoDay now) s st.
Proof.
  rewrite debtOf_sums. unfold debtOn, owedOn, paidOn, sumOver.
  assert (Hperm : activeCollectionDates (λ _, now) s ≡ₚ elements (activeDateSet (isoDay now) s)).
  { unfold activeCollectionDates. rewrite sort_Permutation.
    apply (activeDates_elements (isoDay now) s). }
  rewrite !(sumList_Permutation _ _ _ Hperm).
  now rewrite (sumList_ext _ _ _ (quota_on_active (isoDay now) s)).
Qed.

(** C1 at the failing input. At 00:30 local time of 8 January 2024, eight hours
    ahead of UTC, with that day active at a quota of 5 and nothing paid: the
    local calendar date is 2024-01-08 and the debt over its active-date set is 5,
    which the revision with local-time dates lists; the component of
    [src/components/ClassFunds.tsx] compares with the UTC date 2024-01-07,
    counts no date and lists no debtor. *)
Theorem utc_day_leaves_today_out :
  ClassFundsLocal.toLocalISO Sample.night = "2024-01-08"
  ∧ isoDay Sample.night = "2024-01-07"
  ∧ debtOn "2024-01-08" Sample.settingsOn Sample.A = 5
  ∧ debtors (ClassFundsLocal.financials Sample.night [Sample.A] [] [] Sample.settingsOn)
    = [ {| student := Sample.A; debt := 5 |} ]
  ∧ activeCollectionDates (λ _, Sample.night) Sample.settingsOn = []
  ∧ debtors (ClassFunds.financials (λ _, Sample.night) [Sample.A] [] [] Sample.settingsOn) = [].
Proof. vm_compute. repeat split. Qed.

Lemma foldl_add (l : list Z) (acc : Z) :
  foldl (λ acc amt, acc + amt) acc l = acc + foldr Z.add 0 l.
Proof.
  revert acc. induction l as [|a l IH]; intros acc; cbn; [lia|]. rewrite IH. lia.
Qed.

Lemma foldr_add_Permutation (l k : list Z) : l ≡ₚ k → foldr Z.add 0 l = foldr Z.add 0 k.
Proof. induction 1; cbn; lia. Qed.

Lemma values_sum (m : gmap string Z) :
  foldr Z.add 0 (JsObject.values m) = sumOver (dom m) (λ d, default 0 (m !! d)).
Proof.
  unfold JsObject.values, sumOver.
  induction m as [|i x m Hi IH] using map_ind.
  - now rewrite map_to_list_empty, dom_empty_L, elements_empty.
  - rewrite (foldr_add_Permutation _ _
               (fmap_Permutation snd _ _ (map_to_list_insert m i x Hi))).
    rewrite dom_insert_L.
    rewrite (sumList_Permutation _ _ _
               (elements_union_singleton (dom m) i (proj2 (not_elem_of_dom m i) Hi))).
    cbn. rewrite lookup_insert_eq. cbn. rewrite IH. f_equal.
    apply sumList_ext, Forall_forall. intros d Hd.
    apply elem_of_elements in Hd. rewrite lookup_insert_ne; [reflexivity|].
    intros ->. now apply not_elem_of_dom in Hi.
Qed.

Lemma totalIncome_allPayments (dates : list string) studs exps plans s :
  totalIncome (financialsOver dates studs exps plans s) = allPayments studs.
Proof.
  unfold financialsOver. cbn [totalIncome].
  assert (H : ∀ acc, foldl (λ acc st, foldl (λ acc amt, acc + amt) acc
                                        (JsObject.values (payments st))) acc studs
                     = acc + allPayments studs).
  { unfold allPayments. induction studs as [|st studs IH]; intros acc; cbn; [lia|].
    rewrite IH, foldl_add, values_sum. lia. }
  rewrite H. lia.
Qed.

(** C2. In both revisions the aggregate income is the sum of every payment
    entry of every student over every date key of the student's payment map.
    The active-date set plays no part in it: the settings and the clock do not
    change it, and deactivating (toggling) the selected collection day after
    payments were recorded leaves it as it was. *)
Theorem totalIncome_is_all_payments (now now1 : string → Date) (now' now1' : Date)
    (st : State) (s' : AppSettings) :
  totalIncome (financialsOf now st) = allPayments (students st)
  ∧ totalIncome (financialsLocalOf now' st) = allPayments (students st)
  ∧ totalIncome (financialsOf now1 (setSettings s' st)) = totalIncome (financialsOf now st)
  ∧ totalIncome (financialsLocalOf now1' (setSettings s' st))
    = totalIncome (financialsLocalOf now' st)
  ∧ totalIncome (financialsOf now1 (toggleCollectionDay st)) = totalIncome (financialsOf now st)
  ∧ totalIncome (financialsLocalOf now1' (toggleCollectionDay st))
    = totalIncome (financialsLocalOf now' st).
Proof.
  unfold financialsOf, financialsLocalOf, ClassFunds.financials, ClassFundsLocal.financials.
  rewrite !totalIncome_allPayments. cbn. repeat split.
Qed.

End Sums.

(** ** Converting a planned expense *)

Section Wishlist.
Import ClassFunds.

Lemma nextSetItem_stores (n : nat) (ls : LocalStorage) :
  storesNext (S n) ls = true →
  ∃ rest, Db.nextSetItem ls = (true, rest)
          ∧ forallb (λ b, b) (take n rest) = true.
Proof.
  unfold storesNext, Db.nextSetItem. destruct (setItem_outcomes ls) as [|ok rest]; cbn.
  - intros _. exists []. split; [reflexivity|]. now destruct n.
  - intros H. apply andb_true_iff in H as [-> H]. eauto.
Qed.

Lemma length_filter_complement {A} (P : A → Prop) `{!∀ x, Decision (P x)} (l : list A) :
  (length (filter P l) + length (filter (λ x, ¬ P x) l))%nat = length l.
Proof.
  rewrite <- length_app. apply Permutation_length, filter_app_complement.
Qed.

Lemma filter_by_id_removes (i : string) (plans : list PlannedExpense) (w : PlannedExpense) :
  filter (λ p, pe_id p = i) plans = [w] →
  S (length (filter (λ p, pe_id p ≠ i) plans)) = length plans
  ∧ w ∉ filter (λ p, pe_id p ≠ i) plans.
Proof.
  intros Hw. split.
  - rewrite <- (length_filter_complement (λ p, pe_id p = i) plans), Hw. reflexivity.
  - intros Hin. apply list_elem_of_filter in Hin as [Hne _].
    assert (Hin : w ∈ filter (λ p, pe_id p = i) plans) by (rewrite Hw; left).
    apply list_elem_of_filter in Hin as [Heq _]. contradiction.
Qed.

(** C6 (amended). For a planned expense [p] that is the one item of the stored
    planned list with its id, [convertToExpense(p)] writes the expense first
    and deletes the planned item second. When both writes are stored, the
    expense list grows by exactly one entry, whose amount is
    [p.estimatedCost], and the planned list shrinks by exactly one entry,
    [p]. The store swallows a failed write: when the expense write fails and
    the second write is stored, no expense is added and [p] is removed all
    the same. *)
Theorem convertToExpense_effect (now : Date) (p : PlannedExpense) (st : State) :
  filter (λ x, pe_id x = pe_id p) (Db.getPlannedExpenses (storage st)) = [p] →
  let st' := convertToExpense now p st in
  storage st' = Db.deletePlannedExpense (pe_id p)
                  (Db.addExpense now (estimatedCost p) (item p) "Materials" (storage st))
  ∧ expenses st' = Db.getTransactions (storage st')
  ∧ plannedExpenses st' = Db.getPlannedExpenses (storage st')
  ∧ (storesNext 2 (storage st) = true →
     (∃ tx, Db.getTransactions (storage st') = Db.getTransactions (storage st) ++ [tx]
            ∧ amount tx = estimatedCost p)
     ∧ length (Db.getTransactions (storage st')) = S (length (Db.getTransactions (storage st)))
     ∧ S (length (Db.getPlannedExpenses (storage st')))
       = length (Db.getPlannedExpenses (storage st))
     ∧ p ∉ Db.getPlannedExpenses (storage st'))
  ∧ (take 2 (setItem_outcomes (storage st)) = [false; true] →
     Db.getTransactions (storage st') = Db.getTransactions (storage st)
     ∧ S (length (Db.getPlannedExpenses (storage st')))
       = length (Db.getPlannedExpenses (storage st))
     ∧ p ∉ Db.getPlannedExpenses (storage st')).
Proof.
  intros Hp st'.
  destruct (filter_by_id_removes _ _ _ Hp) as [Hlen Hnot].
  assert (Hst : storage st' = Db.deletePlannedExpense (pe_id p)
                  (Db.addExpense now (estimatedCost p) (item p) "Materials" (storage st))).
  { subst st'. unfold convertToExpense, convertWishToExpense, onConfirm. reflexivity. }
  split; [exact Hst|]. split; [reflexivity|]. split; [reflexivity|].
  rewrite Hst. clear Hst st'. split.
  - intros Hok.
    destruct (nextSetItem_stores 1 _ Hok) as (rest & Hnext & Hrest).
    unfold Db.deletePlannedExpense, Db.savePlannedExpenses, Db.addExpense, Db.saveTransactions.
    rewrite Hnext. unfold Db.nextSetItem at 1. cbn [setItem_outcomes].
    destruct rest as [|ok rest']; [|cbn in Hrest; apply andb_true_iff in Hrest as [-> _]];
      cbn; (split; [eexists; split; [reflexivity|reflexivity]|]);
      rewrite length_app, Nat.add_1_r; auto.
  - intros Hout.
    unfold Db.deletePlannedExpense, Db.savePlannedExpenses, Db.addExpense, Db.saveTransactions,
      Db.nextSetItem.
    destruct (setItem_outcomes (storage st)) as [|o1 [|o2 rest]]; try discriminate.
    cbn in Hout. injection Hout as -> ->. cbn. auto.
Qed.

Lemma convertToExpense_effect_witness :
  let st := Sample.stateWithWish [] in
  let p := Sample.wish in
  let st' := convertToExpense Sample.noon p st in
  Db.getTransactions (storage st')
  = [ {| tx_id := "1704686400000"; amount := 20; tx_date := "2024-01-08T04:00:00.000Z";
         description := "Markers"; tx_type := EXPENSE; category := Some "Materials";
         status := Some PAID |} ]
  ∧ Db.getPlannedExpenses (storage st') = [].
Proof.
  intros st p st'.
  assert (Hp : filter (λ x, pe_id x = pe_id p) (Db.getPlannedExpenses (storage st)) = [p])
    by reflexivity.
  pose proof (convertToExpense_effect Sample.noon p st Hp) as (Hst & _).
  fold st' in Hst. rewrite Hst. vm_compute. split; reflexivity.
Defined.

(** C6 as stated fails: the expense write fails (a full quota), the planned
    item is deleted all the same, and no expense has been recorded. *)
Lemma convertToExpense_failed_write_loses_item :
  let st := Sample.stateWithWish [false; true] in
  let st' := convertToExpense Sample.noon Sample.wish st in
  Db.getPlannedExpenses (storage st) = [Sample.wish]
  ∧ Db.getTransactions (storage st) = []
  ∧ Db.getTransactions (storage st') = []
  ∧ Db.getPlannedExpenses (storage st') = []
  ∧ expenses st' = []
  ∧ plannedExpenses st' = [].
Proof. vm_compute. repeat split. Qed.

End Wishlist.

(** ** Importing a roster from text *)

Section RosterText.

Lemma chars_app (a b : string) : chars (a +:+ b) = chars a ++ chars b.
Proof.
  induction a as [|c a IH]; [reflexivity|].
  change (chars (String c a +:+ b)) with (c :: chars (a +:+ b)). now rewrite IH.
Qed.

Lemma chars_trimStart (s : string) : chars (Js.trimStart s) ⊆ chars s.
Proof.
  induction s as [|c s IH]; cbn; [reflexivity|].
  destruct (Js.isWhiteSpace c); [|reflexivity].
  intros x Hx. right. now apply IH.
Qed.

Lemma chars_trimEnd (s : string) : chars (Js.trimEnd s) ⊆ chars s.
Proof.
  induction s as [|c s IH]; cbn; [reflexivity|].
  destruct (Js.trimEnd s) as [|c' t] eqn:Ht.
  - destruct (Js.isWhiteSpace c); cbn; intros x Hx; [inversion Hx|].
    apply list_elem_of_singleton in Hx as ->. left.
  - cbn in *. intros x Hx. apply elem_of_cons in Hx as [->|Hx]; [left|right; now apply IH].
Qed.

Lemma chars_trim (s : string) : chars (Js.trim s) ⊆ chars s.
Proof. unfold Js.trim. etrans; [apply chars_trimEnd|apply chars_trimStart]. Qed.

Lemma chars_removeCommas (s : string) : ","%char ∉ chars (Js.removeCommas s).
Proof.
  induction s as [|c s IH]; cbn; [apply not_elem_of_nil|].
  destruct (Ascii.eqb_spec c ","); [exact IH|].
  apply not_elem_of_cons. split; [congruence|exact IH].
Qed.

Lemma trimEnd_cons (c : ascii) (s : string) :
  Js.trimEnd (String c s)
  = match Js.trimEnd s with
    | EmptyString => if Js.isWhiteSpace c then EmptyString else String c EmptyString
    | t => String c t
    end.
Proof. reflexivity. Qed.

(** Trimming twice is trimming once. *)
Lemma trimEnd_idem (s : string) : Js.trimEnd (Js.trimEnd s) = Js.trimEnd s.
Proof.
  induction s as [|c s IH]; [reflexivity|].
  rewrite (trimEnd_cons c s).
  destruct (Js.trimEnd s) as [|c' t] eqn:Ht.
  - destruct (Js.isWhiteSpace c) eqn:Hc; [reflexivity|].
    rewrite trimEnd_cons. cbn. now rewrite Hc.
  - rewrite (trimEnd_cons c), IH. reflexivity.
Qed.

Lemma trimStart_head (s : string) :
  match Js.trimStart s with
  | String c _ => Js.isWhiteSpace c = false
  | EmptyString => True
  end.
Proof.
  induction s as [|c s IH]; cbn; [exact I|].
  destruct (Js.isWhiteSpace c) eqn:Hc; [exact IH|exact Hc].
Qed.

Lemma trimEnd_head (c : ascii) (s : string) :
  Js.isWhiteSpace c = false → ∃ t, Js.trimEnd (String c s) = String c t.
Proof.
  intros Hc. cbn. destruct (Js.trimEnd s); rewrite ?Hc; eauto.
Qed.

Lemma trim_idem (s : string) : Js.trim (Js.trim s) = Js.trim s.
Proof.
  unfold Js.trim. pose proof (trimStart_head s) as Hh.
  destruct (Js.trimStart s) as [|c t]; [reflexivity|].
  destruct (trimEnd_head c t Hh) as [u Hu].
  assert (Hs : Js.trimStart (Js.trimEnd (String c t)) = Js.trimEnd (String c t)).
  { rewrite Hu. cbn. now rewrite Hh. }
  rewrite Hs. apply trimEnd_idem.
Qed.

Lemma splitLinesFrom_cons (cur : string) (c : ascii) (s' : string) :
  Js.splitLinesFrom cur (String c s')
  = if Ascii.eqb c Js.LF then cur :: Js.splitLinesFrom EmptyString s'
    else if Ascii.eqb c Js.CR then
      match s' with
      | String c' s'' =>
          if Ascii.eqb c' Js.LF then cur :: Js.splitLinesFrom EmptyString s''
          else Js.splitLinesFrom (cur +:+ String c EmptyString) s'
      | EmptyString => [cur +:+ String c EmptyString]
      end
    else Js.splitLinesFrom (cur +:+ String c EmptyString) s'.
Proof. reflexivity. Qed.

(** No piece of the split holds a line feed. *)
Lemma splitLinesFrom_no_LF (s : string) :
  (∀ cur, Js.LF ∉ chars cur → Forall (λ p, Js.LF ∉ chars p) (Js.splitLinesFrom cur s))
  ∧ (∀ c cur, Js.LF ∉ chars cur →
              Forall (λ p, Js.LF ∉ chars p) (Js.splitLinesFrom cur (String c s))).
Proof.
  assert (Happ : ∀ cur c, Js.LF ∉ chars cur → c ≠ Js.LF →
                          Js.LF ∉ chars (cur +:+ String c EmptyString)).
  { intros cur c Hcur Hc. rewrite chars_app. cbn. rewrite elem_of_app, list_elem_of_singleton.
    intros [?|?]; [contradiction|congruence]. }
  induction s as [|a s [IH1 IH2]].
  - split; [intros cur Hcur; cbn; auto|].
    intros c cur Hcur. rewrite splitLinesFrom_cons.
    destruct (Ascii.eqb_spec c Js.LF) as [->|Hc]; [cbn; auto using not_elem_of_nil|].
    destruct (Ascii.eqb c Js.CR); cbn; auto.
  - split; [apply IH2|].
    intros c cur Hcur. rewrite splitLinesFrom_cons.
    destruct (Ascii.eqb_spec c Js.LF) as [->|Hc].
    { constructor; [exact Hcur|]. apply IH2, not_elem_of_nil. }
    destruct (Ascii.eqb c Js.CR).
    + destruct (Ascii.eqb_spec a Js.LF) as [->|Ha].
      * constructor; [exact Hcur|]. apply IH1, not_elem_of_nil.
      * apply IH2. auto.
    + apply IH2. auto.
Qed.

Lemma splitLines_no_LF (text : string) : Forall (λ p, Js.LF ∉ chars p) (Js.splitLines text).
Proof. apply splitLinesFrom_no_LF, not_elem_of_nil. Qed.

Lemma length_pos_nonempty (s : string) : (0 < String.length s)%nat ↔ s ≠ EmptyString.
Proof. destruct s; cbn; split; intros; try congruence; lia. Qed.

(** The lines of an import: the pieces of the split, trimmed, without the
    empty ones. *)
Lemma importLines_spec (text : string) :
  Db.importLines text = filter (λ l, l ≠ EmptyString) (Js.trim <$> Js.splitLines text)
  ∧ Forall (λ l, l ≠ EmptyString ∧ Js.trim l = l ∧ Js.LF ∉ chars l) (Db.importLines text).
Proof.
  split.
  - unfold Db.importLines. apply list_filter_iff. intros l. apply length_pos_nonempty.
  - apply Forall_forall. intros l Hl. unfold Db.importLines in Hl.
    apply list_elem_of_filter in Hl as [Hlen Hl].
    apply list_elem_of_fmap in Hl as (p & -> & Hp).
    split; [now apply length_pos_nonempty|]. split; [apply trim_idem|].
    intros Hin. apply chars_trim in Hin.
    pose proof (splitLines_no_LF text) as Hall.
    rewrite Forall_forall in Hall. exact (Hall p Hp Hin).
Qed.

(** A fact about one character, checked on each of the 256. *)
Ltac by_ascii_cases c :=
  destruct c as [[] [] [] [] [] [] [] []]; vm_compute; reflexivity.

Lemma upperChar_F (a : ascii) :
  Ascii.eqb "F" (Js.upperChar a) = bool_decide (a = "F"%char ∨ a = "f"%char).
Proof. by_ascii_cases a. Qed.

Lemma upperChar_M (a : ascii) :
  Ascii.eqb "M" (Js.upperChar a) = bool_decide (a = "M"%char ∨ a = "m"%char).
Proof. by_ascii_cases a. Qed.

Lemma upperChar_sep (b : ascii) :
  Ascii.eqb " " (Js.upperChar b) || Ascii.eqb "," (Js.upperChar b)
  = bool_decide (b = " "%char ∨ b = ","%char).
Proof. by_ascii_cases b. Qed.

Lemma startsWith_empty (s : string) : Js.startsWith s EmptyString = true.
Proof. destruct s; reflexivity. Qed.

(** What [parseLine] reads: the marker in either letter case decides the
    gender and whether the name is cut and stripped of commas. *)
Lemma parseLine_markerOf (line : string) :
  Db.parseLine line
  = match markerOf line with
    | Some g => (g, Js.trim (Js.removeCommas (Js.substring 2 line)))
    | None => (M, line)
    end.
Proof.
  destruct line as [|a [|b rest]]; [reflexivity| |].
  - unfold Db.parseLine. cbn. rewrite !andb_false_r. reflexivity.
  - unfold Db.parseLine, markerOf. cbn [Js.toUpperCase Js.startsWith].
    rewrite !startsWith_empty, !andb_true_r, <- !andb_orb_distrib_r, upperChar_sep,
      upperChar_F, upperChar_M.
    destruct (bool_decide (b = " "%char ∨ b = ","%char));
      destruct (bool_decide (a = "F"%char ∨ a = "f"%char));
      destruct (bool_decide (a = "M"%char ∨ a = "m"%char)); reflexivity.
Qed.

End RosterText.

Section ImportClaims.

(** What each new student is made of, line by line. *)
Lemma newStudentsOf_lines (now : nat → Date) (random : nat → string) (lines : list string) :
  Forall2 (λ line st, name st = (Db.parseLine line).2
                      ∧ gender st = (Db.parseLine line).1
                      ∧ payments st = ∅)
          lines (Db.newStudentsOf now random lines).
Proof.
  apply Forall2_same_length_lookup_2.
  - unfold Db.newStudentsOf. now rewrite length_imap.
  - intros i line st Hl Hst. unfold Db.newStudentsOf in Hst.
    rewrite list_lookup_imap, Hl in Hst. injection Hst as <-. auto.
Qed.

Lemma saveStudents_stores (data : list Student) (ls : LocalStorage) :
  storesNext 1 ls = true → Db.getStudents (Db.saveStudents data ls) = data.
Proof.
  intros Hok. destruct (nextSetItem_stores 0 ls Hok) as (rest & Hnext & _).
  unfold Db.saveStudents. now rewrite Hnext.
Qed.

(** C8 (amended). On ASCII text, [importStudentsFromText] splits its input
    into the trimmed, non-empty lines; a line that starts with F followed by a
    space or a comma, the letter in either case, yields a female student,
    every other line (marked M in either case, or not marked) a male student;
    each new student has an empty payment map and the count of the students
    created is returned, the roster growing by them when the write is stored.
    The text of the example yields exactly Alice (male), Beth (female) and
    Carl (male), the blank lines ignored. *)
Theorem importStudentsFromText_creates (now : nat → Date) (random : nat → string)
    (text : string) (ls : LocalStorage) :
  Js.isAscii text = true →
  let lines := Db.importLines text in
  let new := Db.newStudentsOf now random lines in
  let res := Db.importStudentsFromText now random text ls in
  let example := Sample.lines ["Alice"; "F Beth"; "M Carl"; EmptyString] in
  (lines = filter (λ l, l ≠ EmptyString) (Js.trim <$> Js.splitLines text)
   ∧ Forall (λ l, l ≠ EmptyString ∧ Js.trim l = l ∧ Js.LF ∉ chars l) lines)
  ∧ Forall2 (λ line st, gender st = default M (markerOf line) ∧ payments st = ∅) lines new
  ∧ res.1 = length new
  ∧ length new = length lines
  ∧ (storesNext 1 ls = true → Db.getStudents res.2 = Db.getStudents ls ++ new)
  ∧ (λ st, (name st, gender st, payments st))
      <$> Db.newStudentsOf now random (Db.importLines example)
    = [("Alice", M, ∅); ("Beth", F, ∅); ("Carl", M, ∅)]
  ∧ (Db.importStudentsFromText now random example ls).1 = 3%nat.
Proof.
  intros _ lines new res example.
  split; [apply importLines_spec|].
  split.
  { eapply Forall2_impl; [apply newStudentsOf_lines|].
    intros line st (_ & Hg & Hp). split; [|exact Hp].
    rewrite Hg, parseLine_markerOf. now destruct (markerOf line). }
  split; [reflexivity|].
  split; [subst new; unfold Db.newStudentsOf; now rewrite length_imap|].
  split; [intros Hok; now apply saveStudents_stores|].
  split; reflexivity.
Qed.

Lemma importStudentsFromText_creates_witness :
  let text := " Alice " +:+ String Js.CR (String Js.LF (Sample.lines ["f,Beth"; EmptyString; "m Carl"])) in
  let res := Db.importStudentsFromText (λ _, Sample.noon) (λ _, "k3x9a") text
               (Sample.emptyStorage []) in
  res.1 = 3%nat
  ∧ (λ st, (name st, gender st)) <$> drop 33 (Db.getStudents res.2)
    = [("Alice", M); ("Beth", F); ("Carl", M)].
Proof.
  intros text res.
  assert (Hascii : Js.isAscii text = true) by reflexivity.
  pose proof (importStudentsFromText_creates (λ _, Sample.noon) (λ _, "k3x9a") text
                (Sample.emptyStorage []) Hascii) as (_ & _ & Hres & Hlen & Hstore & _).
  fold res in Hres, Hstore. split.
  - rewrite Hres, Hlen. reflexivity.
  - rewrite (Hstore eq_refl). reflexivity.
Defined.

(** C8 as stated fails: a line that starts with a lower-case marker carries
    none of the four listed prefixes, and yet it yields a female student. *)
Lemma import_lowercase_marker_is_female :
  listedMarkerOf "f Beth" = None
  ∧ (λ st, (name st, gender st))
      <$> Db.newStudentsOf (λ _, Sample.noon) (λ _, "k3x9a") (Db.importLines "f Beth")
    = [("Beth", F)].
Proof. split; reflexivity. Qed.

(** C10 (amended). On ASCII text, comma stripping applies only to
    gender-marked lines, the marker being F or M in either letter case
    followed by a space or a comma: such a line loses its first two characters
    and every comma, and the rest is trimmed; any other line is the student's
    name as it stands, commas included. *)
Theorem import_names_and_commas (now : nat → Date) (random : nat → string) (text : string) :
  Js.isAscii text = true →
  Forall2 (λ line st,
             match markerOf line with
             | Some _ => name st = Js.trim (Js.removeCommas (Js.substring 2 line))
                         ∧ ","%char ∉ chars (name st)
             | None => name st = line
             end)
    (Db.importLines text) (Db.newStudentsOf now random (Db.importLines text))
  ∧ name <$> Db.newStudentsOf now random (Db.importLines "Agarao, Franco")
    = ["Agarao, Franco"].
Proof.
  intros _. split; [|reflexivity].
  eapply Forall2_impl; [apply newStudentsOf_lines|].
  intros line st (Hn & _ & _). rewrite Hn, parseLine_markerOf.
  destruct (markerOf line); cbn; [|reflexivity].
  split; [reflexivity|]. intros Hin. apply chars_trim in Hin.
  exact (chars_removeCommas _ Hin).
Qed.

Lemma import_names_and_commas_witness :
  let text := Sample.lines ["M,Cruz, Juan "; "  Agarao, Franco"; "f Reyes,Ana"] in
  Forall2 (λ line st,
             match markerOf line with
             | Some _ => name st = Js.trim (Js.removeCommas (Js.substring 2 line))
                         ∧ ","%char ∉ chars (name st)
             | None => name st = line
             end)
    ["M,Cruz, Juan"; "Agarao, Franco"; "f Reyes,Ana"]
    (Db.newStudentsOf (λ _, Sample.noon) (λ _, "k3x9a") (Db.importLines text)).
Proof.
  intros text.
  assert (Hascii : Js.isAscii text = true) by reflexivity.
  exact (proj1 (import_names_and_commas (λ _, Sample.noon) (λ _, "k3x9a") text Hascii)).
Defined.

(** C10 as stated fails: a line with a lower-case marker carries none of the
    four listed prefixes, and its commas are stripped all the same. *)
Lemma import_lowercase_marker_strips_commas :
  listedMarkerOf "m,Cruz, Juan" = None
  ∧ name <$> Db.newStudentsOf (λ _, Sample.noon) (λ _, "k3x9a") (Db.importLines "m,Cruz, Juan")
    = ["Cruz Juan"].
Proof. split; reflexivity. Qed.

End ImportClaims.

(** ** The category breakdown *)

Section Categories.
Import ClassFunds.

Lemma get_set {V} (o : JsObject.ordered V) (k k' : string) (v : V) :
  JsObject.get (JsObject.set o k v) k' = if decide (k = k') then Some v else JsObject.get o k'.
Proof.
  induction o as [|[k0 v0] o IH]; cbn.
  - destruct (decide (k = k')); reflexivity.
  - destruct (decide (k0 = k)) as [->|Hne]; cbn.
    + destruct (decide (k = k')); reflexivity.
    + rewrite IH. destruct (decide (k0 = k')) as [->|]; [|reflexivity].
      destruct (decide (k = k')); [congruence|reflexivity].
Qed.

Lemma keys_set {V} (o : JsObject.ordered V) (k : string) (v : V) :
  (JsObject.set o k v).*1 = if decide (k ∈ o.*1) then o.*1 else o.*1 ++ [k].
Proof.
  induction o as [|[k0 v0] o IH]; cbn.
  - destruct (decide (k ∈ [])) as [H|]; [inversion H|reflexivity].
  - destruct (decide (k0 = k)) as [->|Hne]; cbn.
    + destruct (decide (k ∈ k :: o.*1)) as [|H]; [reflexivity|]. exfalso. apply H. left.
    + rewrite IH. destruct (decide (k ∈ o.*1)) as [Hin|Hnin].
      * destruct (decide (k ∈ k0 :: o.*1)) as [|H]; [reflexivity|].
        exfalso. apply H. now right.
      * destruct (decide (k ∈ k0 :: o.*1)) as [H|]; [|reflexivity].
        apply elem_of_cons in H as [->|H]; contradiction.
Qed.

Lemma filter_all {A} (P : A → Prop) `{!∀ x, Decision (P x)} (l : list A) :
  Forall P l → filter P l = l.
Proof.
  induction 1 as [|x l Hx _ IH]; [reflexivity|]. rewrite filter_cons_True by exact Hx.
  now rewrite IH.
Qed.

Lemma read_assign (o : JsObject.ordered JsObject.Value) (k k' : string) (v : JsObject.Value) :
  k' ≠ JsObject.proto →
  JsObject.read (JsObject.assign o k v) k'
  = if decide (k = k') then v else JsObject.read o k'.
Proof.
  intros Hk'. unfold JsObject.assign. destruct (decide (k = JsObject.proto)) as [->|Hk].
  - destruct (decide (JsObject.proto = k')); [congruence|reflexivity].
  - unfold JsObject.read. rewrite get_set. now destruct (decide (k = k')).
Qed.

Lemma keys_assign (o : JsObject.ordered JsObject.Value) (k : string) (v : JsObject.Value) :
  (JsObject.assign o k v).*1
  = if decide (k = JsObject.proto) then o.*1
    else if decide (k ∈ o.*1) then o.*1 else o.*1 ++ [k].
Proof.
  unfold JsObject.assign. destruct (decide (k = JsObject.proto)); [reflexivity|].
  apply keys_set.
Qed.

Lemma firstOccurrences_elem (l : list string) (x : string) :
  x ∈ firstOccurrences l ↔ x ∈ l.
Proof.
  induction l as [|y l IH]; cbn; [reflexivity|].
  rewrite !elem_of_cons, list_elem_of_filter, IH.
  destruct (decide (x = y)); tauto.
Qed.

Lemma firstOccurrences_NoDup (l : list string) : NoDup (firstOccurrences l).
Proof.
  induction l as [|y l IH]; cbn; constructor.
  - rewrite list_elem_of_filter. tauto.
  - now apply NoDup_filter.
Qed.

Lemma orderKeys_Permutation (l : list string) : JsObject.orderKeys l ≡ₚ l.
Proof.
  unfold JsObject.orderKeys. rewrite sort_Permutation.
  induction l as [|k l IH]; [reflexivity|].
  rewrite !filter_cons. destruct (JsObject.isArrayIndex k); cbn.
  - destruct (decide (true = true)) as [_|]; [|congruence].
    destruct (decide (true = false)) as [|_]; [congruence|]. cbn. now rewrite IH.
  - destruct (decide (false = true)) as [|_]; [congruence|].
    destruct (decide (false = false)) as [_|]; [|congruence].
    rewrite <- Permutation_middle. now rewrite IH.
Qed.

(** A name is a group when some transaction falls under it, [__proto__]
    apart. *)
Lemma groupNames_elem (exps : list Transaction) (k : string) :
  k ∈ groupNames exps ↔ k ≠ JsObject.proto ∧ ∃ e, e ∈ exps ∧ categoryOrOther e = k.
Proof.
  unfold groupNames. rewrite firstOccurrences_elem, list_elem_of_filter, list_elem_of_fmap.
  split.
  - intros (Hk & e & -> & He). eauto.
  - intros (Hk & e & He & <-). eauto.
Qed.

Lemma groupNames_cons (e : Transaction) (exps : list Transaction) :
  groupNames (e :: exps)
  = if decide (categoryOrOther e = JsObject.proto) then groupNames exps
    else categoryOrOther e :: filter (λ y, y ≠ categoryOrOther e) (groupNames exps).
Proof.
  unfold groupNames. rewrite fmap_cons, filter_cons.
  destruct (decide (categoryOrOther e = JsObject.proto)) as [Heq|Hne].
  - destruct (decide (categoryOrOther e ≠ JsObject.proto)); [contradiction|reflexivity].
  - destruct (decide (categoryOrOther e ≠ JsObject.proto)); [reflexivity|contradiction].
Qed.

(** The object built by the loop, started from [o]: its keys, in the order
    of their creation, and what is read under each key. *)
Lemma cats_keys_from (o : JsObject.ordered JsObject.Value) (exps : list Transaction) :
  (foldl catsStep o exps).*1 = o.*1 ++ filter (λ y, y ∉ o.*1) (groupNames exps).
Proof.
  revert o. induction exps as [|e exps IH]; intros o.
  - cbn. now rewrite app_nil_r.
  - cbn [foldl]. rewrite IH, groupNames_cons.
    assert (Hk : (catsStep o e).*1
                 = if decide (categoryOrOther e = JsObject.proto) then o.*1
                   else if decide (categoryOrOther e ∈ o.*1) then o.*1
                        else o.*1 ++ [categoryOrOther e]) by apply keys_assign.
    rewrite Hk. clear Hk. set (k := categoryOrOther e). set (L := groupNames exps).
    destruct (decide (k = JsObject.proto)) as [Hp|Hp]; [reflexivity|].
    destruct (decide (k ∈ o.*1)) as [Hin|Hnin].
    + rewrite filter_cons_False by (intros H; contradiction).
      rewrite list_filter_filter. f_equal. apply list_filter_iff.
      intros y. split; [intros H; split; [exact H|congruence]|now intros [H _]].
    + rewrite filter_cons_True by exact Hnin. rewrite <- app_assoc. cbn. do 2 f_equal.
      rewrite list_filter_filter. apply list_filter_iff.
      intros y. rewrite elem_of_app, list_elem_of_singleton. tauto.
Qed.

Lemma cats_read_from (o : JsObject.ordered JsObject.Value) (exps : list Transaction)
    (k : string) :
  k ≠ JsObject.proto →
  JsObject.read (foldl catsStep o exps) k
  = foldl (λ x e, JsObject.orZeroPlus x (amount e)) (JsObject.read o k)
      (filter (λ e, categoryOrOther e = k) exps).
Proof.
  intros Hk. revert o. induction exps as [|e exps IH]; intros o; [reflexivity|].
  cbn [foldl]. rewrite IH. unfold catsStep. rewrite read_assign by exact Hk.
  rewrite filter_cons. destruct (decide (categoryOrOther e = k)) as [->|]; reflexivity.
Qed.

(** What the repeated [(x || 0) + amount] makes of a number, of [undefined]
    and of a builtin. *)
Lemma orZeroPlus_Number (n : Z) (l : list Transaction) :
  foldl (λ x e, JsObject.orZeroPlus x (amount e)) (JsObject.Number n) l
  = JsObject.Number (foldl (λ acc e, acc + amount e) n l).
Proof. revert n. induction l as [|e l IH]; intros n; [reflexivity|]. cbn. apply IH. Qed.

Lemma orZeroPlus_Text (l : list Transaction) :
  foldl (λ x e, JsObject.orZeroPlus x (amount e)) JsObject.Text l = JsObject.Text.
Proof. induction l as [|e l IH]; [reflexivity|]. cbn. apply IH. Qed.

Lemma read_cats (exps : list Transaction) (k : string) :
  k ∈ groupNames exps → JsObject.read (cats exps) k = sliceOf k exps.
Proof.
  intros Hin. apply groupNames_elem in Hin as (Hk & e & He & Hcat).
  unfold cats. rewrite cats_read_from by exact Hk. unfold sliceOf, categoryTotal.
  assert (Hne : filter (λ e, categoryOrOther e = k) exps ≠ []).
  { intros Hnil. assert (Hin : e ∈ filter (λ e, categoryOrOther e = k) exps)
      by (apply list_elem_of_filter; auto).
    rewrite Hnil in Hin. inversion Hin. }
  destruct (filter (λ e, categoryOrOther e = k) exps) as [|e0 l]; [congruence|].
  unfold JsObject.read. cbn [JsObject.get foldl].
  destruct (decide (k ∈ JsObject.inheritedFunctions)) as [Hinh|Hinh].
  - destruct (decide (k ∈ JsObject.inheritedFunctions ∨ k = JsObject.proto)) as [_|H];
      [|exfalso; apply H; now left].
    cbn. apply orZeroPlus_Text.
  - destruct (decide (k ∈ JsObject.inheritedFunctions ∨ k = JsObject.proto)) as [[H|H]|_];
      [contradiction|contradiction|].
    cbn [JsObject.orZeroPlus]. apply orZeroPlus_Number.
Qed.

Lemma pieDataOf_groups (exps : list Transaction) :
  pieDataOf exps = (λ k, (k, sliceOf k exps)) <$> JsObject.orderKeys (groupNames exps).
Proof.
  unfold pieDataOf, JsObject.orderedKeys.
  assert (Hkeys : (cats exps).*1 = groupNames exps).
  { unfold cats. rewrite cats_keys_from. cbn [fmap list_fmap app].
    apply filter_all, Forall_true. intros y. apply not_elem_of_nil. }
  rewrite Hkeys. apply list_fmap_ext. intros i k Hi. f_equal. apply read_cats.
  rewrite <- (orderKeys_Permutation (groupNames exps)).
  eapply list_elem_of_lookup_2. exact Hi.
Qed.

(** With no category named like a property of [Object.prototype], the
    groups are the categories and every value is a number. *)
Lemma plain_categories (exps : list Transaction) :
  Forall (λ e, categoryOrOther e ∉ JsObject.proto :: JsObject.inheritedFunctions) exps →
  groupNames exps = firstOccurrences (categoryOrOther <$> exps)
  ∧ ∀ k, k ∈ groupNames exps → sliceOf k exps = JsObject.Number (categoryTotal k exps).
Proof.
  intros Hplain. split.
  - unfold groupNames. f_equal. apply filter_all, Forall_fmap.
    eapply Forall_impl; [exact Hplain|]. intros e He Heq. apply He. rewrite Heq. left.
  - intros k Hin. apply groupNames_elem in Hin as (_ & e & He & <-).
    unfold sliceOf. destruct (decide (categoryOrOther e ∈ JsObject.inheritedFunctions)) as [H|];
      [|reflexivity].
    rewrite Forall_forall in Hplain. exfalso. apply (Hplain e He). now right.
Qed.

(** C9 (amended). The category breakdown groups the transactions by their
    category, a missing or empty one counting as "Other", and adds up the
    amounts of each group in the order of the transactions. The groups whose
    name is an array index (the decimal text of an integer below 2^32 - 1) come
    first, in ascending numeric order; the other groups follow, in the order
    of the first occurrence of their category. The object that holds the
    groups is a plain one: the category [__proto__] makes no group, and a
    category named like a function of [Object.prototype] (constructor,
    toString, ...) makes a group whose value is a string, not a total. With
    no such name every value is the total of its category, and with no numeric
    name the whole listing is in first-occurrence order, as in the example:
    20 under "Materials" then 5 under an empty category give
    Materials: 20, Other: 5. *)
Theorem pieData_groups_by_category (dates : list string) (studs : list Student)
    (exps : list Transaction) (plans : list PlannedExpense) (s : AppSettings) :
  let names := groupNames exps in
  let indices := filter (λ k, JsObject.isArrayIndex k = true) names in
  let others := filter (λ k, JsObject.isArrayIndex k = false) names in
  let sorted := JsArray.sort JsObject.compareIndex indices in
  let f := financialsOver dates studs exps plans s in
  pieData f = (λ k, (k, sliceOf k exps)) <$> (sorted ++ others)
  ∧ (∀ k, k ∈ names ↔ k ≠ JsObject.proto ∧ ∃ e, e ∈ exps ∧ categoryOrOther e = k)
  ∧ sorted ≡ₚ indices
  ∧ StronglySorted (λ a b, (default 0 (JsObject.arrayIndex a)
                            ≤ default 0 (JsObject.arrayIndex b))%N) sorted
  ∧ (Forall (λ e, categoryOrOther e ∉ JsObject.proto :: JsObject.inheritedFunctions) exps →
     names = firstOccurrences (categoryOrOther <$> exps)
     ∧ pieData f = (λ k, (k, JsObject.Number (categoryTotal k exps))) <$> (sorted ++ others))
  ∧ (indices = [] → pieData f = (λ k, (k, sliceOf k exps)) <$> names)
  ∧ pieDataOf [Sample.expense (Some "Materials") 20; Sample.expense (Some EmptyString) 5]
    = [("Materials", JsObject.Number 20); ("Other", JsObject.Number 5)]
  ∧ pieDataOf [Sample.expense (Some "__proto__") 3; Sample.expense (Some "toString") 4;
               Sample.expense (Some "Materials") 20; Sample.expense (Some "toString") 1]
    = [("toString", JsObject.Text); ("Materials", JsObject.Number 20)].
Proof.
  intros names indices others sorted f.
  assert (Hpie : pieData f = (λ k, (k, sliceOf k exps)) <$> (sorted ++ others)).
  { subst f. unfold financialsOver. cbn [pieData]. apply pieDataOf_groups. }
  assert (Hperm : sorted ++ others ≡ₚ names) by apply orderKeys_Permutation.
  split; [exact Hpie|]. split; [apply groupNames_elem|].
  split; [apply sort_Permutation|]. split.
  { apply (sort_StronglySorted JsObject.compareIndex); unfold JsObject.compareIndex; intros; lia. }
  split.
  { intros Hplain. destruct (plain_categories exps Hplain) as [Hnames Hnum].
    split; [exact Hnames|]. rewrite Hpie. apply list_fmap_ext. intros i k Hi. f_equal.
    apply Hnum. fold names. rewrite <- Hperm. eapply list_elem_of_lookup_2. exact Hi. }
  split; [|split; vm_compute; reflexivity].
  intros Hnone. rewrite Hpie. subst sorted. rewrite Hnone. cbn [JsArray.sort foldr app].
  f_equal. subst others. apply filter_all, Forall_forall. intros k Hk.
  destruct (JsObject.isArrayIndex k) eqn:Hidx; [|reflexivity].
  assert (Hin : k ∈ indices) by (apply list_elem_of_filter; auto).
  rewrite Hnone in Hin. inversion Hin.
Qed.

(** C9 as stated fails: a category named "7", recorded after "Materials", is
    listed before it, against the order of first occurrence. *)
Lemma pieData_numeric_category_first :
  let exps := [Sample.expense (Some "Materials") 20; Sample.expense (Some "7") 5] in
  firstOccurrences (categoryOrOther <$> exps) = ["Materials"; "7"]
  ∧ pieData (financialsOver [] [] exps [] Sample.settingsOn)
    = [("7", JsObject.Number 5); ("Materials", JsObject.Number 20)].
Proof. split; vm_compute; reflexivity. Qed.

End Categories.

(** ** The scenario of the specification, step by step *)

(** With a quota of 5 and one active day: toggling A records 5 for A; marking
    all paid records 5 for both; nobody is then in debt; once the day is
    deactivated the active-date set is empty, nobody is in debt, and the
    income still counts the 10 already paid. *)
Lemma ledger_scenario :
  let st0 := Sample.stateOf [Db.mkStudent "a" "A" M; Db.mkStudent "b" "B" F] Sample.settingsOn in
  let st1 := ClassFundsLocal.togglePayment "a" st0 in
  let st2 := ClassFunds.bulkMark Sample.noon true st1 in
  let st3 := ClassFunds.toggleCollectionDay st2 in
  (payments <$> students st1) = [ {[ Sample.day := 5 ]}; ∅ ]
  ∧ (payments <$> students st2) = [ {[ Sample.day := 5 ]}; {[ Sample.day := 5 ]} ]
  ∧ debtors (financialsLocalOf Sample.noon st2) = []
  ∧ ClassFundsLocal.activeDates (ClassFundsLocal.toLocalISO Sample.noon) (settings st3) = []
  ∧ debtors (financialsLocalOf Sample.noon st3) = []
  ∧ totalIncome (financialsLocalOf Sample.noon st3) = 10.
Proof. vm_compute. repeat split. Qed.

(** * Further properties of the code *)

(** ** The aggregates of [financials] *)

Section Aggregates.
Import ClassFunds.

Lemma debtOf_nonneg (s : AppSettings) (dates : list string) (st : Student) :
  0 ≤ debtOf s dates st.
Proof. rewrite debtOf_sums. lia. Qed.

Lemma foldl_debt_sum (l : list Debtor) (acc : Z) :
  foldl (λ sum d, sum + debt d) acc l = acc + foldr (λ d a, debt d + a) 0 l.
Proof.
  revert acc. induction l as [|d l IH]; intros acc; cbn; [lia|]. rewrite IH. lia.
Qed.

Lemma debt_sum_Permutation (l k : list Debtor) :
  l ≡ₚ k → foldr (λ d a, debt d + a) 0 l = foldr (λ d a, debt d + a) 0 k.
Proof. induction 1; cbn; lia. Qed.

Lemma debt_sum_positive (s : AppSettings) (dates : list string) (studs : list Student) :
  foldr (λ d a, debt d + a) 0
    (filter (λ d, 0 < debt d)
       ((λ st, {| student := st; debt := debtOf s dates st |}) <$> studs))
  = foldr (λ st a, debtOf s dates st + a) 0 studs.
Proof.
  induction studs as [|st studs IH]; [reflexivity|].
  rewrite fmap_cons, filter_cons. cbn [debt foldr].
  pose proof (debtOf_nonneg s dates st).
  destruct (decide (0 < debtOf s dates st)); cbn [foldr debt]; rewrite IH; lia.
Qed.

Lemma totalDebt_is_roster_debt_aux (dates : list string) (studs : list Student)
    (exps : list Transaction) (plans : list PlannedExpense) (s : AppSettings) :
  totalDebt (financialsOver dates studs exps plans s)
  = foldr (λ st a, debtOf s dates st + a) 0 studs
  ∧ Forall (λ d, 0 < debt d) (debtors (financialsOver dates studs exps plans s)).
Proof.
  split.
  - unfold financialsOver. cbn [totalDebt debtors]. rewrite foldl_debt_sum.
    rewrite (debt_sum_Permutation _ _ (sort_Permutation _ _)), debt_sum_positive. lia.
  - unfold financialsOver. cbn [debtors]. rewrite sort_Permutation.
    apply Forall_forall. intros d Hd. now apply list_elem_of_filter in Hd as [Hd _].
Qed.

(** The total debt is the sum of the debts of the whole roster (the students
    left out of the listing owe nothing); it is never negative, and it is
    positive exactly when the listing is not empty, which is when the view
    shows the card of unpaid dues. *)
Theorem totalDebt_is_roster_debt (dates : list string) (studs : list Student)
    (exps : list Transaction) (plans : list PlannedExpense) (s : AppSettings) :
  let f := financialsOver dates studs exps plans s in
  totalDebt f = foldr (λ st a, debtOf s dates st + a) 0 studs
  ∧ 0 ≤ totalDebt f
  ∧ (0 < totalDebt f ↔ debtors f ≠ []).
Proof.
  intros f.
  assert (Hsum : totalDebt f = foldr (λ d a, debt d + a) 0 (debtors f)).
  { subst f. unfold financialsOver. cbn [totalDebt debtors]. rewrite foldl_debt_sum. lia. }
  assert (Hpos : Forall (λ d, 0 < debt d) (debtors f)).
  { subst f. unfold financialsOver. cbn [debtors]. rewrite sort_Permutation.
    apply Forall_forall. intros d Hd. now apply list_elem_of_filter in Hd as [Hd _]. }
  assert (Hroster : totalDebt f = foldr (λ st a, debtOf s dates st + a) 0 studs).
  { rewrite Hsum. subst f. unfold financialsOver. cbn [debtors].
    rewrite (debt_sum_Permutation _ _ (sort_Permutation _ _)). apply debt_sum_positive. }
  split; [exact Hroster|]. rewrite Hsum. clear Hsum Hroster.
  induction Hpos as [|d l Hd Hl IH]; cbn.
  - split; [lia|]. split; [lia|congruence].
  - destruct IH as [IH _]. split; [lia|]. split; [congruence|lia].
Qed.

Lemma foldl_amount_sum (exps : list Transaction) (acc : Z) :
  foldl (λ sum tx, sum + amount tx) acc exps = acc + sumAmounts exps.
Proof.
  unfold sumAmounts. revert acc. induction exps as [|e exps IH]; intros acc; cbn; [lia|].
  rewrite IH. lia.
Qed.

Lemma totalExpenses_sumAmounts (dates : list string) studs exps plans s :
  totalExpenses (financialsOver dates studs exps plans s) = sumAmounts exps.
Proof. unfold financialsOver. cbn [totalExpenses]. rewrite foldl_amount_sum. lia. Qed.

Lemma firstOccurrences_length (l : list string) :
  (length (firstOccurrences l) ≤ length l)%nat.
Proof.
  induction l as [|x l IH]; cbn; [lia|].
  pose proof (length_filter (λ y, y ≠ x) (firstOccurrences l)). lia.
Qed.

Lemma NoDup_all_equal (k : string) (l : list string) :
  NoDup l → k ∈ l → (∀ x, x ∈ l → x = k) → l = [k].
Proof.
  intros Hnd Hin Hall. destruct l as [|a [|b l]].
  - inversion Hin.
  - f_equal. apply Hall. left.
  - exfalso. assert (Ha : a = k) by (apply Hall; left).
    assert (Hb : b = k) by (apply Hall; right; left). subst a b.
    apply NoDup_cons in Hnd as [Hnd _]. apply Hnd. left.
Qed.

(** The spending chart shows each category once: the slices carry pairwise
    distinct names, a name is a slice exactly when some expense falls under it
    (the name [__proto__] apart, which never makes a slice), so there are
    never more slices than expenses; and when every expense falls under one
    and the same ordinary category, the single slice is the total of the
    expenses. *)
Theorem pieData_one_slice_per_category (dates : list string) (studs : list Student)
    (exps : list Transaction) (plans : list PlannedExpense) (s : AppSettings) :
  let f := financialsOver dates studs exps plans s in
  NoDup (pieData f).*1
  ∧ (∀ k, k ∈ (pieData f).*1 ↔ k ≠ JsObject.proto ∧ ∃ e, e ∈ exps ∧ categoryOrOther e = k)
  ∧ (length (pieData f) ≤ length exps)%nat
  ∧ (∀ k, k ∉ JsObject.proto :: JsObject.inheritedFunctions →
          exps ≠ [] → Forall (λ e, categoryOrOther e = k) exps →
          pieData f = [(k, JsObject.Number (totalExpenses f))]).
Proof.
  intros f. set (names := groupNames exps).
  assert (Hpie : pieData f = (λ k, (k, sliceOf k exps)) <$> JsObject.orderKeys names).
  { subst f. unfold financialsOver. cbn [pieData]. apply pieDataOf_groups. }
  assert (Hfst : (pieData f).*1 = JsObject.orderKeys names).
  { rewrite Hpie, <- list_fmap_compose. apply list_fmap_id. }
  assert (Hnd : NoDup names) by apply firstOccurrences_NoDup.
  split; [|split; [|split]].
  - now rewrite Hfst, orderKeys_Permutation.
  - intros k. rewrite Hfst, orderKeys_Permutation. apply groupNames_elem.
  - rewrite Hpie, length_fmap, orderKeys_Permutation. unfold names, groupNames.
    etrans; [apply firstOccurrences_length|].
    etrans; [apply length_filter|]. now rewrite length_fmap.
  - intros k Hk Hne Hall.
    assert (Hkp : k ≠ JsObject.proto) by (intros ->; apply Hk; left).
    assert (Hki : k ∉ JsObject.inheritedFunctions) by (intros H; apply Hk; now right).
    assert (Hnames : names = [k]).
    { apply NoDup_all_equal; [exact Hnd| |].
      - apply groupNames_elem. split; [exact Hkp|].
        destruct exps as [|e exps']; [congruence|]. exists e. split; [left|].
        now apply Forall_cons in Hall as [He _].
      - intros x Hx. apply groupNames_elem in Hx as (_ & e & He & <-).
        rewrite Forall_forall in Hall. now apply Hall. }
    assert (Hkeys : JsObject.orderKeys names = [k]).
    { apply Permutation_singleton_r. rewrite orderKeys_Permutation. now rewrite Hnames. }
    rewrite Hpie, Hkeys. cbn [fmap list_fmap]. do 2 f_equal.
    unfold sliceOf. destruct (decide (k ∈ JsObject.inheritedFunctions)); [contradiction|].
    f_equal. unfold categoryTotal. rewrite (filter_all _ exps) by exact Hall. reflexivity.
Qed.

End Aggregates.

(** ** Collection days *)

Section CollectionDays.
Import ClassFunds.

(** The status of every date after the toggle. *)
Lemma toggleCollectionDay_status (st : State) (d : string) :
  isCollectionActive (settings (toggleCollectionDay st)) d
  = if decide (d = selectedDate st)
    then negb (isCollectionActive (settings st) d)
    else isCollectionActive (settings st) d.
Proof.
  unfold toggleCollectionDay, isCollectionActive. cbn.
  destruct (decide (d = selectedDate st)) as [->|Hne].
  - rewrite lookup_insert_eq.
    destruct (bool_decide_reflect (collectionDays (settings st) !! selectedDate st = Some true));
      cbn; [apply bool_decide_eq_false; congruence|now apply bool_decide_eq_true].
  - now rewrite lookup_insert_ne.
Qed.

(** [toggleCollectionDay] flips the status of the selected date and of no
    other date; it leaves the default quota, the custom quotas and the roster
    as they were, so a day that is switched on has the quota it had before
    it was switched off; and the new settings are what the store holds when
    the write is stored. *)
Theorem toggleCollectionDay_flips_selected (st : State) :
  let st' := toggleCollectionDay st in
  isCollectionActive (settings st') (selectedDate st)
  = negb (isCollectionActive (settings st) (selectedDate st))
  ∧ (∀ d, d ≠ selectedDate st →
          isCollectionActive (settings st') d = isCollectionActive (settings st) d
          ∧ getQuotaForDate (settings st') d = getQuotaForDate (settings st) d)
  ∧ (isCollectionActive (settings st) (selectedDate st) = false →
     getQuotaForDate (settings st') (selectedDate st)
     = default (dailyQuota (settings st)) (customQuotas (settings st) !! selectedDate st))
  ∧ customQuotas (settings st') = customQuotas (settings st)
  ∧ dailyQuota (settings st') = dailyQuota (settings st)
  ∧ students st' = students st
  ∧ selectedDate st' = selectedDate st
  ∧ (storesNext 1 (storage st) = true → Db.getSettings (storage st') = settings st').
Proof.
  intros st'.
  assert (Hsel : isCollectionActive (settings st') (selectedDate st)
                 = negb (isCollectionActive (settings st) (selectedDate st))).
  { subst st'. rewrite toggleCollectionDay_status. now destruct (decide _). }
  split; [exact Hsel|]. split.
  { intros d Hd. assert (Hs : isCollectionActive (settings st') d
                              = isCollectionActive (settings st) d).
    { subst st'. rewrite toggleCollectionDay_status. now destruct (decide _). }
    split; [exact Hs|]. unfold getQuotaForDate. rewrite Hs. reflexivity. }
  split.
  { intros Hoff. unfold getQuotaForDate. rewrite Hsel, Hoff. reflexivity. }
  repeat (split; [reflexivity|]).
  intros Hok. destruct (nextSetItem_stores 0 _ Hok) as (rest & Hnext & _).
  subst st'. unfold toggleCollectionDay. cbn. unfold Db.saveSettings. now rewrite Hnext.
Qed.

Lemma keys_elem {V} (m : gmap string V) (d : string) :
  d ∈ JsObject.keys m ↔ is_Some (m !! d).
Proof.
  unfold JsObject.keys. rewrite list_elem_of_fmap. split.
  - intros ([k v] & -> & H). apply elem_of_map_to_list in H. eauto.
  - intros [v Hv]. exists (d, v). split; [reflexivity|]. now apply elem_of_map_to_list.
Qed.

Lemma keys_NoDup {V} (m : gmap string V) : NoDup (JsObject.keys m).
Proof. apply NoDup_fst_map_to_list. Qed.

Lemma same_status_lookup (s1 s2 : AppSettings) (d : string) :
  isCollectionActive s1 d = isCollectionActive s2 d →
  collectionDays s1 !! d = Some true ↔ collectionDays s2 !! d = Some true.
Proof. intros H. rewrite <- !isCollectionActive_true, H. reflexivity. Qed.

(** Two settings with the same active dates give the same dates to count,
    up to their order. *)
Lemma activeDates_same_status (today : string) (s1 s2 : AppSettings) :
  (∀ d, isCollectionActive s1 d = isCollectionActive s2 d) →
  ClassFundsLocal.activeDates today s1 ≡ₚ ClassFundsLocal.activeDates today s2.
Proof.
  intros Hst. apply NoDup_Permutation; try (apply NoDup_filter, keys_NoDup).
  intros d. unfold ClassFundsLocal.activeDates.
  rewrite !list_elem_of_filter, !keys_elem.
  pose proof (same_status_lookup s1 s2 d (Hst d)) as [H12 H21].
  split; intros [[Ht Hle] _].
  - rewrite (H12 Ht). eauto.
  - rewrite (H21 Ht). eauto.
Qed.

Lemma activeCollectionDates_same_status (now : string → Date) (s1 s2 : AppSettings) :
  (∀ d, isCollectionActive s1 d = isCollectionActive s2 d) →
  activeCollectionDates now s1 ≡ₚ activeCollectionDates now s2.
Proof.
  intros Hst. unfold activeCollectionDates. rewrite !sort_Permutation.
  apply NoDup_Permutation; try (apply NoDup_filter, keys_NoDup).
  intros d. rewrite !list_elem_of_filter, !keys_elem.
  pose proof (same_status_lookup s1 s2 d (Hst d)) as [H12 H21].
  split; intros [[Ht Hle] _].
  - rewrite (H12 Ht). eauto.
  - rewrite (H21 Ht). eauto.
Qed.

Lemma debtOf_Permutation (s1 s2 : AppSettings) (l k : list string) (st : Student) :
  l ≡ₚ k → dailyQuota s1 = dailyQuota s2 → customQuotas s1 = customQuotas s2 →
  debtOf s1 l st = debtOf s2 k st.
Proof.
  intros Hp Hq Hc. rewrite !debtOf_sums, Hq, Hc.
  now rewrite !(sumList_Permutation _ _ _ Hp).
Qed.

Lemma financialsOver_same_debt (l k : list string) studs exps plans (s1 s2 : AppSettings) :
  (∀ st, debtOf s1 l st = debtOf s2 k st) →
  financialsOver l studs exps plans s1 = financialsOver k studs exps plans s2.
Proof.
  intros Hd. unfold financialsOver.
  assert (Hmap : (λ st, {| student := st; debt := debtOf s1 l st |}) <$> studs
                 = (λ st, {| student := st; debt := debtOf s2 k st |}) <$> studs).
  { apply list_fmap_ext. intros _ st _. now rewrite Hd. }
  rewrite Hmap. reflexivity.
Qed.

Lemma toggleCollectionDay_twice_status (st : State) (d : string) :
  isCollectionActive (settings (toggleCollectionDay (toggleCollectionDay st))) d
  = isCollectionActive (settings st) d.
Proof.
  rewrite !toggleCollectionDay_status.
  change (selectedDate (toggleCollectionDay st)) with (selectedDate st).
  destruct (decide (d = selectedDate st)); [|reflexivity].
  now rewrite negb_involutive.
Qed.

(** Switching the selected day off and on again (or on and off again) gives
    back every figure of [financials], in both revisions: the debts, the
    debtor listing, the totals and the chart. *)
Theorem toggleCollectionDay_twice_same_financials (now : string → Date) (now' : Date)
    (st : State) :
  let st2 := toggleCollectionDay (toggleCollectionDay st) in
  (∀ d, isCollectionActive (settings st2) d = isCollectionActive (settings st) d)
  ∧ financialsOf now st2 = financialsOf now st
  ∧ financialsLocalOf now' st2 = financialsLocalOf now' st.
Proof.
  intros st2.
  assert (Hst : ∀ d, isCollectionActive (settings st2) d = isCollectionActive (settings st) d)
    by apply toggleCollectionDay_twice_status.
  split; [exact Hst|]. split.
  - unfold financialsOf, ClassFunds.financials.
    change (students st2) with (students st). change (expenses st2) with (expenses st).
    change (plannedExpenses st2) with (plannedExpenses st).
    apply financialsOver_same_debt. intros s.
    apply debtOf_Permutation; [|reflexivity|reflexivity].
    now apply activeCollectionDates_same_status.
  - unfold financialsLocalOf, ClassFundsLocal.financials.
    change (students st2) with (students st). change (expenses st2) with (expenses st).
    change (plannedExpenses st2) with (plannedExpenses st).
    apply financialsOver_same_debt. intros s.
    apply debtOf_Permutation; [|reflexivity|reflexivity].
    now apply activeDates_same_status.
Qed.

End CollectionDays.

(** ** Recording payments *)

Section Payments.
Import ClassFunds.

Lemma updateStudentPayment_students (i : string) (amt : Z) (date : string) (st : State) :
  students (ClassFundsLocal.updateStudentPayment i amt date st)
  = (λ s, if decide (id s ≠ i) then s
          else {| id := id s; name := name s; gender := gender s;
                  payments := <[date := amt]> (payments s) |}) <$> students st.
Proof. reflexivity. Qed.

(** [updateStudentPayment(id, amount, date)] records exactly [amount] under
    [date] for the students that carry the id, and touches nothing else: the
    other dates of these students, the other students, the order of the
    roster, the settings and the selected date are as before. An id that no
    student carries changes no student. The earlier revision does the same
    for the selected date. *)
Theorem updateStudentPayment_records (i : string) (amt : Z) (date : string) (st : State) :
  let st' := ClassFundsLocal.updateStudentPayment i amt date st in
  Forall2 (λ s s',
             id s' = id s ∧ name s' = name s ∧ gender s' = gender s
             ∧ (id s = i → payments s' !! date = Some amt
                           ∧ ∀ d, d ≠ date → payments s' !! d = payments s !! d)
             ∧ (id s ≠ i → s' = s))
          (students st) (students st')
  ∧ (i ∉ id <$> students st → students st' = students st)
  ∧ settings st' = settings st
  ∧ selectedDate st' = selectedDate st
  ∧ updateStudentPayment i amt st
    = ClassFundsLocal.updateStudentPayment i amt (selectedDate st) st.
Proof.
  intros st'. split; [|split; [|repeat split]].
  - subst st'. rewrite updateStudentPayment_students.
    apply Forall2_fmap_r, Forall_Forall2_diag, Forall_true. intros s. unfold compose. cbv beta.
    case_decide as Hne; [|rename Hne into Heq]; cbn.
    + split; [reflexivity|]. split; [reflexivity|]. split; [reflexivity|].
      split; [intros Heq; contradiction|reflexivity].
    + split; [reflexivity|]. split; [reflexivity|]. split; [reflexivity|].
      split; [|intros Hne; contradiction].
      intros _. split; [apply lookup_insert_eq|].
      intros d Hd. now apply lookup_insert_ne.
  - intros Hnot. subst st'. rewrite updateStudentPayment_students.
    transitivity (Datatypes.id <$> students st); [|apply list_fmap_id].
    apply list_fmap_ext. intros k s Hk.
    destruct (decide (id s ≠ i)) as [|Heq]; [reflexivity|].
    exfalso. apply Hnot. apply list_elem_of_fmap. exists s. split.
    + destruct (decide (id s = i)); [congruence|contradiction].
    + eapply list_elem_of_lookup_2. exact Hk.
Qed.

Lemma identities_fmap (upd : Student → Student) (l : list Student) :
  (∀ s, id (upd s) = id s ∧ name (upd s) = name s ∧ gender (upd s) = gender s) →
  identities (upd <$> l) = identities l.
Proof.
  intros H. unfold identities. rewrite <- list_fmap_compose.
  apply list_fmap_ext. intros _ s _. cbn. destruct (H s) as (-> & -> & ->). reflexivity.
Qed.

(** No operation of the ledger adds, removes, reorders or renames a student:
    toggling, marking all, editing one payment, switching a collection day
    and editing a quota keep the ids, names and genders of the roster, in
    order. *)
Theorem ledger_operations_keep_the_roster (now : Date) (i : string) (amt : Z) (date : string)
    (paid : bool) (quotaText : option Z) (st : State) :
  m_confirm (modals st) = false →
  identities (students (togglePayment i st)) = identities (students st)
  ∧ identities (students (bulkMark now paid st)) = identities (students st)
  ∧ identities (students (ClassFundsLocal.updateStudentPayment i amt date st))
    = identities (students st)
  ∧ identities (students (DailyView.savePayment i amt st)) = identities (students st)
  ∧ students (toggleCollectionDay st) = students st
  ∧ students (DailyView.saveDailyQuota quotaText st) = students st.
Proof.
  intros Hclosed.
  assert (Hupd : ∀ a d, identities (students (ClassFundsLocal.updateStudentPayment i a d st))
                        = identities (students st)).
  { intros a d. rewrite updateStudentPayment_students. apply identities_fmap.
    intros s. destruct (decide (id s ≠ i)); auto. }
  repeat split.
  - unfold togglePayment.
    destruct (negb _); [reflexivity|]. destruct (List.find _ _); [|reflexivity].
    apply (Hupd _ (selectedDate st)).
  - destruct (isCollectionActive (settings st) (selectedDate st)) eqn:Hact.
    + destruct (bulkMark_active now paid st Hact) as (-> & _).
      apply identities_fmap. auto.
    + unfold bulkMark, markAll, onConfirm. rewrite Hact. cbn. now rewrite Hclosed.
  - apply Hupd.
  - apply (Hupd amt (selectedDate st)).
  - now destruct quotaText.
Qed.

Lemma ledger_operations_keep_the_roster_witness :
  let st := Sample.stateOf [Sample.A; Sample.B] Sample.settingsOn in
  identities (students (bulkMark Sample.noon true st)) = [("a", "A", M); ("b", "B", F)].
Proof.
  intros st.
  pose proof (ledger_operations_keep_the_roster Sample.noon "a" 3 Sample.day true None st
                eq_refl) as (_ & H & _).
  rewrite H. reflexivity.
Defined.

(** With a positive quota, [togglePayment] flips the PAID / UNPAID flag of
    the student's row, in both revisions of the view; with a quota of 0 or
    less the row shows PAID in the later revision and UNPAID in the earlier
    one, whatever was recorded. *)
Theorem togglePayment_flips_paid_flag (studentId : string) (st : State) (s : Student) :
  collectionDays (settings st) !! selectedDate st = Some true →
  findStudent studentId st = Some s →
  let q := getQuotaForDate (settings st) (selectedDate st) in
  let st' := togglePayment studentId st in
  ∃ s', findStudent studentId st' = Some s'
        ∧ (0 < q → DailyView.isPaid st' s' = negb (DailyView.isPaid st s)
                   ∧ DailyView.isPaidEarlier st' s' = negb (DailyView.isPaidEarlier st s))
        ∧ (q ≤ 0 → DailyView.isPaid st' s' = true ∧ DailyView.isPaidEarlier st' s' = false).
Proof.
  intros Hact Hfind q st'. apply isCollectionActive_true in Hact.
  destruct (togglePayment_active studentId st s Hact Hfind) as (s' & Hf & Hp & Hset & Hd).
  exists s'. split; [exact Hf|].
  unfold DailyView.isPaid, DailyView.isPaidEarlier. subst st'. rewrite Hset, Hd, Hp. fold q.
  change (default 0 (Some ?x)) with x.
  set (c := default 0 (payments s !! selectedDate st)).
  split; intros Hq; destruct (Z.leb_spec q c), (Z.ltb_spec 0 q); cbn;
    repeat match goal with |- context [?a <=? ?b] => destruct (Z.leb_spec a b) end;
    cbn; try (split; reflexivity); lia.
Qed.

Lemma togglePayment_flips_paid_flag_witness :
  let st := Sample.stateOf [Sample.A; Sample.B] Sample.settingsOn in
  ∃ s', findStudent "b" (togglePayment "b" st) = Some s'
        ∧ DailyView.isPaid (togglePayment "b" st) s' = negb (DailyView.isPaid st Sample.B).
Proof.
  intros st.
  assert (Hact : collectionDays (settings st) !! selectedDate st = Some true) by reflexivity.
  assert (Hfind : findStudent "b" st = Some Sample.B) by reflexivity.
  destruct (togglePayment_flips_paid_flag "b" st Sample.B Hact Hfind) as (s' & Hf & Hpos & _).
  exists s'. split; [exact Hf|]. apply Hpos. reflexivity.
Defined.

Lemma collected_fmap (upd : Student → Student) (d : string) (v : Z) (l : list Student) (acc : Z) :
  (∀ s, payments (upd s) !! d = Some v) →
  foldl (λ a s, a + default 0 (payments s !! d)) acc (upd <$> l)
  = foldl Z.add acc (replicate (length l) v).
Proof.
  intros H. revert acc. induction l as [|s l IH]; intros acc; [reflexivity|].
  rewrite fmap_cons. cbn [foldl length replicate]. rewrite IH, H. reflexivity.
Qed.

Lemma add_zeros (n : nat) : foldl Z.add 0 (replicate n 0) = 0.
Proof. induction n as [|n IH]; [reflexivity|exact IH]. Qed.

(** After [bulkMark(true)] on an active day every student has the quota of
    the day recorded: the figure "Collected" adds that quota once for each
    student, and every row shows PAID in the later revision (in the earlier
    one, when the quota is positive); after [bulkMark(false)] every student
    has 0 recorded and "Collected" is 0. *)
Theorem bulkMark_collected (now : Date) (paid : bool) (st : State) :
  collectionDays (settings st) !! selectedDate st = Some true →
  let q := getQuotaForDate (settings st) (selectedDate st) in
  let st' := bulkMark now paid st in
  Forall (λ s, payments s !! selectedDate st = Some (if paid then q else 0)) (students st')
  ∧ DailyView.collected st'
    = foldl Z.add 0 (replicate (length (students st)) (if paid then q else 0))
  ∧ (paid = true →
     Forall (λ s, DailyView.isPaid st' s = true ∧ DailyView.isPaidEarlier st' s = (0 <? q))
            (students st'))
  ∧ (paid = false → DailyView.collected st' = 0).
Proof.
  intros Hact q st'. apply isCollectionActive_true in Hact.
  destruct (bulkMark_active now paid st Hact) as (Hs & Hset & Hd & _).
  fold st' in Hs, Hset, Hd.
  assert (Hcol : DailyView.collected st'
                 = foldl Z.add 0 (replicate (length (students st)) (if paid then q else 0))).
  { unfold DailyView.collected. rewrite Hs, Hd. apply collected_fmap.
    intros s. cbn. apply lookup_insert_eq. }
  split; [|split; [exact Hcol|split]].
  - rewrite Hs. apply Forall_fmap, Forall_true. intros s. cbn. apply lookup_insert_eq.
  - intros ->. rewrite Hs. apply Forall_fmap, Forall_true. intros s.
    unfold DailyView.isPaid, DailyView.isPaidEarlier. rewrite Hset, Hd. cbn.
    rewrite lookup_insert_eq. change (default 0 (Some ?x)) with x. fold q.
    rewrite Z.leb_refl. split; reflexivity.
  - intros ->. rewrite Hcol. apply add_zeros.
Qed.

Lemma bulkMark_collected_witness :
  let st := Sample.stateOf [Sample.A; Sample.B] Sample.settingsOn in
  DailyView.collected (bulkMark Sample.noon true st) = 0 + 5 + 5
  ∧ Forall (λ s, DailyView.isPaid (bulkMark Sample.noon true st) s = true)
           (students (bulkMark Sample.noon true st)).
Proof.
  intros st.
  pose proof (bulkMark_collected Sample.noon true st eq_refl) as (_ & Hcol & Hpaid & _).
  split; [exact Hcol|].
  eapply Forall_impl; [exact (Hpaid eq_refl)|]. intros s [H _]. exact H.
Defined.

(** Cancelling the confirmation dialog leaves every datum as it was before
    the button was pressed, for each of the three confirmed actions, and the
    action cannot run afterwards: the Confirm button is gone with the dialog. *)
Theorem cancelled_action_changes_nothing (now : Date) (paid : bool) (wish : PlannedExpense)
    (i : string) (st : State) :
  m_confirm (modals st) = false →
  Forall (λ st1,
            let st' := onCancel st1 in
            students st' = students st ∧ expenses st' = expenses st
            ∧ plannedExpenses st' = plannedExpenses st ∧ settings st' = settings st
            ∧ storage st' = storage st ∧ modals st' = modals st
            ∧ onConfirm now st' = st')
         [markAll paid st; convertWishToExpense wish st; deleteExpense i st].
Proof.
  intros Hclosed.
  assert (Hm : setConfirm false (setConfirm true (modals st)) = modals st).
  { destruct (modals st); cbn in *. now subst. }
  repeat constructor; cbn zeta;
    try (unfold markAll; destruct (negb _));
    unfold onCancel, onConfirm, convertWishToExpense, deleteExpense; cbn;
    rewrite ?Hclosed, ?Hm; cbn; rewrite ?Hclosed; reflexivity.
Qed.

Lemma cancelled_action_changes_nothing_witness :
  let st := Sample.stateOf [Sample.A; Sample.B] Sample.settingsOn in
  students (onCancel (markAll true st)) = students st.
Proof.
  intros st.
  pose proof (cancelled_action_changes_nothing Sample.noon true Sample.wish "1" st eq_refl) as H.
  apply Forall_cons in H as [(H & _) _]. exact H.
Defined.

End Payments.

(** ** The store behind the component *)

Section Store.
Import ClassFunds.

Lemma storesNext_S (n : nat) (ls : LocalStorage) :
  storesNext (S n) ls = true →
  ∃ rest, setItem_outcomes ls = rest ∧ Db.nextSetItem ls = (true, List.tl rest)
          ∧ forallb (λ b, b) (take n (List.tl rest)) = true.
Proof.
  unfold storesNext, Db.nextSetItem. destruct (setItem_outcomes ls) as [|ok rest]; cbn.
  - intros _. exists []. cbn. repeat split. now destruct n.
  - intros H. apply andb_true_iff in H as [-> H]. exists (true :: rest). auto.
Qed.

(** A write that is stored: the table reads back what was written, the other
    tables are untouched, and one outcome is used up. *)
Lemma saveStudents_stored (n : nat) (data : list Student) (ls : LocalStorage) :
  storesNext (S n) ls = true →
  Db.getStudents (Db.saveStudents data ls) = data
  ∧ Db.getTransactions (Db.saveStudents data ls) = Db.getTransactions ls
  ∧ Db.getPlannedExpenses (Db.saveStudents data ls) = Db.getPlannedExpenses ls
  ∧ Db.getSettings (Db.saveStudents data ls) = Db.getSettings ls
  ∧ storesNext n (Db.saveStudents data ls) = true.
Proof.
  intros Hok. destruct (storesNext_S n ls Hok) as (rest & _ & Hnext & Hrest).
  unfold Db.saveStudents. rewrite Hnext. repeat split. exact Hrest.
Qed.

Lemma saveTransactions_stored (n : nat) (data : list Transaction) (ls : LocalStorage) :
  storesNext (S n) ls = true →
  Db.getTransactions (Db.saveTransactions data ls) = data
  ∧ Db.getStudents (Db.saveTransactions data ls) = Db.getStudents ls
  ∧ Db.getPlannedExpenses (Db.saveTransactions data ls) = Db.getPlannedExpenses ls
  ∧ Db.getSettings (Db.saveTransactions data ls) = Db.getSettings ls
  ∧ storesNext n (Db.saveTransactions data ls) = true.
Proof.
  intros Hok. destruct (storesNext_S n ls Hok) as (rest & _ & Hnext & Hrest).
  unfold Db.saveTransactions. rewrite Hnext. repeat split. exact Hrest.
Qed.

Lemma savePlannedExpenses_stored (n : nat) (data : list PlannedExpense) (ls : LocalStorage) :
  storesNext (S n) ls = true →
  Db.getPlannedExpenses (Db.savePlannedExpenses data ls) = data
  ∧ Db.getStudents (Db.savePlannedExpenses data ls) = Db.getStudents ls
  ∧ Db.getTransactions (Db.savePlannedExpenses data ls) = Db.getTransactions ls
  ∧ Db.getSettings (Db.savePlannedExpenses data ls) = Db.getSettings ls
  ∧ storesNext n (Db.savePlannedExpenses data ls) = true.
Proof.
  intros Hok. destruct (storesNext_S n ls Hok) as (rest & _ & Hnext & Hrest).
  unfold Db.savePlannedExpenses. rewrite Hnext. repeat split. exact Hrest.
Qed.

Lemma saveSettings_stored (n : nat) (data : AppSettings) (ls : LocalStorage) :
  storesNext (S n) ls = true →
  Db.getSettings (Db.saveSettings data ls) = data
  ∧ Db.getStudents (Db.saveSettings data ls) = Db.getStudents ls
  ∧ Db.getTransactions (Db.saveSettings data ls) = Db.getTransactions ls
  ∧ Db.getPlannedExpenses (Db.saveSettings data ls) = Db.getPlannedExpenses ls
  ∧ storesNext n (Db.saveSettings data ls) = true.
Proof.
  intros Hok. destruct (storesNext_S n ls Hok) as (rest & _ & Hnext & Hrest).
  unfold Db.saveSettings. rewrite Hnext. repeat split. exact Hrest.
Qed.

(** A write that fails changes no table. *)
Lemma saveStudents_failed (data : list Student) (ls : LocalStorage) (rest : list bool) :
  setItem_outcomes ls = false :: rest →
  Db.getStudents (Db.saveStudents data ls) = Db.getStudents ls
  ∧ Db.getTransactions (Db.saveStudents data ls) = Db.getTransactions ls
  ∧ Db.getPlannedExpenses (Db.saveStudents data ls) = Db.getPlannedExpenses ls
  ∧ Db.getSettings (Db.saveStudents data ls) = Db.getSettings ls.
Proof.
  intros Hout. unfold Db.saveStudents, Db.nextSetItem. rewrite Hout. repeat split.
Qed.

Lemma refreshData_inSync (st : State) : inSync (refreshData st).
Proof. repeat split. Qed.

(** The handlers that write without reading back keep the state equal to
    what the store holds, provided the write is stored: the toggle, the bulk
    marking, the switch of a collection day, the click and the edit of a
    ledger cell (which pass a number on: a field that does not parse counts
    as 0) and the quota edit (which ignores a field that does not parse). The
    handlers that end with [refreshData] do so whatever happens to their
    writes. *)
Theorem handlers_keep_state_and_store_in_sync (now : Date) (i : string)
    (date : string) (paid : bool) (quotaText : option Z) (p : PlannedExpense) (st : State) :
  inSync st →
  storesNext 1 (storage st) = true →
  m_confirm (modals st) = false →
  inSync (togglePayment i st)
  ∧ inSync (bulkMark now paid st)
  ∧ inSync (toggleCollectionDay st)
  ∧ (∀ s cell parsed,
       inSync (LedgerCell.onChange s date (LedgerCell.commit cell parsed) st)
       ∧ inSync (LedgerCell.onChange s date (LedgerCell.click cell) st))
  ∧ inSync (DailyView.saveDailyQuota quotaText st)
  ∧ inSync (convertToExpense now p st)
  ∧ inSync (onConfirm now (deleteExpense i st))
  ∧ inSync (DailyView.removeStudent true i st)
  ∧ inSync (DailyView.removePlanned i st).
Proof.
  intros (Hs & He & Hp & Hset) Hok Hclosed.
  assert (Hupd : ∀ i a d, inSync (ClassFundsLocal.updateStudentPayment i a d st)).
  { intros i' a d. unfold ClassFundsLocal.updateStudentPayment, inSync. cbn.
    destruct (saveStudents_stored 0 ((λ s, if decide (id s ≠ i') then s
                else {| id := id s; name := name s; gender := gender s;
                        payments := <[d := a]> (payments s) |}) <$> students st)
                (storage st) Hok) as (-> & -> & -> & -> & _). auto. }
  split; [|split; [|split; [|split; [|split]]]].
  - unfold togglePayment. destruct (negb _); [repeat split; assumption|].
    destruct (List.find _ _); [|repeat split; assumption].
    apply (Hupd _ _ (selectedDate st)).
  - unfold bulkMark, markAll.
    destruct (negb (isCollectionActive (settings st) (selectedDate st))).
    + unfold onConfirm. rewrite Hclosed. repeat split; assumption.
    + unfold onConfirm, inSync. cbn.
      match goal with |- context [Db.saveStudents ?d _] =>
        destruct (saveStudents_stored 0 d (storage st) Hok) as (-> & -> & -> & -> & _) end.
      auto.
  - unfold toggleCollectionDay, inSync. cbn.
    match goal with |- context [Db.saveSettings ?d _] =>
      destruct (saveSettings_stored 0 d (storage st) Hok) as (-> & -> & -> & -> & _) end.
    auto.
  - intros s cell parsed. unfold LedgerCell.onChange.
    split; [destruct (LedgerCell.commit cell parsed)|destruct (LedgerCell.click cell)];
      first [apply Hupd|repeat split; assumption].
  - destruct quotaText as [a|]; [|repeat split; assumption].
    unfold DailyView.saveDailyQuota, inSync. cbn.
    match goal with |- context [Db.saveSettings ?d _] =>
      destruct (saveSettings_stored 0 d (storage st) Hok) as (-> & -> & -> & -> & _) end.
    auto.
  - repeat split.
Qed.

Lemma handlers_keep_state_and_store_in_sync_witness :
  let st := refreshData
              (withStorage (λ _, {| tbl_students := Some [Sample.A; Sample.B];
                                    tbl_transactions := None;
                                    tbl_planned_expenses := None;
                                    tbl_settings := Some Sample.settingsOn;
                                    setItem_outcomes := [true] |})
                 (Sample.stateOf [] Sample.settingsOn)) in
  inSync (togglePayment "b" st)
  ∧ (λ s, payments s !! Sample.day) <$> Db.getStudents (storage (togglePayment "b" st))
    = [None; Some 5].
Proof.
  intros st.
  assert (Hsync : inSync st) by apply refreshData_inSync.
  pose proof (handlers_keep_state_and_store_in_sync Sample.noon "b" Sample.day true None
                Sample.wish st Hsync eq_refl eq_refl) as (H1 & _).
  split; [exact H1|]. destruct H1 as (<- & _). vm_compute. reflexivity.
Defined.

(** A toggle made while the store refuses the write is shown by the
    component but not kept: the store still holds the old roster, and the
    next [refreshData] brings it back. *)
Theorem unsaved_toggle_is_lost_on_refresh (studentId : string) (st : State) (s : Student)
    (rest : list bool) :
  inSync st →
  setItem_outcomes (storage st) = false :: rest →
  collectionDays (settings st) !! selectedDate st = Some true →
  findStudent studentId st = Some s →
  let q := getQuotaForDate (settings st) (selectedDate st) in
  let c := default 0 (payments s !! selectedDate st) in
  let st' := togglePayment studentId st in
  (∃ s', findStudent studentId st' = Some s'
         ∧ payments s' !! selectedDate st = Some (if q <=? c then 0 else q))
  ∧ Db.getStudents (storage st') = students st
  ∧ students (refreshData st') = students st.
Proof.
  intros (Hs & _) Hout Hact Hfind q c st'. apply isCollectionActive_true in Hact.
  destruct (togglePayment_active studentId st s Hact Hfind) as (s' & Hf & Hp & _).
  split; [eauto|].
  assert (Hstore : Db.getStudents (storage st') = students st).
  { subst st'. unfold togglePayment. unfold findStudent in Hfind. rewrite Hact, Hfind. cbn.
    match goal with |- context [Db.saveStudents ?d _] =>
      destruct (saveStudents_failed d (storage st) rest Hout) as (-> & _) end.
    now rewrite Hs. }
  split; [exact Hstore|]. exact Hstore.
Qed.

Lemma unsaved_toggle_is_lost_on_refresh_witness :
  let st := refreshData
              (withStorage (λ _, {| tbl_students := None; tbl_transactions := None;
                                    tbl_planned_expenses := None;
                                    tbl_settings := Some Sample.settingsOn;
                                    setItem_outcomes := [false] |})
                 (Sample.stateOf [] Sample.settingsOn)) in
  students (refreshData (togglePayment "m1" st)) = students st.
Proof.
  intros st.
  assert (Hsync : inSync st) by apply refreshData_inSync.
  assert (Hfind : findStudent "m1" st = Some (Db.mkStudent "m1" "Agarao, Franco Angelo" M)).
  { vm_compute. reflexivity. }
  assert (Hfail : setItem_outcomes (storage st) = false :: []) by reflexivity.
  assert (Hact : collectionDays (settings st) !! selectedDate st = Some true)
    by (vm_compute; reflexivity).
  exact (proj2 (proj2 (unsaved_toggle_is_lost_on_refresh "m1" st _ [] Hsync Hfail Hact Hfind))).
Defined.

End Store.

(** ** Roster, expenses and the wishlist *)

Section RosterAndBudget.
Import ClassFunds.

Lemma filter_id_fresh {A} (key : A → string) (i : string) (l : list A) :
  i ∉ key <$> l → filter (λ x, key x ≠ i) l = l.
Proof.
  intros Hnot. apply filter_all, Forall_forall. intros x Hx Heq.
  apply Hnot, list_elem_of_fmap. eauto.
Qed.

(** [addStudent] puts the new student, with an empty payment map, at the end
    of the roster (on first use, at the end of the initial class list), and
    [deleteStudent] with the id it returned gives the roster back, as long as
    no other student carries that id. *)
Theorem addStudent_then_deleteStudent (now : Date) (random : string) (n : string)
    (g : Gender) (ls : LocalStorage) :
  storesNext 2 ls = true →
  Db.newStudentId now random ∉ id <$> Db.getStudents ls →
  let new := (Db.addStudent now random n g ls).1 in
  let ls1 := (Db.addStudent now random n g ls).2 in
  new = {| id := Db.newStudentId now random; name := n; gender := g; payments := ∅ |}
  ∧ Db.getStudents ls1 = Db.getStudents ls ++ [new]
  ∧ (tbl_students ls = None → Db.getStudents ls1 = Db.INITIAL_STUDENTS ++ [new])
  ∧ Db.getStudents (Db.deleteStudent (id new) ls1) = Db.getStudents ls.
Proof.
  intros Hok Hfresh new ls1.
  destruct (saveStudents_stored 1 (Db.getStudents ls ++ [new]) ls Hok) as (Hget & _ & _ & _ & Hok1).
  assert (H1 : Db.getStudents ls1 = Db.getStudents ls ++ [new]) by exact Hget.
  split; [reflexivity|]. split; [exact H1|]. split.
  - intros Hnone. rewrite H1. unfold Db.getStudents at 1. now rewrite Hnone.
  - unfold Db.deleteStudent.
    match goal with |- context [Db.saveStudents ?d ls1] =>
      destruct (saveStudents_stored 0 d ls1 Hok1) as (-> & _) end.
    rewrite H1, filter_app, (filter_id_fresh id) by exact Hfresh.
    rewrite filter_cons_False by (intros H; now apply H). cbn. apply app_nil_r.
Qed.

Lemma addStudent_then_deleteStudent_witness :
  let ls := Sample.emptyStorage [] in
  let new := (Db.addStudent Sample.noon "k3x9a" "Dela Cruz, Juan" M ls).1 in
  let ls1 := (Db.addStudent Sample.noon "k3x9a" "Dela Cruz, Juan" M ls).2 in
  length (Db.getStudents ls1) = 34%nat
  ∧ Db.getStudents (Db.deleteStudent (id new) ls1) = Db.INITIAL_STUDENTS.
Proof.
  intros ls new ls1.
  assert (Hfresh : Db.newStudentId Sample.noon "k3x9a" ∉ id <$> Db.getStudents ls).
  { apply (bool_decide_unpack _). vm_compute. exact I. }
  pose proof (addStudent_then_deleteStudent Sample.noon "k3x9a" "Dela Cruz, Juan" M ls
                eq_refl Hfresh) as (_ & _ & H3 & H4).
  fold ls1 in H3. fold new ls1 in H4. split; [|exact H4].
  rewrite (H3 eq_refl). reflexivity.
Defined.

(** A roster write that fails is silent: [addStudent] still returns the
    student and [importStudentsFromText] still returns the number of lines,
    while the stored roster is the one from before. *)
Theorem failed_roster_write_is_silent (now : Date) (nows : nat → Date) (random : string)
    (randoms : nat → string) (n text : string) (g : Gender) (ls : LocalStorage)
    (rest : list bool) :
  setItem_outcomes ls = false :: rest →
  (Db.addStudent now random n g ls).1
  = {| id := Db.newStudentId now random; name := n; gender := g; payments := ∅ |}
  ∧ Db.getStudents (Db.addStudent now random n g ls).2 = Db.getStudents ls
  ∧ (Db.importStudentsFromText nows randoms text ls).1 = length (Db.importLines text)
  ∧ Db.getStudents (Db.importStudentsFromText nows randoms text ls).2 = Db.getStudents ls
  ∧ Db.getStudents (Db.deleteStudent n ls) = Db.getStudents ls.
Proof.
  intros Hout. split; [reflexivity|]. split; [|split; [|split]].
  - now apply (saveStudents_failed _ ls rest).
  - cbn. unfold Db.newStudentsOf. apply length_imap.
  - now apply (saveStudents_failed _ ls rest).
  - now apply (saveStudents_failed _ ls rest).
Qed.

Lemma failed_roster_write_is_silent_witness :
  let ls := Sample.emptyStorage [false] in
  (Db.importStudentsFromText (λ _, Sample.noon) (λ _, "k3x9a")
     (Sample.lines ["Alice"; "F Beth"]) ls).1 = 2%nat
  ∧ Db.getStudents (Db.importStudentsFromText (λ _, Sample.noon) (λ _, "k3x9a")
                      (Sample.lines ["Alice"; "F Beth"]) ls).2 = Db.INITIAL_STUDENTS.
Proof.
  intros ls.
  pose proof (failed_roster_write_is_silent Sample.noon (λ _, Sample.noon) "k3x9a"
                (λ _, "k3x9a") "x" (Sample.lines ["Alice"; "F Beth"]) M ls [] eq_refl)
    as (_ & _ & H3 & H4 & _).
  split; [rewrite H3; reflexivity|rewrite H4; reflexivity].
Defined.

Lemma allPayments_filter (i : string) (studs : list Student) :
  allPayments (filter (λ s, id s ≠ i) studs)
  = allPayments studs - foldr (λ s a, paymentsOf s + a) 0 (filter (λ s, id s = i) studs).
Proof.
  unfold allPayments, paymentsOf. induction studs as [|s studs IH]; [reflexivity|].
  rewrite !filter_cons. destruct (decide (id s = i)) as [Heq|Hne].
  - destruct (decide (id s ≠ i)); [contradiction|]. cbn. lia.
  - destruct (decide (id s ≠ i)); [|contradiction]. cbn. lia.
Qed.

Lemma sumList_nonneg (g : string → Z) (l : list string) :
  (∀ d, 0 ≤ g d) → 0 ≤ sumList g l.
Proof.
  intros Hg. unfold sumList. induction l as [|d l IH]; cbn; [lia|].
  pose proof (Hg d). lia.
Qed.

Lemma paymentsOf_nonneg (s : Student) :
  (∀ d v, payments s !! d = Some v → 0 ≤ v) → 0 ≤ paymentsOf s.
Proof.
  intros Hs. unfold paymentsOf, sumOver. apply sumList_nonneg. intros d.
  destruct (payments s !! d) as [v|] eqn:Hd; cbn; [now apply (Hs d)|lia].
Qed.

Lemma gone_payments_nonneg (i : string) (studs : list Student) :
  Forall (λ s, id s = i → ∀ d v, payments s !! d = Some v → 0 ≤ v) studs →
  0 ≤ foldr (λ s a, paymentsOf s + a) 0 (filter (λ s, id s = i) studs).
Proof.
  induction 1 as [|s l Hsp _ IH]; [cbn; lia|]. rewrite filter_cons.
  destruct (decide (id s = i)) as [Heq|]; [|exact IH]. cbn [foldr].
  pose proof (paymentsOf_nonneg s (Hsp Heq)). lia.
Qed.

Lemma filter_id_gone {A} (key : A → string) (i : string) (l : list A) :
  i ∉ key <$> filter (λ x, key x ≠ i) l.
Proof.
  intros Hin. apply list_elem_of_fmap in Hin as (x & Hi & Hx).
  apply list_elem_of_filter in Hx as [Hne _]. congruence.
Qed.

Lemma currentBalance_is (dates : list string) studs exps plans s :
  currentBalance (financialsOver dates studs exps plans s)
  = totalIncome (financialsOver dates studs exps plans s)
    - totalExpenses (financialsOver dates studs exps plans s).
Proof. reflexivity. Qed.

(** Removing a student removes the students with that id and keeps the others
    in order, and nothing else of the ledger changes: the income is then the
    sum of the payments of the students that remain, so the payments of the
    student leave with them. When these payments were not negative, the
    income and the balance do not rise. An id that nobody carries changes
    nothing of the roster, and so does a declined confirmation. *)
Theorem removeStudent_takes_its_payments_away (now : string → Date) (now' : Date)
    (i : string) (st : State) :
  inSync st →
  storesNext 1 (storage st) = true →
  let st' := DailyView.removeStudent true i st in
  let f := financialsLocalOf now' st in
  let f' := financialsLocalOf now' st' in
  students st' = filter (λ s, id s ≠ i) (students st)
  ∧ (i ∉ id <$> students st')
  ∧ expenses st' = expenses st
  ∧ plannedExpenses st' = plannedExpenses st
  ∧ settings st' = settings st
  ∧ totalIncome f' = allPayments (filter (λ s, id s ≠ i) (students st))
  ∧ totalIncome (financialsOf now st') = allPayments (filter (λ s, id s ≠ i) (students st))
  ∧ totalExpenses f' = totalExpenses f
  ∧ totalWishlist f' = totalWishlist f
  ∧ pieData f' = pieData f
  ∧ (Forall (λ s, id s = i → ∀ d v, payments s !! d = Some v → 0 ≤ v) (students st) →
     totalIncome f' ≤ totalIncome f ∧ currentBalance f' ≤ currentBalance f)
  ∧ (i ∉ id <$> students st → students st' = students st)
  ∧ DailyView.removeStudent false i st = st.
Proof.
  intros (Hs & He & Hp & Hset) Hok st' f f'.
  assert (Hall : students st' = filter (λ s, id s ≠ i) (students st)
                 ∧ expenses st' = expenses st ∧ plannedExpenses st' = plannedExpenses st
                 ∧ settings st' = settings st).
  { subst st'. unfold DailyView.removeStudent, Db.deleteStudent. cbn.
    match goal with |- context [Db.saveStudents ?d _] =>
      destruct (saveStudents_stored 0 d (storage st) Hok) as (-> & -> & -> & -> & _) end.
    now rewrite Hs, He, Hp, Hset. }
  destruct Hall as (H1 & H2 & H3 & H4).
  assert (Hinc : totalIncome f' = allPayments (filter (λ s, id s ≠ i) (students st))).
  { subst f'. unfold financialsLocalOf, ClassFundsLocal.financials.
    now rewrite totalIncome_allPayments, H1. }
  assert (Hexp : totalExpenses f' = totalExpenses f).
  { subst f f'. unfold financialsLocalOf, ClassFundsLocal.financials, financialsOver.
    cbn [totalExpenses]. now rewrite H2. }
  split; [exact H1|]. split; [rewrite H1; apply (filter_id_gone id)|].
  split; [exact H2|]. split; [exact H3|]. split; [exact H4|]. split; [exact Hinc|].
  split.
  { unfold financialsOf, ClassFunds.financials. now rewrite totalIncome_allPayments, H1. }
  split; [exact Hexp|]. split.
  { subst f f'. unfold financialsLocalOf, ClassFundsLocal.financials, financialsOver.
    cbn [totalWishlist]. now rewrite H3. }
  split.
  { subst f f'. unfold financialsLocalOf, ClassFundsLocal.financials, financialsOver.
    cbn [pieData]. now rewrite H2. }
  split; [|split; [|reflexivity]].
  - intros Hpos.
    pose proof (gone_payments_nonneg i (students st) Hpos) as Hgone.
    assert (Hle : totalIncome f' ≤ totalIncome f).
    { rewrite Hinc. subst f. unfold financialsLocalOf, ClassFundsLocal.financials.
      rewrite totalIncome_allPayments, allPayments_filter. lia. }
    split; [exact Hle|].
    subst f f'. unfold financialsLocalOf, ClassFundsLocal.financials in *.
    rewrite !currentBalance_is. lia.
  - intros Hnot. rewrite H1. now apply (filter_id_fresh id).
Qed.

Lemma removeStudent_takes_its_payments_away_witness :
  let st := refreshData (withStorage (Db.saveStudents [Sample.A; Sample.B])
                           (Sample.stateOf [] Sample.settingsOn)) in
  let st' := DailyView.removeStudent true "b" st in
  id <$> students st' = ["a"]
  ∧ totalIncome (financialsLocalOf Sample.noon st')
    ≤ totalIncome (financialsLocalOf Sample.noon st).
Proof.
  intros st st'.
  assert (Hsync : inSync st) by apply refreshData_inSync.
  pose proof (removeStudent_takes_its_payments_away (λ _, Sample.noon) Sample.noon "b" st
                Hsync eq_refl) as (H1 & _ & _ & _ & _ & _ & _ & _ & _ & _ & Hle & _).
  fold st' in H1, Hle. split; [rewrite H1; reflexivity|].
  apply Hle. repeat constructor; vm_compute; intros Hid d v Hv; try discriminate.
  destruct (decide (d = Sample.day)) as [->|Hne].
  - vm_compute in Hv. injection Hv as <-. discriminate.
  - change (({[Sample.day := 2]} : gmap string Z) !! d = Some v) in Hv.
    rewrite lookup_singleton_ne in Hv by congruence. discriminate.
Defined.

Lemma gone_amounts_nonneg (i : string) (exps : list Transaction) :
  Forall (λ t, tx_id t = i → 0 ≤ amount t) exps →
  0 ≤ sumAmounts (filter (λ t, tx_id t = i) exps).
Proof.
  unfold sumAmounts. induction 1 as [|e l Hep _ IH]; [cbn; lia|]. rewrite filter_cons.
  destruct (decide (tx_id e = i)) as [Heq|]; [|exact IH]. cbn [foldr].
  pose proof (Hep Heq). lia.
Qed.

Lemma sumAmounts_filter (i : string) (exps : list Transaction) :
  sumAmounts (filter (λ t, tx_id t ≠ i) exps)
  = sumAmounts exps - sumAmounts (filter (λ t, tx_id t = i) exps).
Proof.
  unfold sumAmounts. induction exps as [|e exps IH]; [reflexivity|].
  rewrite !filter_cons. destruct (decide (tx_id e = i)) as [Heq|Hne].
  - destruct (decide (tx_id e ≠ i)); [contradiction|]. cbn. lia.
  - destruct (decide (tx_id e ≠ i)); [|contradiction]. cbn. lia.
Qed.

(** Deleting an expense, once confirmed, removes every transaction with that
    id (the ids are millisecond stamps, so transactions recorded within one
    millisecond go together) and keeps the others in order; the roster, the
    wishlist, the income and the debts stay. When the amounts removed were not
    negative, the total of the expenses does not rise and the balance does not
    fall. An id that no transaction carries changes no figure. *)
Theorem deleteExpense_confirmed (now now' : Date) (i : string) (st : State) :
  inSync st →
  storesNext 1 (storage st) = true →
  let st' := onConfirm now (deleteExpense i st) in
  let f := financialsLocalOf now' st in
  let f' := financialsLocalOf now' st' in
  expenses st' = filter (λ t, tx_id t ≠ i) (expenses st)
  ∧ (i ∉ tx_id <$> expenses st')
  ∧ students st' = students st
  ∧ plannedExpenses st' = plannedExpenses st
  ∧ settings st' = settings st
  ∧ totalIncome f' = totalIncome f
  ∧ debtors f' = debtors f
  ∧ totalDebt f' = totalDebt f
  ∧ totalWishlist f' = totalWishlist f
  ∧ (Forall (λ t, tx_id t = i → 0 ≤ amount t) (expenses st) →
     totalExpenses f' ≤ totalExpenses f ∧ currentBalance f ≤ currentBalance f')
  ∧ (i ∉ tx_id <$> expenses st → expenses st' = expenses st ∧ f' = f).
Proof.
  intros (Hs & He & Hp & Hset) Hok st' f f'.
  assert (Hall : expenses st' = filter (λ t, tx_id t ≠ i) (expenses st)
                 ∧ students st' = students st ∧ plannedExpenses st' = plannedExpenses st
                 ∧ settings st' = settings st).
  { subst st'. unfold onConfirm, deleteExpense. cbn. unfold Db.deleteTransaction.
    match goal with |- context [Db.saveTransactions ?d _] =>
      destruct (saveTransactions_stored 0 d (storage st) Hok) as (-> & -> & -> & -> & _) end.
    now rewrite He, Hs, Hp, Hset. }
  destruct Hall as (H1 & H2 & H3 & H4).
  assert (Hf' : f' = financialsOver
                       (ClassFundsLocal.activeDates (ClassFundsLocal.toLocalISO now') (settings st))
                       (students st) (filter (λ t, tx_id t ≠ i) (expenses st))
                       (plannedExpenses st) (settings st)).
  { subst f'. unfold financialsLocalOf, ClassFundsLocal.financials.
    now rewrite H1, H2, H3, H4. }
  assert (Hf : f = financialsOver
                     (ClassFundsLocal.activeDates (ClassFundsLocal.toLocalISO now') (settings st))
                     (students st) (expenses st) (plannedExpenses st) (settings st))
    by reflexivity.
  split; [exact H1|]. split; [rewrite H1; apply (filter_id_gone tx_id)|].
  split; [exact H2|]. split; [exact H3|]. split; [exact H4|].
  split; [now rewrite Hf', Hf|]. split; [now rewrite Hf', Hf|].
  split; [now rewrite Hf', Hf|]. split; [now rewrite Hf', Hf|].
  split.
  - intros Hpos.
    pose proof (gone_amounts_nonneg i (expenses st) Hpos) as Hgone.
    assert (Hle : totalExpenses f' ≤ totalExpenses f).
    { rewrite Hf', Hf, !totalExpenses_sumAmounts, sumAmounts_filter. lia. }
    split; [exact Hle|].
    assert (Hinc : totalIncome f' = totalIncome f) by now rewrite Hf', Hf.
    rewrite Hf', Hf in *. rewrite !currentBalance_is. lia.
  - intros Hnot. assert (Hsame : filter (λ t, tx_id t ≠ i) (expenses st) = expenses st)
      by now apply (filter_id_fresh tx_id).
    split; [now rewrite H1|]. now rewrite Hf', Hf, Hsame.
Qed.

Lemma deleteExpense_confirmed_witness :
  let st := refreshData
              (withStorage (Db.addExpense Sample.night 5 "Tape" "Materials")
                 (withStorage (Db.addExpense Sample.noon 20 "Markers" "Materials")
                    (Sample.stateOf [Sample.A; Sample.B] Sample.settingsOn))) in
  let st' := onConfirm Sample.noon (deleteExpense "1704686400000" st) in
  description <$> expenses st' = ["Tape"]
  ∧ totalExpenses (financialsLocalOf Sample.noon st')
    ≤ totalExpenses (financialsLocalOf Sample.noon st).
Proof.
  intros st st'.
  assert (Hsync : inSync st) by apply refreshData_inSync.
  pose proof (deleteExpense_confirmed Sample.noon Sample.noon "1704686400000" st
                Hsync eq_refl) as (H & _ & _ & _ & _ & _ & _ & _ & _ & Hle & _).
  fold st' in H, Hle. split; [rewrite H; vm_compute; reflexivity|].
  apply Hle. repeat constructor; vm_compute; intros; discriminate.
Defined.

Lemma foldl_cost_sum (plans : list PlannedExpense) (acc : Z) :
  foldl (λ sum p, sum + estimatedCost p) acc plans = acc + sumCosts plans.
Proof.
  unfold sumCosts. revert acc. induction plans as [|p plans IH]; intros acc; cbn; [lia|].
  rewrite IH. lia.
Qed.

Lemma totalWishlist_sumCosts (dates : list string) studs exps plans s :
  totalWishlist (financialsOver dates studs exps plans s) = sumCosts plans.
Proof. unfold financialsOver. cbn [totalWishlist]. rewrite foldl_cost_sum. lia. Qed.

Lemma sumCosts_filter (i : string) (plans : list PlannedExpense) :
  sumCosts (filter (λ p, pe_id p ≠ i) plans)
  = sumCosts plans - sumCosts (filter (λ p, pe_id p = i) plans).
Proof.
  unfold sumCosts. induction plans as [|p plans IH]; [reflexivity|].
  rewrite !filter_cons. destruct (decide (pe_id p = i)) as [Heq|Hne].
  - destruct (decide (pe_id p ≠ i)); [contradiction|]. cbn. lia.
  - destruct (decide (pe_id p ≠ i)); [|contradiction]. cbn. lia.
Qed.

Lemma sumAmounts_app (l k : list Transaction) :
  sumAmounts (l ++ k) = sumAmounts l + sumAmounts k.
Proof. unfold sumAmounts. induction l; cbn; lia. Qed.

(** Buying a planned item moves its cost from the wishlist to the expenses:
    with both writes stored, the new transaction comes last, filed under
    "Materials" with the item as its description, so that the total of the
    expenses and the total of "Materials" are the former ones plus
    [estimatedCost], and the balance is the income less that new total; the
    item is gone from the wishlist, the income and the debts are as before.
    When the cost is not negative, the wishlist total and the balance do not
    rise. *)
Theorem convertToExpense_moves_the_cost (now now' : Date) (p : PlannedExpense) (st : State) :
  inSync st →
  storesNext 2 (storage st) = true →
  filter (λ x, pe_id x = pe_id p) (plannedExpenses st) = [p] →
  let st' := convertToExpense now p st in
  let f := financialsLocalOf now' st in
  let f' := financialsLocalOf now' st' in
  totalExpenses f' = totalExpenses f + estimatedCost p
  ∧ currentBalance f' = totalIncome f - (totalExpenses f + estimatedCost p)
  ∧ plannedExpenses st' = filter (λ x, pe_id x ≠ pe_id p) (plannedExpenses st)
  ∧ (p ∉ plannedExpenses st')
  ∧ (0 ≤ estimatedCost p →
     totalWishlist f' ≤ totalWishlist f ∧ currentBalance f' ≤ currentBalance f)
  ∧ totalIncome f' = totalIncome f
  ∧ debtors f' = debtors f
  ∧ categoryTotal "Materials" (expenses st')
    = categoryTotal "Materials" (expenses st) + estimatedCost p
  ∧ (∃ tx, expenses st' = expenses st ++ [tx] ∧ description tx = item p
           ∧ category tx = Some "Materials" ∧ tx_date tx = toISOString now).
Proof.
  intros (Hs & He & Hp & Hset) Hok Hone st' f f'.
  set (tx := {| tx_id := pretty (getTime now); amount := estimatedCost p;
                description := item p; tx_date := toISOString now; tx_type := EXPENSE;
                category := Some "Materials"; status := Some PAID |}).
  assert (Hall : expenses st' = expenses st ++ [tx]
                 ∧ plannedExpenses st' = filter (λ x, pe_id x ≠ pe_id p) (plannedExpenses st)
                 ∧ students st' = students st ∧ settings st' = settings st).
  { subst st'. unfold convertToExpense, convertWishToExpense, onConfirm. cbn.
    unfold Db.deletePlannedExpense, Db.addExpense. fold tx.
    destruct (saveTransactions_stored 1 (Db.getTransactions (storage st) ++ [tx]) (storage st) Hok)
      as (Ht1 & Hs1 & Hp1 & Hset1 & Hok1).
    match goal with |- context [Db.savePlannedExpenses ?d ?l] =>
      destruct (savePlannedExpenses_stored 0 d l Hok1) as (-> & -> & -> & -> & _) end.
    rewrite Ht1, Hs1, Hp1, Hset1, He, Hs, Hp, Hset. auto. }
  destruct Hall as (H1 & H2 & H3 & H4).
  assert (Hexp : totalExpenses f' = totalExpenses f + estimatedCost p).
  { subst f f'. unfold financialsLocalOf, ClassFundsLocal.financials, financialsOver.
    cbn [totalExpenses]. rewrite H1, foldl_app. reflexivity. }
  assert (Hinc : totalIncome f' = totalIncome f).
  { subst f f'. unfold financialsLocalOf, ClassFundsLocal.financials.
    now rewrite !totalIncome_allPayments, H3. }
  assert (Hbal : ∀ g, currentBalance (financialsLocalOf now' g)
                      = totalIncome (financialsLocalOf now' g)
                        - totalExpenses (financialsLocalOf now' g)) by reflexivity.
  assert (Hbal' : currentBalance f' = totalIncome f - (totalExpenses f + estimatedCost p)).
  { fold f f' in Hexp, Hinc. subst f f'. now rewrite Hbal, Hexp, Hinc. }
  split; [exact Hexp|]. split; [exact Hbal'|]. split; [exact H2|]. split.
  { rewrite H2. intros Hin. apply list_elem_of_filter in Hin as [Hne _]. now apply Hne. }
  split.
  { intros Hcost. split.
    - subst f f'. unfold financialsLocalOf, ClassFundsLocal.financials.
      rewrite !totalWishlist_sumCosts, H2, sumCosts_filter, Hone. unfold sumCosts at 2. cbn. lia.
    - rewrite Hbal'. subst f. rewrite Hbal. lia. }
  split; [exact Hinc|]. split.
  { subst f f'. unfold financialsLocalOf, ClassFundsLocal.financials, financialsOver.
    cbn [debtors]. now rewrite H3, H4. }
  split.
  { rewrite H1. unfold categoryTotal. rewrite filter_app, foldl_app.
    assert (Htx : filter (λ e, categoryOrOther e = "Materials") [tx] = [tx]) by reflexivity.
    rewrite Htx. reflexivity. }
  exists tx. auto.
Qed.

Lemma convertToExpense_moves_the_cost_witness :
  let st := Sample.stateWithWish [] in
  let st' := convertToExpense Sample.noon Sample.wish st in
  totalExpenses (financialsLocalOf Sample.noon st') = 0 + 20
  ∧ plannedExpenses st' = [].
Proof.
  intros st st'.
  assert (Hsync : inSync st) by (repeat split).
  pose proof (convertToExpense_moves_the_cost Sample.noon Sample.noon Sample.wish st
                Hsync eq_refl eq_refl) as (H1 & _ & H3 & _).
  fold st' in H1, H3. split; [exact H1|]. rewrite H3. reflexivity.
Defined.

End RosterAndBudget.

(** ** Logging in *)

Ltac each_ascii c :=
  destruct c as [[] [] [] [] [] [] [] []]; vm_compute; reflexivity.

Section Login.

Lemma lower_upper_char (c : ascii) :
  Session.lowerChar (Js.upperChar c) = Session.lowerChar c.
Proof. each_ascii c. Qed.

Lemma lower_lower_char (c : ascii) :
  Session.lowerChar (Session.lowerChar c) = Session.lowerChar c.
Proof. each_ascii c. Qed.

Lemma lower_not_upper_char (c : ascii) :
  let n := nat_of_ascii (Session.lowerChar c) in (n < 65 ∨ 90 < n)%nat.
Proof. destruct c as [[] [] [] [] [] [] [] []]; vm_compute; lia. Qed.

Lemma lower_white_char (c : ascii) :
  Js.isWhiteSpace (Session.lowerChar c) = Js.isWhiteSpace c.
Proof. each_ascii c. Qed.

Lemma toLowerCase_toUpperCase (s : string) :
  Session.toLowerCase (Js.toUpperCase s) = Session.toLowerCase s.
Proof. induction s as [|c s IH]; cbn; [reflexivity|]. now rewrite lower_upper_char, IH. Qed.

Lemma toLowerCase_idem (s : string) :
  Session.toLowerCase (Session.toLowerCase s) = Session.toLowerCase s.
Proof. induction s as [|c s IH]; cbn; [reflexivity|]. now rewrite lower_lower_char, IH. Qed.

Lemma toLowerCase_app (a b : string) :
  Session.toLowerCase (a +:+ b) = Session.toLowerCase a +:+ Session.toLowerCase b.
Proof.
  induction a as [|c a IH]; [reflexivity|].
  change (String c a +:+ b) with (String c (a +:+ b)). cbn [Session.toLowerCase].
  rewrite IH. reflexivity.
Qed.

Lemma startsWith_app (p b : string) : Js.startsWith (p +:+ b) p = true.
Proof.
  induction p as [|c p IH]; [apply startsWith_empty|].
  change (String c p +:+ b) with (String c (p +:+ b)). cbn [Js.startsWith].
  now rewrite Ascii.eqb_refl, IH.
Qed.

Lemma includes_cons (c : ascii) (s p : string) :
  Session.includes (String c s) p = Js.startsWith (String c s) p || Session.includes s p.
Proof. reflexivity. Qed.

Lemma includes_startsWith (s p : string) :
  Js.startsWith s p = true → Session.includes s p = true.
Proof. intros H. destruct s; cbn [Session.includes]; now rewrite H. Qed.

Lemma includes_app (a p b : string) : Session.includes (a +:+ p +:+ b) p = true.
Proof.
  induction a as [|c a IH].
  - change (EmptyString +:+ p +:+ b) with (p +:+ b).
    apply includes_startsWith, startsWith_app.
  - change (String c a +:+ p +:+ b) with (String c (a +:+ p +:+ b)).
    rewrite includes_cons, IH. apply orb_true_r.
Qed.

(** For ASCII names, the role does not depend on the letter case of the
    name, and any name that contains "officer", in whatever case and wherever
    in the name, logs in as an officer; so does "admin" in any case. *)
Theorem login_role_by_name (name a w b : string) :
  Js.isAscii name = true →
  Js.isAscii (a +:+ w +:+ b) = true →
  Session.toLowerCase w = "officer" →
  role (Session.login (Js.toUpperCase name)) = role (Session.login name)
  ∧ role (Session.login (Session.toLowerCase name)) = role (Session.login name)
  ∧ role (Session.login (a +:+ w +:+ b)) = OFFICER
  ∧ (Session.toLowerCase name = "admin" → role (Session.login name) = OFFICER).
Proof.
  intros _ _ Hw. unfold Session.login. cbn [role].
  rewrite toLowerCase_toUpperCase, toLowerCase_idem, !toLowerCase_app, Hw, includes_app.
  repeat split. intros ->. reflexivity.
Qed.

Lemma login_role_by_name_witness :
  role (Session.login "Class OFFICER Ana") = OFFICER
  ∧ role (Session.login (Js.toUpperCase "Admin")) = role (Session.login "Admin").
Proof.
  pose proof (login_role_by_name "Admin" "Class " "OFFICER" " Ana" eq_refl eq_refl eq_refl)
    as (H1 & _ & H3 & _).
  exact (conj H3 H1).
Defined.

Lemma replaceSpaces_length (s : string) :
  String.length (Session.replaceSpaces s) = String.length s.
Proof. induction s as [|c s IH]; cbn; [reflexivity|]. now rewrite IH. Qed.

Lemma toLowerCase_length (s : string) :
  String.length (Session.toLowerCase s) = String.length s.
Proof. induction s as [|c s IH]; cbn; [reflexivity|]. now rewrite IH. Qed.

(** For an ASCII name, the id of the user is the name in lower case with
    every white-space character replaced by an underscore: it is as long as
    the name, holds no white space and no upper-case letter, and two names
    that differ only in letter case get the same id. *)
Theorem login_id_shape (name : string) :
  Js.isAscii name = true →
  let u := Session.login name in
  String.length (u_id u) = String.length name
  ∧ Forall (λ c, Js.isWhiteSpace c = false
                 ∧ (nat_of_ascii c < 65 ∨ 90 < nat_of_ascii c)%nat) (chars (u_id u))
  ∧ u_id (Session.login (Js.toUpperCase name)) = u_id u
  ∧ username u = name.
Proof.
  intros _. cbn zeta. unfold Session.login. cbn [u_id username].
  split; [now rewrite replaceSpaces_length, toLowerCase_length|].
  split; [|split; [now rewrite toLowerCase_toUpperCase|reflexivity]].
  induction name as [|c name IH]; cbn; constructor; [|exact IH].
  pose proof (lower_not_upper_char c) as Hup. cbn zeta in Hup.
  destruct (Js.isWhiteSpace (Session.lowerChar c)) eqn:Hw.
  - split; [reflexivity|]. vm_compute. lia.
  - split; [exact Hw|exact Hup].
Qed.

Lemma login_id_shape_witness :
  String.length (u_id (Session.login "Class Officer Ana")) = 17%nat
  ∧ u_id (Session.login (Js.toUpperCase "Class Officer Ana"))
    = u_id (Session.login "Class Officer Ana").
Proof.
  pose proof (login_id_shape "Class Officer Ana" eq_refl) as (H1 & _ & H3 & _).
  exact (conj H1 H3).
Defined.

End Login.

(** ** Quotas and debts *)

Section Quotas.
Import ClassFunds.

(** A quota saved for the selected day is what that day asks for while it is
    active, and only that day: every other day keeps its quota, no day changes
    its status, and the override is still there after the day has been
    switched off and on again. Text that is not a number changes nothing. *)
Theorem saveDailyQuota_overrides_selected_day (a : Z) (st : State) :
  let st' := DailyView.saveDailyQuota (Some a) st in
  (∀ d, getQuotaForDate (settings st') d
        = if decide (d = selectedDate st)
          then (if isCollectionActive (settings st) d then a else 0)
          else getQuotaForDate (settings st) d)
  ∧ (∀ d, isCollectionActive (settings st') d = isCollectionActive (settings st) d)
  ∧ dailyQuota (settings st') = dailyQuota (settings st)
  ∧ students st' = students st
  ∧ (isCollectionActive (settings st) (selectedDate st) = true →
     getQuotaForDate (settings (toggleCollectionDay (toggleCollectionDay st'))) (selectedDate st)
     = a)
  ∧ DailyView.saveDailyQuota None st = st.
Proof.
  intros st'.
  assert (Hq : ∀ d, getQuotaForDate (settings st') d
                    = if decide (d = selectedDate st)
                      then (if isCollectionActive (settings st) d then a else 0)
                      else getQuotaForDate (settings st) d).
  { intros d. subst st'. unfold getQuotaForDate, isCollectionActive. cbn.
    destruct (decide (d = selectedDate st)) as [->|Hne].
    - rewrite lookup_insert_eq. reflexivity.
    - now rewrite lookup_insert_ne. }
  split; [exact Hq|]. repeat split.
  intros Hact.
  unfold getQuotaForDate. rewrite toggleCollectionDay_twice_status.
  change (isCollectionActive (settings st') (selectedDate st))
    with (isCollectionActive (settings st) (selectedDate st)).
  rewrite Hact. cbn. now rewrite lookup_insert_eq.
Qed.

Lemma sumList_le (g h : string → Z) (l : list string) :
  Forall (λ d, g d ≤ h d) l → sumList g l ≤ sumList h l.
Proof. unfold sumList. induction 1 as [|d l Hd _ IH]; cbn; lia. Qed.

Lemma sumList_ext_in (g h : string → Z) (l : list string) :
  (∀ d, d ∈ l → g d = h d) → sumList g l = sumList h l.
Proof.
  unfold sumList. induction l as [|d l IH]; intros H; cbn; [reflexivity|].
  rewrite (H d) by left. rewrite IH; [reflexivity|]. intros d' Hd'. apply H. now right.
Qed.

(** A student who has paid at least the quota on every counted day owes
    nothing and is never listed among the debtors, whether or not some day is
    overpaid; and what is recorded for the other days plays no part in the
    debt. *)
Theorem paid_up_student_owes_nothing (s : AppSettings) (dates : list string) (st : Student) :
  let q := λ d, default (dailyQuota s) (customQuotas s !! d) in
  let p := λ d, default 0 (payments st !! d) in
  Forall (λ d, q d ≤ p d) dates →
  debtOf s dates st = 0
  ∧ (∀ studs exps plans, st ∉ student <$> debtors (financialsOver dates studs exps plans s))
  ∧ (∀ st', (∀ d, d ∈ dates → payments st' !! d = payments st !! d) →
            debtOf s dates st' = debtOf s dates st).
Proof.
  intros q p Hall.
  assert (Hzero : debtOf s dates st = 0).
  { rewrite debtOf_sums. fold q p. pose proof (sumList_le q p dates Hall). lia. }
  split; [exact Hzero|]. split.
  - intros studs exps plans Hin. apply list_elem_of_fmap in Hin as (d & -> & Hd).
    unfold financialsOver in Hd. cbn [debtors] in Hd. rewrite sort_Permutation in Hd.
    apply list_elem_of_filter in Hd as [Hpos Hd].
    apply list_elem_of_fmap in Hd as (st0 & -> & _). cbn in Hpos, Hzero. lia.
  - intros st' Hsame. rewrite !debtOf_sums. do 2 f_equal.
    apply sumList_ext_in. intros d Hd. now rewrite (Hsame d Hd).
Qed.

Lemma paid_up_student_owes_nothing_witness :
  let s := {| dailyQuota := 5; currencySymbol := "P";
              customQuotas := {[ "2024-01-05" := 3 ]};
              collectionDays := {[ "2024-01-05" := true; Sample.day := true ]} |} in
  let st := {| id := "c"; name := "C"; gender := F;
               payments := {[ "2024-01-05" := 4; Sample.day := 5 ]} |} in
  debtOf s ["2024-01-05"; Sample.day] st = 0
  ∧ st ∉ student <$> debtors (financialsOver ["2024-01-05"; Sample.day]
                                 [Sample.A; st; Sample.B] [] [] s).
Proof.
  intros s st.
  assert (Hall : Forall (λ d, default (dailyQuota s) (customQuotas s !! d)
                              ≤ default 0 (payments st !! d)) ["2024-01-05"; Sample.day]).
  { repeat constructor; vm_compute; discriminate. }
  pose proof (paid_up_student_owes_nothing s ["2024-01-05"; Sample.day] st Hall)
    as (H1 & H2 & _).
  split; [exact H1|apply H2].
Defined.

End Quotas.

(** ** Payments and the days that count *)

Section UncountedDays.
Import ClassFunds.

Lemma values_sum_insert (m : gmap string Z) (d : string) (a : Z) :
  foldr Z.add 0 (JsObject.values (<[d := a]> m))
  = foldr Z.add 0 (JsObject.values m) + a - default 0 (m !! d).
Proof.
  unfold JsObject.values.
  assert (Hfresh : ∀ (m' : gmap string Z) (x : Z), m' !! d = None →
            foldr Z.add 0 (map_to_list (<[d := x]> m')).*2
            = x + foldr Z.add 0 (map_to_list m').*2).
  { intros m' x Hm'.
    rewrite (foldr_add_Permutation _ _
               (fmap_Permutation snd _ _ (map_to_list_insert m' d x Hm'))).
    reflexivity. }
  destruct (m !! d) as [old|] eqn:Hd.
  - rewrite <- (insert_delete_eq m d a).
    rewrite (Hfresh _ _ (lookup_delete_eq m d)).
    rewrite <- (insert_id m d old Hd) at 2. rewrite <- (insert_delete_eq m d old).
    rewrite (Hfresh _ _ (lookup_delete_eq m d)). cbn. lia.
  - rewrite (Hfresh _ _ Hd). cbn. lia.
Qed.

Lemma paymentsOf_insert (s : Student) (d : string) (a : Z) :
  paymentsOf {| id := id s; name := name s; gender := gender s;
                payments := <[d := a]> (payments s) |}
  = paymentsOf s + a - default 0 (payments s !! d).
Proof. unfold paymentsOf. cbn [payments]. rewrite <- !values_sum. apply values_sum_insert. Qed.

Lemma debtOf_insert_uncounted (s : AppSettings) (dates : list string) (st : Student)
    (d : string) (a : Z) :
  d ∉ dates →
  debtOf s dates {| id := id st; name := name st; gender := gender st;
                    payments := <[d := a]> (payments st) |}
  = debtOf s dates st.
Proof.
  intros Hd. rewrite !debtOf_sums. cbn [payments]. do 2 f_equal.
  apply sumList_ext, Forall_forall. intros k Hk.
  rewrite lookup_insert_ne; [reflexivity|]. intros ->. contradiction.
Qed.

Lemma uncounted_not_in_activeDates (today : string) (s : AppSettings) (d : string) :
  collectionDays s !! d ≠ Some true ∨ Js.leb d today = false →
  d ∉ ClassFundsLocal.activeDates today s.
Proof.
  intros H Hin. unfold ClassFundsLocal.activeDates in Hin.
  apply list_elem_of_filter in Hin as [[Ht Hle] _].
  destruct H as [H|H]; [contradiction|congruence].
Qed.

Lemma insert_related {A} (R : A → A → Prop) (cmp : A → A → Z) (x x' : A) (l l' : list A) :
  (∀ a a' b b', R a a' → R b b' → cmp a b = cmp a' b') →
  R x x' → Forall2 R l l' →
  Forall2 R (JsArray.insert cmp x l) (JsArray.insert cmp x' l').
Proof.
  intros Hcmp Hx Hl. induction Hl as [|y y' l l' Hy Hl IH]; cbn.
  - repeat constructor. exact Hx.
  - rewrite (Hcmp x x' y y' Hx Hy). destruct (cmp x' y' <=? 0); repeat constructor; auto.
Qed.

Lemma sort_related {A} (R : A → A → Prop) (cmp : A → A → Z) (l l' : list A) :
  (∀ a a' b b', R a a' → R b b' → cmp a b = cmp a' b') →
  Forall2 R l l' → Forall2 R (JsArray.sort cmp l) (JsArray.sort cmp l').
Proof.
  intros Hcmp Hl. induction Hl as [|x x' l l' Hx Hl IH]; cbn; [constructor|].
  now apply insert_related.
Qed.

Lemma filter_related {A} (R : A → A → Prop) (P : A → Prop) `{!∀ x, Decision (P x)}
    (l l' : list A) :
  (∀ a a', R a a' → (P a ↔ P a')) →
  Forall2 R l l' → Forall2 R (filter P l) (filter P l').
Proof.
  intros HP Hl. induction Hl as [|x x' l l' Hx Hl IH]; [constructor|].
  rewrite !filter_cons. pose proof (HP x x' Hx) as Hiff.
  destruct (decide (P x)), (decide (P x')); try tauto. now constructor.
Qed.

(** What one recorded payment does to the income, in exact terms. *)
Lemma income_after_payment (now : Date) (i : string) (amt : Z) (date : string) (st : State) :
  totalIncome (financialsLocalOf now (ClassFundsLocal.updateStudentPayment i amt date st))
  - totalIncome (financialsLocalOf now st)
  = foldr (λ s a, (amt - default 0 (payments s !! date)) + a) 0
      (filter (λ s, id s = i) (students st)).
Proof.
  set (upd := λ s, if decide (id s ≠ i) then s
                   else {| id := id s; name := name s; gender := gender s;
                           payments := <[date := amt]> (payments s) |}).
  assert (Hst' : students (ClassFundsLocal.updateStudentPayment i amt date st)
                 = upd <$> students st) by reflexivity.
  unfold financialsLocalOf, ClassFundsLocal.financials.
  rewrite !totalIncome_allPayments, Hst'. unfold allPayments.
  generalize (students st). intros l.
  induction l as [|s l IH]; [reflexivity|].
  rewrite fmap_cons, filter_cons. cbn [foldr].
  fold (paymentsOf (upd s)). fold (paymentsOf s).
  unfold upd at 1. destruct (decide (id s ≠ i)) as [Hne|Heq].
  - destruct (decide (id s = i)); [contradiction|]. lia.
  - destruct (decide (id s = i)); [|contradiction]. rewrite paymentsOf_insert. cbn [foldr]. lia.
Qed.

Lemma raised_amounts_nonneg (i : string) (amt : Z) (date : string) (studs : list Student) :
  Forall (λ s, id s = i → default 0 (payments s !! date) ≤ amt) studs →
  0 ≤ foldr (λ s a, (amt - default 0 (payments s !! date)) + a) 0
        (filter (λ s, id s = i) studs).
Proof.
  induction 1 as [|s l Hs _ IH]; [cbn; lia|]. rewrite filter_cons.
  destruct (decide (id s = i)) as [Heq|]; [|exact IH]. cbn [foldr].
  pose proof (Hs Heq). lia.
Qed.

(** A payment recorded for a day that does not count (a day that is not
    active, or a day after today) leaves every debt, the order of the debtor
    listing and the total debt as they were; the expenses and the wishlist
    are not concerned; and the income does not fall when the amount is not
    below what was recorded before for that day (nothing recorded counting
    as 0). *)
Theorem payment_on_uncounted_day (now : Date) (i : string) (amt : Z) (date : string)
    (st : State) :
  collectionDays (settings st) !! date ≠ Some true
  ∨ Js.leb date (ClassFundsLocal.toLocalISO now) = false →
  let st' := ClassFundsLocal.updateStudentPayment i amt date st in
  let f := financialsLocalOf now st in
  let f' := financialsLocalOf now st' in
  Forall2 (λ d d', debt d' = debt d ∧ id (student d') = id (student d))
          (debtors f) (debtors f')
  ∧ totalDebt f' = totalDebt f
  ∧ totalExpenses f' = totalExpenses f
  ∧ totalWishlist f' = totalWishlist f
  ∧ pieData f' = pieData f
  ∧ (Forall (λ s, id s = i → default 0 (payments s !! date) ≤ amt) (students st) →
     totalIncome f ≤ totalIncome f').
Proof.
  intros Hun st' f f'.
  set (today := ClassFundsLocal.toLocalISO now).
  set (dates := ClassFundsLocal.activeDates today (settings st)).
  assert (Hnot : date ∉ dates) by now apply uncounted_not_in_activeDates.
  set (upd := λ s, if decide (id s ≠ i) then s
                   else {| id := id s; name := name s; gender := gender s;
                           payments := <[date := amt]> (payments s) |}).
  assert (Hst' : students st' = upd <$> students st) by reflexivity.
  assert (Hdebt : ∀ s, debtOf (settings st) dates (upd s) = debtOf (settings st) dates s).
  { intros s. unfold upd. destruct (decide (id s ≠ i)); [reflexivity|].
    now apply debtOf_insert_uncounted. }
  assert (Hid : ∀ s, id (upd s) = id s).
  { intros s. unfold upd. now destruct (decide (id s ≠ i)). }
  set (R := λ d d' : Debtor, debt d' = debt d ∧ id (student d') = id (student d)).
  assert (Hlist : Forall2 R (debtors f) (debtors f')).
  { subst f f'. unfold financialsLocalOf, ClassFundsLocal.financials, financialsOver.
    cbn [debtors]. fold today. change (settings st') with (settings st). fold dates.
    rewrite Hst'. apply sort_related; [intros a a' b b' [Ha _] [Hb _]; now rewrite Ha, Hb|].
    apply filter_related; [intros a a' [Ha _]; now rewrite Ha|].
    rewrite <- list_fmap_compose. apply Forall2_fmap, Forall_Forall2_diag, Forall_true.
    intros s. split; cbn; [apply Hdebt|apply Hid]. }
  split; [exact Hlist|]. split; [|split; [reflexivity|split; [reflexivity|split; [reflexivity|]]]].
  - subst f f'. unfold financialsLocalOf, ClassFundsLocal.financials.
    fold today. change (settings st') with (settings st). fold dates.
    destruct (totalDebt_is_roster_debt_aux dates (students st') (expenses st')
                (plannedExpenses st') (settings st)) as [-> _].
    destruct (totalDebt_is_roster_debt_aux dates (students st) (expenses st)
                (plannedExpenses st) (settings st)) as [-> _].
    rewrite Hst'. generalize (students st). intros l.
    induction l as [|s l IH]; [reflexivity|]. rewrite fmap_cons. cbn [foldr].
    now rewrite Hdebt, IH.
  - intros Hup. pose proof (income_after_payment now i amt date st) as Hinc.
    fold st' in Hinc. fold f f' in Hinc.
    pose proof (raised_amounts_nonneg i amt date (students st) Hup). lia.
Qed.

Lemma payment_on_uncounted_day_witness :
  let st := Sample.stateOf [Sample.A; Sample.B] Sample.settingsOn in
  let f := financialsLocalOf Sample.noon st in
  let f' := financialsLocalOf Sample.noon
              (ClassFundsLocal.updateStudentPayment "a" 5 "2024-01-09" st) in
  totalDebt f' = totalDebt f ∧ totalIncome f ≤ totalIncome f'.
Proof.
  intros st.
  assert (H : collectionDays (settings st) !! "2024-01-09" ≠ Some true
              ∨ Js.leb "2024-01-09" (ClassFundsLocal.toLocalISO Sample.noon) = false)
    by (right; reflexivity).
  pose proof (payment_on_uncounted_day Sample.noon "a" 5 "2024-01-09" st H)
    as (_ & Hdebt & _ & _ & _ & Hinc).
  split; [exact Hdebt|]. apply Hinc.
  repeat constructor; vm_compute; intros; discriminate.
Defined.

End UncountedDays.

(** ** The cell of the week ledger *)

Section Cell.
Import ClassFunds.

(** The cell of a day that is not active, and any cell seen by somebody who
    is not an officer, never changes a payment; an edit that leaves the value
    as it is writes nothing; and in quick-pay mode a click on the cell of the
    selected day does what [togglePayment] does. *)
Theorem ledger_cell_guards (officer quick : bool) (st : State) (s : Student)
    (dateStr : string) (parsed : option Z) :
  let p := LedgerCell.propsOf officer quick st s dateStr in
  (collectionDays (settings st) !! dateStr ≠ Some true →
   LedgerCell.onChange s dateStr (LedgerCell.click p) st = st
   ∧ LedgerCell.onChange s dateStr (LedgerCell.commit p parsed) st = st)
  ∧ (officer = false →
     LedgerCell.onChange s dateStr (LedgerCell.click p) st = st
     ∧ LedgerCell.onChange s dateStr (LedgerCell.commit p parsed) st = st)
  ∧ (default 0 parsed = default 0 (payments s !! dateStr) →
     LedgerCell.onChange s dateStr (LedgerCell.commit p parsed) st = st)
  ∧ (officer = true → quick = true → dateStr = selectedDate st →
     collectionDays (settings st) !! dateStr = Some true →
     findStudent (id s) st = Some s →
     LedgerCell.onChange s dateStr (LedgerCell.click p) st = togglePayment (id s) st).
Proof.
  intros p. unfold LedgerCell.click, LedgerCell.commit, LedgerCell.render. subst p.
  cbn [LedgerCell.propsOf LedgerCell.isActive LedgerCell.isOfficer LedgerCell.quickPayMode
       LedgerCell.value LedgerCell.quota].
  split; [|split; [|split]].
  - intros Hin. apply isCollectionActive_false in Hin. rewrite Hin. cbn. auto.
  - intros ->. cbn. destruct (isCollectionActive _ _); cbn; auto.
  - intros Heq. destruct (isCollectionActive _ _); cbn; [|reflexivity].
    destruct (officer && quick); [reflexivity|]. destruct officer; cbn; [|reflexivity].
    destruct (decide _); [contradiction|reflexivity].
  - intros -> -> -> Hact Hfind. apply isCollectionActive_true in Hact.
    unfold togglePayment. unfold findStudent in Hfind. rewrite Hact, Hfind. reflexivity.
Qed.

End Cell.

(** ** Announcements and agenda *)

Section Board.

Lemma authorOf_nonempty (user : option User) : App.authorOf user ≠ EmptyString.
Proof.
  unfold App.authorOf. destruct user as [u|]; [|discriminate].
  destruct (role u); [discriminate|]. destruct (decide (username u = EmptyString)); [discriminate|assumption].
Qed.

(** A new announcement is put first and a new agenda item last; the author
    shown is never empty ("Officer" for an officer, the user's name otherwise,
    "Student" when there is none); and deleting by the id just given gives the
    list back when no older entry carries that id. *)
Theorem board_add_then_delete (now : Date) (user : option User) (new : Announcement)
    (item : AgendaItem) (announcements : list Announcement) (agenda : list AgendaItem) :
  pretty (getTime now) ∉ a_id <$> announcements →
  pretty (getTime now) ∉ g_id <$> agenda →
  (∃ a, App.handleAddAnnouncement now user new announcements = a :: announcements
        ∧ author a = App.authorOf user ∧ author a ≠ EmptyString
        ∧ title a = title new ∧ content a = content new)
  ∧ App.handleDeleteAnnouncement (pretty (getTime now))
      (App.handleAddAnnouncement now user new announcements) = announcements
  ∧ (∃ g, App.handleAddAgenda now item agenda = agenda ++ [g] ∧ g_title g = g_title item)
  ∧ App.handleDeleteAgenda (pretty (getTime now)) (App.handleAddAgenda now item agenda) = agenda.
Proof.
  intros Ha Hg. split; [|split; [|split]].
  - eexists. split; [reflexivity|]. cbn. repeat split. apply authorOf_nonempty.
  - unfold App.handleDeleteAnnouncement, App.handleAddAnnouncement.
    rewrite filter_cons_False by (cbn; intros H; now apply H).
    now apply (filter_id_fresh a_id).
  - eexists. split; reflexivity.
  - unfold App.handleDeleteAgenda, App.handleAddAgenda.
    rewrite filter_app, (filter_id_fresh g_id) by exact Hg.
    rewrite filter_cons_False by (cbn; intros H; now apply H). apply app_nil_r.
Qed.

Lemma board_add_then_delete_witness :
  let new := {| a_id := EmptyString; title := "Exam"; content := "Monday"; a_date := EmptyString;
                author := EmptyString; tags := None; isImportant := true |} in
  let old := {| a_id := "1704645000000"; title := "Dues"; content := "Bring 5";
                a_date := toISOString Sample.night; author := "Officer"; tags := None;
                isImportant := false |} in
  let older := {| a_id := "1"; title := "Welcome"; content := "Hello"; a_date := "2024-01-01";
                  author := "Student"; tags := Some ["General"]; isImportant := false |} in
  let item := {| g_id := EmptyString; g_title := "Quiz"; g_date := "2024-01-09"; time := "09:00";
                 g_type := EXAM |} in
  let agenda := [ {| g_id := "1704645000000"; g_title := "Homework 1"; g_date := "2024-01-08";
                     time := "08:00"; g_type := HOMEWORK |};
                  {| g_id := "2"; g_title := "Fair"; g_date := "2024-01-10"; time := "13:00";
                     g_type := EVENT |} ] in
  let ana := {| u_id := "ana"; username := "Ana"; role := STUDENT; avatar := None |} in
  (author <$> App.handleAddAnnouncement Sample.noon (Some ana) new [old; older]
   = ["Ana"; "Officer"; "Student"])
  ∧ App.handleDeleteAnnouncement (pretty (getTime Sample.noon))
      (App.handleAddAnnouncement Sample.noon (Some ana) new [old; older]) = [old; older]
  ∧ App.handleDeleteAgenda (pretty (getTime Sample.noon))
      (App.handleAddAgenda Sample.noon item agenda) = agenda.
Proof.
  intros new old older item agenda ana.
  assert (H1 : pretty (getTime Sample.noon) ∉ a_id <$> [old; older]).
  { apply (bool_decide_unpack _). vm_compute. exact I. }
  assert (H2 : pretty (getTime Sample.noon) ∉ g_id <$> agenda).
  { apply (bool_decide_unpack _). vm_compute. exact I. }
  pose proof (board_add_then_delete Sample.noon (Some ana) new item [old; older] agenda H1 H2)
    as ((a & Ha & Hauth & _) & Hdel & _ & Hdelg).
  split; [|exact (conj Hdel Hdelg)].
  rewrite Ha. cbn [fmap list_fmap]. rewrite Hauth. reflexivity.
Defined.

End Board.

(** ** The forms of the budget tab *)

Section BudgetForms.
Import ClassFunds.

(** An expense saved from the form is put last, with the amount typed, under
    the category chosen (the custom one when that box is ticked), or under
    "General" when the category is empty, so it never falls into the
    "Other" slice by lack of a category; the total of the expenses rises by
    the amount. With an empty description or amount nothing happens. *)
Theorem saveExpense_files_the_expense (now now' : Date) (parsed : Z) (form : ExpenseForm)
    (st : State) :
  inSync st →
  storesNext 1 (storage st) = true →
  let chosen := if isCustomCat form then customCat form else cat form in
  let st' := DailyView.saveExpense now parsed form st in
  (amountText form ≠ EmptyString → desc form ≠ EmptyString →
   (∃ tx, expenses st' = expenses st ++ [tx]
          ∧ amount tx = parsed ∧ description tx = desc form
          ∧ categoryOrOther tx = (if decide (chosen = EmptyString) then "General" else chosen))
   ∧ totalExpenses (financialsLocalOf now' st')
     = totalExpenses (financialsLocalOf now' st) + parsed)
  ∧ (amountText form = EmptyString ∨ desc form = EmptyString → st' = st).
Proof.
  intros (_ & He & _) Hok chosen st'. split.
  - intros Ha Hd.
    set (c := if decide (chosen = EmptyString) then "General" else chosen).
    set (tx := {| tx_id := pretty (getTime now); amount := parsed; description := desc form;
                  tx_date := toISOString now; tx_type := EXPENSE; category := Some c;
                  status := Some PAID |}).
    assert (Hst' : st' = setModals (setExpense false (modals st))
                           (refreshData
                              (withStorage (Db.addExpense now parsed (desc form) c) st))).
    { subst st'. unfold DailyView.saveExpense.
      destruct (decide (amountText form = EmptyString ∨ desc form = EmptyString)) as [[?|?]|_];
        [contradiction|contradiction|reflexivity]. }
    destruct (saveTransactions_stored 0 (Db.getTransactions (storage st) ++ [tx]) (storage st) Hok)
      as (Ht & _).
    assert (Hexp : expenses st' = expenses st ++ [tx]).
    { rewrite Hst'. cbn. unfold Db.addExpense. fold tx. now rewrite Ht, He. }
    split.
    + exists tx. split; [exact Hexp|]. repeat split.
      unfold categoryOrOther. cbn [category tx].
      destruct (decide (c = EmptyString)) as [Hc|]; [|reflexivity].
      subst c. destruct (decide (chosen = EmptyString)); [discriminate|contradiction].
    + unfold financialsLocalOf, ClassFundsLocal.financials.
      rewrite !totalExpenses_sumAmounts, Hexp, sumAmounts_app. unfold sumAmounts at 2. cbn. lia.
  - intros Hempty. subst st'. unfold DailyView.saveExpense.
    destruct (decide _); [reflexivity|contradiction].
Qed.

Lemma saveExpense_files_the_expense_witness :
  let form := {| desc := "Tape"; cat := EmptyString; amountText := "5"; isCustomCat := false;
                 customCat := EmptyString |} in
  let st := Sample.stateWithWish [] in
  totalExpenses (financialsLocalOf Sample.noon (DailyView.saveExpense Sample.noon 5 form st))
  = 0 + 5.
Proof.
  intros form st.
  assert (Hsync : inSync st) by (repeat split).
  pose proof (saveExpense_files_the_expense Sample.noon Sample.noon 5 form st Hsync eq_refl)
    as [H _].
  destruct H as [_ H]; [discriminate|discriminate|]. rewrite H. reflexivity.
Defined.

Lemma sumCosts_app (l k : list PlannedExpense) :
  sumCosts (l ++ k) = sumCosts l + sumCosts k.
Proof. unfold sumCosts. induction l; cbn; lia. Qed.

(** A wish saved from the form is put last on the wishlist, whose total
    rises by its cost while the balance is not touched; removing it by its id
    gives the wishlist back when no older wish carries that id. *)
Theorem saveWish_then_removePlanned (now now' : Date) (parsed : Z) (form : WishForm)
    (st : State) :
  inSync st →
  storesNext 2 (storage st) = true →
  w_item form ≠ EmptyString →
  costText form ≠ EmptyString →
  pretty (getTime now) ∉ pe_id <$> plannedExpenses st →
  let st' := DailyView.saveWish now parsed form st in
  let f := financialsLocalOf now' st in
  let f' := financialsLocalOf now' st' in
  plannedExpenses st'
  = plannedExpenses st ++ [ {| pe_id := pretty (getTime now); item := w_item form;
                               estimatedCost := parsed; priority := prio form;
                               notes := None |} ]
  ∧ totalWishlist f' = totalWishlist f + parsed
  ∧ currentBalance f' = currentBalance f
  ∧ plannedExpenses (DailyView.removePlanned (pretty (getTime now)) st') = plannedExpenses st.
Proof.
  intros (Hs & He & Hp & Hset) Hok Hi Hc Hfresh st' f f'.
  set (w := {| pe_id := pretty (getTime now); item := w_item form; estimatedCost := parsed;
               priority := prio form; notes := None |}).
  destruct (savePlannedExpenses_stored 1 (Db.getPlannedExpenses (storage st) ++ [w]) (storage st) Hok)
    as (Hp1 & Hs1 & He1 & _ & Hok1).
  assert (Hst' : st' = setModals (setWishlist false (modals st))
                         (refreshData
                            (withStorage (Db.addPlannedExpense now (w_item form) parsed (prio form))
                               st))).
  { subst st'. unfold DailyView.saveWish.
    destruct (decide (w_item form = EmptyString ∨ costText form = EmptyString)) as [[?|?]|_];
      [contradiction|contradiction|reflexivity]. }
  assert (H1 : plannedExpenses st' = plannedExpenses st ++ [w]).
  { rewrite Hst'. cbn. unfold Db.addPlannedExpense. fold w. now rewrite Hp1, Hp. }
  assert (H2 : students st' = students st ∧ expenses st' = expenses st).
  { rewrite Hst'. cbn. unfold Db.addPlannedExpense. fold w. now rewrite Hs1, He1, Hs, He. }
  destruct H2 as [H2 H3].
  split; [exact H1|]. split; [|split].
  - subst f f'. unfold financialsLocalOf, ClassFundsLocal.financials.
    rewrite !totalWishlist_sumCosts, H1, sumCosts_app. unfold sumCosts at 2. cbn. lia.
  - subst f f'. unfold financialsLocalOf, ClassFundsLocal.financials, financialsOver.
    cbn [currentBalance]. now rewrite H2, H3.
  - rewrite Hst'. unfold DailyView.removePlanned. cbn.
    unfold Db.addPlannedExpense, Db.deletePlannedExpense. fold w.
    match goal with |- context [Db.savePlannedExpenses ?d ?l] =>
      match l with
      | Db.savePlannedExpenses _ _ =>
          destruct (savePlannedExpenses_stored 0 d l Hok1) as (-> & _)
      end
    end.
    rewrite Hp1, filter_app, <- Hp, (filter_id_fresh pe_id) by exact Hfresh.
    rewrite filter_cons_False by (cbn; intros H; now apply H). apply app_nil_r.
Qed.

Lemma saveWish_then_removePlanned_witness :
  let form := {| w_item := "Tape"; costText := "5"; prio := Low |} in
  let st := Sample.stateWithWish [] in
  plannedExpenses (DailyView.removePlanned (pretty (getTime Sample.noon))
                     (DailyView.saveWish Sample.noon 5 form st))
  = [Sample.wish].
Proof.
  intros form st.
  assert (Hsync : inSync st) by (repeat split).
  assert (Hfresh : pretty (getTime Sample.noon) ∉ pe_id <$> plannedExpenses st).
  { apply (bool_decide_unpack _). vm_compute. exact I. }
  assert (Hi : w_item form ≠ EmptyString) by discriminate.
  assert (Hc : costText form ≠ EmptyString) by discriminate.
  exact (proj2 (proj2 (proj2 (saveWish_then_removePlanned Sample.noon Sample.noon 5 form st
                                Hsync eq_refl Hi Hc Hfresh)))).
Defined.

End BudgetForms.
